(** * PON port poller: shallow embedding and verified properties

    Sources embedded here:
    - [pon-monitoring/vendors/zte.py], [vsol.py], [fiberhome.py],
      [vendors/__init__.py]: the vendor profiles and their registry;
    - [pon-monitoring/poller.py]: [PONPortPoller], the polling pipeline;
    - [poller/pon_port_poller.py]: the polling service of the gateway.

    Conventions of the embedding.
    - Python numbers are [number]: an [int] is a [Z], a [float] is the exact
      rational it denotes ([Qc], canonical rationals, so that equality of
      values is Leibniz equality).  Comparisons of finite floats and ints are
      exact in Python, so every branch of the code is decided as in the
      source; the rounding of float arithmetic itself is not modelled.
      An int may have any size: where a raw reading is converted,
      [py_float_raw] raises the [OverflowError] of [float]; everywhere else
      the numbers are taken within the range of a double, and the theorems
      that need it say so.
    - A value that may be [None] is a [pyval]; a [dict] with string keys is a
      [gmap string pyval].
    - Exceptions are explicit: pure code returns a [result], code that talks
      to the device or to a store runs in the monad [M], which threads the
      chronological list of collaborator calls made so far.
    - The collaborators (SNMP transport, PostgreSQL, InfluxDB, Redis) are an
      [oracle]: a function from the calls made so far and the present call
      to the response, which may be "the call raises".
    - [print] statements are not modelled, except the alert lines of
      [check_thresholds], which are the alerts the poller emits.  Wall-clock
      timestamps ([datetime.utcnow()], SQL [NOW()]) are left out. *)

From Stdlib Require Import ZArith QArith Qcanon Qround Lqa Lia.
From stdpp Require Import base gmap strings list fin_maps pretty.

Local Open Scope Z_scope.

(** ** Python numbers and values *)

Inductive number :=
| Int (n : Z)
| Float (q : Qc).

Inductive pyval :=
| PNone
| PNum (x : number).

Coercion PNum : number >-> pyval.

Definition ofZ (n : Z) : Qc := Q2Qc (inject_Z n).

Definition value_of (x : number) : Qc :=
  match x with
  | Int n => ofZ n
  | Float q => q
  end.

Definition Qcltb (x y : Qc) : bool :=
  match (x ?= y)%Qc with Lt => true | _ => false end.

Definition Qceqb (x y : Qc) : bool :=
  match (x ?= y)%Qc with Eq => true | _ => false end.

Definition Qcleb (x y : Qc) : bool :=
  match (x ?= y)%Qc with Gt => false | _ => true end.

(** Exceptions: all of them are subclasses of [Exception]. *)
Inductive exn :=
| TypeError
| ValueError
| KeyError (k : string)
| AttributeError (a : string)
| ZeroDivisionError
| OverflowError
| CollaboratorError.

Inductive result (A : Type) :=
| Ok (a : A)
| Raise (e : exn).

Arguments Ok {A} a.
Arguments Raise {A} e.

Definition rbind {A B} (r : result A) (k : A → result B) : result B :=
  match r with
  | Ok a => k a
  | Raise e => Raise e
  end.

Notation "'let!' x ':=' r 'in' k" := (rbind r (λ x, k))
  (at level 10, x name, r at level 100, k at level 200,
   format "'[v' 'let!'  x  ':='  r  'in' '/' k ']'").

(** [try: body except Exception: handler] on pure code. *)
Definition try_except {A} (body : result A) (handler : exn → result A) : result A :=
  match body with
  | Ok a => Ok a
  | Raise e => handler e
  end.

(** The handler of [except (ValueError, TypeError): return d]: any other
    exception goes on. *)
Definition except_ValueError_TypeError {A} (d : A) (e : exn) : result A :=
  match e with
  | ValueError | TypeError => Ok d
  | _ => Raise e
  end.

(** Truthiness: [None], [0] and [0.0] are falsy. *)
Definition truthy (v : pyval) : bool :=
  match v with
  | PNone => false
  | PNum x => negb (Qceqb (value_of x) (ofZ 0))
  end.

(** [a or b] *)
Definition py_or (a b : pyval) : pyval := if truthy a then a else b.

(** [v is None] *)
Definition is_None (v : pyval) : bool :=
  match v with PNone => true | PNum _ => false end.

(** [a == b]: never raises; [None] equals only [None]. *)
Definition py_eq (a b : pyval) : bool :=
  match a, b with
  | PNone, PNone => true
  | PNum x, PNum y => Qceqb (value_of x) (value_of y)
  | _, _ => false
  end.

(** Ordering comparisons raise [TypeError] on [None]. *)
Definition py_lt (a b : pyval) : result bool :=
  match a, b with
  | PNum x, PNum y => Ok (Qcltb (value_of x) (value_of y))
  | _, _ => Raise TypeError
  end.

Definition py_gt (a b : pyval) : result bool := py_lt b a.

Definition py_le (a b : pyval) : result bool :=
  match a, b with
  | PNum x, PNum y => Ok (Qcleb (value_of x) (value_of y))
  | _, _ => Raise TypeError
  end.

(** [float(v)] on a value within the range of a double. *)
Definition py_float (v : pyval) : result number :=
  match v with
  | PNone => Raise TypeError
  | PNum x => Ok (Float (value_of x))
  end.

(** An int converts to a float unless it rounds beyond the largest double,
    [2^1024 - 2^971]: from [2^1024 - 2^970] on, in absolute value, the
    conversion raises [OverflowError]. *)
Definition float_overflows (n : Z) : bool := 2 ^ 1024 - 2 ^ 970 <=? Z.abs n.

Arguments float_overflows : simpl never.

(** [float(v)] on a raw reading, which may be an int of any size. *)
Definition py_float_raw (v : pyval) : result number :=
  match v with
  | PNone => Raise TypeError
  | PNum (Int n) => if float_overflows n then Raise OverflowError else Ok (Float (ofZ n))
  | PNum (Float q) => Ok (Float q)
  end.

(** Truncation toward zero, as [int] does on a float. *)
Definition Qctrunc (q : Qc) : Z :=
  if Qcleb (ofZ 0) q then Qfloor q else Qceiling q.

(** [int(v)] *)
Definition py_int (v : pyval) : result number :=
  match v with
  | PNone => Raise TypeError
  | PNum (Int n) => Ok (Int n)
  | PNum (Float q) => Ok (Int (Qctrunc q))
  end.

(** [a + b], [a * b]: int when both are int, float otherwise. *)
Definition py_add (a b : pyval) : result number :=
  match a, b with
  | PNum (Int m), PNum (Int n) => Ok (Int (m + n))
  | PNum x, PNum y => Ok (Float (value_of x + value_of y))
  | _, _ => Raise TypeError
  end.

Definition py_mul (a b : pyval) : result number :=
  match a, b with
  | PNum (Int m), PNum (Int n) => Ok (Int (m * n))
  | PNum x, PNum y => Ok (Float (value_of x * value_of y))
  | _, _ => Raise TypeError
  end.

(** [a / b]: true division, always a float.  The operands are within the
    range in which Python's division does not overflow. *)
Definition py_truediv (a b : pyval) : result number :=
  match a, b with
  | PNum x, PNum y =>
      if Qceqb (value_of y) (ofZ 0) then Raise ZeroDivisionError
      else Ok (Float (value_of x / value_of y))
  | _, _ => Raise TypeError
  end.

(** [min(a, b)] and [max(a, b)] of two numbers: the first argument is kept
    unless the second is strictly smaller (resp. larger). *)
Definition py_min (a b : number) : number :=
  if Qcltb (value_of b) (value_of a) then b else a.

Definition py_max (a b : number) : number :=
  if Qcltb (value_of a) (value_of b) then b else a.

(** [round(x, ndigits)] on a float: round half to even at [ndigits]
    decimals, on the exact rational.  Python rounds the binary double: the
    two agree unless the rational lies exactly half way between two
    neighbours, where the direction Python takes depends on the double.
    No theorem below depends on the direction taken there. *)
Definition round_half_even (q : Q) : Z :=
  let f := Qfloor q in
  match ((q - inject_Z f) ?= (1 # 2))%Q with
  | Lt => f
  | Gt => f + 1
  | Eq => if Z.even f then f else f + 1
  end.

Definition py_round (q : Qc) (ndigits : nat) : number :=
  let s := inject_Z (10 ^ Z.of_nat ndigits) in
  Float (Q2Qc (inject_Z (round_half_even (q * s)) / s)).

(** [d.get(k)] and [d.get(k, default)] *)
Definition dict_get (d : gmap string pyval) (k : string) : pyval :=
  default PNone (d !! k).

Definition dict_get_default (d : gmap string pyval) (k : string) (dflt : pyval) : pyval :=
  default dflt (d !! k).

(** [d[k]] *)
Definition dict_item (d : gmap string pyval) (k : string) : result pyval :=
  match d !! k with
  | Some v => Ok v
  | None => Raise (KeyError k)
  end.

(** ** Vendor profiles *)

(** The static methods of the vendor classes.  [calculate_utilization] takes
    the list of its positional arguments: a list that does not fit the
    signature raises [TypeError], as Python's argument binding does. *)

(** [vendors/zte.py] *)
Module ZTEVendor.

Definition NAME : string := "ZTE".

Definition PON_PORT_OIDS : list (string * string) :=
  [ ("temperature", "1.3.6.1.4.1.3902.1082.500.10.2.3.1.1.2");
    ("voltage", "1.3.6.1.4.1.3902.1082.500.10.2.3.1.1.3");
    ("tx_power", "1.3.6.1.4.1.3902.1082.500.10.2.3.1.1.4");
    ("rx_power", "1.3.6.1.4.1.3902.1082.500.10.2.3.1.1.5");
    ("tx_bias", "1.3.6.1.4.1.3902.1082.500.10.2.3.1.1.6");
    ("bandwidth_in", "1.3.6.1.2.1.2.2.1.10");
    ("bandwidth_out", "1.3.6.1.2.1.2.2.1.16") ].

Definition parse_power (value : pyval) : result pyval :=
  if is_None value || py_eq value (Int 0) then Ok PNone
  else
    try_except
      (let! x := py_float_raw value in
       let! r := py_truediv (PNum x) (Float (ofZ 100)) in
       Ok (PNum r))
      (λ _, Ok PNone).

Definition parse_temperature (value : pyval) : result pyval :=
  if is_None value then Ok PNone
  else
    try_except
      (let! x := py_float_raw value in
       let! r := py_truediv (PNum x) (Float (ofZ 256)) in
       Ok (PNum r))
      (λ _, Ok PNone).

Definition parse_voltage (value : pyval) : result pyval :=
  if is_None value then Ok PNone
  else
    try_except
      (let! x := py_float_raw value in
       let! r := py_truediv (PNum x) (Float (ofZ 10000)) in
       Ok (PNum r))
      (λ _, Ok PNone).

Definition port_capacity_default : pyval := Int 10000000000.

Definition calculate_utilization_body
    (bandwidth_in bandwidth_out port_capacity : pyval) : result pyval :=
  if is_None bandwidth_in || is_None bandwidth_out then Ok (PNum (Float (ofZ 0)))
  else
    let! total_bandwidth := py_add bandwidth_in bandwidth_out in
    let! r := py_truediv (PNum total_bandwidth) port_capacity in
    let! utilization := py_mul (PNum r) (Int 100) in
    Ok (PNum (py_min (Float (ofZ 100)) utilization)).

(** [calculate_utilization(bandwidth_in, bandwidth_out,
    port_capacity=10000000000)] *)
Definition calculate_utilization (args : list pyval) : result pyval :=
  match args with
  | [bandwidth_in; bandwidth_out] =>
      calculate_utilization_body bandwidth_in bandwidth_out port_capacity_default
  | [bandwidth_in; bandwidth_out; port_capacity] =>
      calculate_utilization_body bandwidth_in bandwidth_out port_capacity
  | _ => Raise TypeError
  end.

End ZTEVendor.

(** [vendors/fiberhome.py] *)
Module FiberHomeVendor.

Definition VENDOR_NAME : string := "FiberHome".

Definition parse_temperature (raw_value : pyval) : result pyval :=
  try_except
    (let! x := py_float_raw raw_value in
     let! r := py_truediv (PNum x) (Float (ofZ 100)) in
     Ok (PNum r))
    (except_ValueError_TypeError (PNum (Float (ofZ 0)))).

Definition parse_voltage (raw_value : pyval) : result pyval :=
  try_except
    (let! x := py_float_raw raw_value in
     let! r := py_truediv (PNum x) (Float (ofZ 1000)) in
     Ok (PNum r))
    (except_ValueError_TypeError (PNum (Float (ofZ 0)))).

Definition parse_power (raw_value : pyval) : result pyval :=
  try_except
    (let! x := py_float_raw raw_value in
     let! value := py_truediv (PNum x) (Float (ofZ 100)) in
     if Qcltb (ofZ 50) (value_of value) || Qcltb (value_of value) (ofZ (-50))
     then Ok PNone else Ok (PNum value))
    (except_ValueError_TypeError PNone).

Definition calculate_utilization_body
    (traffic_in traffic_out interval max_bandwidth : pyval) : result pyval :=
  let! c1 := py_le interval (Int 0) in
  let! c2 := (if c1 return result bool then Ok true else py_le max_bandwidth (Int 0)) in
  if c2 then Ok (PNum (Float (ofZ 0)))
  else
    let! s := py_add traffic_in traffic_out in
    let! total_bits := py_mul (PNum s) (Int 8) in
    let! r := py_truediv (PNum total_bits) interval in
    let! current_mbps := py_truediv (PNum r) (Int 1000000) in
    let! p := py_truediv (PNum current_mbps) max_bandwidth in
    let! utilization := py_mul (PNum p) (Int 100) in
    Ok (PNum (py_min (py_max utilization (Float (ofZ 0))) (Float (ofZ 100)))).

(** [calculate_utilization(traffic_in, traffic_out, interval,
    max_bandwidth)]: no default. *)
Definition calculate_utilization (args : list pyval) : result pyval :=
  match args with
  | [traffic_in; traffic_out; interval; max_bandwidth] =>
      calculate_utilization_body traffic_in traffic_out interval max_bandwidth
  | _ => Raise TypeError
  end.

End FiberHomeVendor.

(** [vendors/vsol.py] *)
Module VSOLVendor.

Definition VENDOR_NAME : string := "VSOL".

Definition parse_temperature (raw_value : pyval) : result pyval :=
  try_except
    (let! x := py_float_raw raw_value in
     let! r := py_truediv (PNum x) (Float (ofZ 1000)) in
     Ok (PNum r))
    (except_ValueError_TypeError (PNum (Float (ofZ 0)))).

Definition parse_voltage (raw_value : pyval) : result pyval :=
  try_except
    (let! x := py_float_raw raw_value in
     let! r := py_truediv (PNum x) (Float (ofZ 1000)) in
     Ok (PNum r))
    (except_ValueError_TypeError (PNum (Float (ofZ 0)))).

Definition parse_power (raw_value : pyval) : result pyval :=
  try_except
    (let! x := py_float_raw raw_value in
     let! value := py_truediv (PNum x) (Float (ofZ 100)) in
     if py_eq (PNum value) (Int 0)
        || Qcltb (value_of value) (ofZ (-40))
        || Qcltb (ofZ 10) (value_of value)
     then Ok PNone
     else Ok (PNum (py_round (value_of value) 2)))
    (except_ValueError_TypeError PNone).

Definition max_bandwidth_default : pyval := Int 2500.

Definition calculate_utilization_body
    (bytes_in bytes_out interval max_bandwidth : pyval) : result pyval :=
  let! c1 := py_le interval (Int 0) in
  let! c2 := (if c1 return result bool then Ok true else py_le max_bandwidth (Int 0)) in
  if c2 then Ok (PNum (Float (ofZ 0)))
  else
    let! total_bytes := py_add bytes_in bytes_out in
    let! b8 := py_mul (PNum total_bytes) (Int 8) in
    let! bps := py_truediv (PNum b8) interval in
    let! mbps := py_truediv (PNum bps) (Int 1000000) in
    let! p := py_truediv (PNum mbps) max_bandwidth in
    let! utilization := py_mul (PNum p) (Int 100) in
    Ok (PNum (py_min (py_max utilization (Float (ofZ 0))) (Float (ofZ 100)))).

(** [calculate_utilization(bytes_in, bytes_out, interval,
    max_bandwidth=2500)] *)
Definition calculate_utilization (args : list pyval) : result pyval :=
  match args with
  | [bytes_in; bytes_out; interval] =>
      calculate_utilization_body bytes_in bytes_out interval max_bandwidth_default
  | [bytes_in; bytes_out; interval; max_bandwidth] =>
      calculate_utilization_body bytes_in bytes_out interval max_bandwidth
  | _ => Raise TypeError
  end.

End VSOLVendor.

(** What the poller uses of a vendor class.  [PON_PORT_OIDS] raises
    [AttributeError] for a class that has no such attribute (the VSOL and
    FiberHome classes name their table [OIDS]). *)
Record vendor_class := {
  PON_PORT_OIDS : result (list (string * string));
  parse_temperature : pyval → result pyval;
  parse_voltage : pyval → result pyval;
  parse_power : pyval → result pyval;
  calculate_utilization : list pyval → result pyval;
}.

Definition ZTE : vendor_class := {|
  PON_PORT_OIDS := Ok ZTEVendor.PON_PORT_OIDS;
  parse_temperature := ZTEVendor.parse_temperature;
  parse_voltage := ZTEVendor.parse_voltage;
  parse_power := ZTEVendor.parse_power;
  calculate_utilization := ZTEVendor.calculate_utilization;
|}.

Definition FiberHome : vendor_class := {|
  PON_PORT_OIDS := Raise (AttributeError "PON_PORT_OIDS");
  parse_temperature := FiberHomeVendor.parse_temperature;
  parse_voltage := FiberHomeVendor.parse_voltage;
  parse_power := FiberHomeVendor.parse_power;
  calculate_utilization := FiberHomeVendor.calculate_utilization;
|}.

Definition VSOL : vendor_class := {|
  PON_PORT_OIDS := Raise (AttributeError "PON_PORT_OIDS");
  parse_temperature := VSOLVendor.parse_temperature;
  parse_voltage := VSOLVendor.parse_voltage;
  parse_power := VSOLVendor.parse_power;
  calculate_utilization := VSOLVendor.calculate_utilization;
|}.

(** [str.upper()] on a name of ASCII characters. *)
Definition upper_ascii (c : Ascii.ascii) : Ascii.ascii :=
  let n := Ascii.nat_of_ascii c in
  if (97 <=? n)%nat && (n <=? 122)%nat then Ascii.ascii_of_nat (n - 32) else c.

Fixpoint upper (s : string) : string :=
  match s with
  | EmptyString => EmptyString
  | String c s' => String (upper_ascii c) (upper s')
  end.

Definition Qcmin (x y : Qc) : Qc := if Qcleb x y then x else y.
Definition Qcmax (x y : Qc) : Qc := if Qcleb x y then y else x.

(** The formula of the specification, section 4.1, in its own words:
    [min(100, max(0, ((bytesIn+bytesOut)*8 / intervalSeconds / 1e6)
                      / maxBandwidthMbps * 100))]. *)
Definition utilization_reference (bytesIn bytesOut intervalSeconds maxBandwidthMbps : number) : Qc :=
  Qcmin (ofZ 100)
    (Qcmax (ofZ 0)
       ((((value_of bytesIn + value_of bytesOut) * ofZ 8 / value_of intervalSeconds / ofZ 1000000)
         / value_of maxBandwidthMbps * ofZ 100))%Qc).

(** ** Rows, sink records and collaborator calls *)

(** A row of table [olts] and a row of table [pon_ports], with the columns
    the poller reads. *)
Record olt := {
  olt_id : Z;
  olt_name : string;
  olt_vendor : string;
  olt_ip_address : string;
  olt_snmp_community : string;
}.

Record pon_port := {
  port_id : Z;
  port_name : string;
  port_number : Z;
  threshold_temperature_high : pyval;
  threshold_utilization_high : pyval;
  threshold_rx_power_low : pyval;
}.

(** The result of [str(v)]: the decimal numeral of an int, ["None"], or the
    [repr] of a float, which is kept symbolic. *)
Inductive pystr :=
| Lit (s : string)
| FloatRepr (q : Qc).

Definition py_str (v : pyval) : pystr :=
  match v with
  | PNone => Lit "None"
  | PNum (Int n) => Lit (pretty n)
  | PNum (Float q) => FloatRepr q
  end.

(** An InfluxDB point: measurement, tags, fields. *)
Record Point := {
  measurement : string;
  tags : list (string * string);
  fields : list (string * number);
}.

(** An alert of [check_thresholds]: its ['type'] and ['value'] entries; the
    ['message'] is the value printed with one decimal. *)
Record alert := {
  alert_type : string;
  alert_value : pyval;
}.

Inductive call :=
| GetCmd (community ip : string) (udp_port timeout retries : Z) (oid : string)
| FetchOlts
| FetchPonPorts (id : Z)
| UpdatePonPort (args : list pyval)
| UpdateOltLastPoll (id : Z)
| InfluxWrite (record : Point)
| RedisHset (key : string) (mapping : list (string * pystr))
| RedisExpire (key : string) (seconds : Z)
| PrintAlert (a : alert).

Inductive response :=
| Raises
| Returns
| SnmpResponse (errorIndication errorStatus : bool) (varBinds : list pyval)
| OltRows (rows : list olt)
| PonPortRows (rows : list pon_port).

(** The collaborators: the response to a call, given the calls made before
    it. *)
Definition oracle := list call → call → response.

(** ** The monad of effectful code *)

Definition M (A : Type) := list call → result A * list call.

Definition ret {A} (a : A) : M A := λ t, (Ok a, t).

Definition raise {A} (e : exn) : M A := λ t, (Raise e, t).

Definition bind {A B} (m : M A) (k : A → M B) : M B := λ t,
  match m t with
  | (Ok a, t') => k a t'
  | (Raise e, t') => (Raise e, t')
  end.

Notation "'let*' x ':=' m 'in' k" := (bind m (λ x, k))
  (at level 10, x name, m at level 100, k at level 200,
   format "'[v' 'let*'  x  ':='  m  'in' '/' k ']'").

Definition lift {A} (r : result A) : M A := λ t, (r, t).

(** [try: body except Exception as e: handler] *)
Definition try_catch {A} (body : M A) (handler : exn → M A) : M A := λ t,
  match body t with
  | (Ok a, t') => (Ok a, t')
  | (Raise e, t') => handler e t'
  end.

(** One call to a collaborator: it is recorded, then it returns or raises. *)
Definition perform (env : oracle) (c : call) : M response := λ t,
  match env t c with
  | Raises => (Raise CollaboratorError, t ++ [c])
  | r => (Ok r, t ++ [c])
  end.

(** [asyncio.gather] with [return_exceptions=True]: every task runs to its
    end and its value or its exception is collected.  The tasks are run one
    after the other; the interleaving at [await] points is not modelled. *)
Fixpoint gather {A} (tasks : list (M A)) : M (list (result A)) :=
  match tasks with
  | [] => ret []
  | task :: rest => λ t,
      match task t with
      | (r, t') =>
          match gather rest t' with
          | (Ok rs, t'') => (Ok (r :: rs), t'')
          | (Raise e, t'') => (Raise e, t'')
          end
      end
  end.

(** ** [poller.py]: the pure stages *)

(** The literals [0.3] and [0.2] denote these rationals. *)
Definition lit_0_3 : number := Float (Q2Qc (3 # 10)).
Definition lit_0_2 : number := Float (Q2Qc (2 # 10)).

(** [PONPortPoller.calculate_health_score], one definition for each of its
    four blocks ("Utilization (30%)", "Temperature (20%)", "RX Power (30%)",
    "Offline ONUs (20%)"); each takes the score so far. *)
Definition utilization_block (score : Z) (utilization : pyval) : result Z :=
  let! over90 := py_gt utilization (Int 90) in
  if over90 then Ok (score - 30)
  else
    let! over80 := py_gt utilization (Int 80) in
    if over80 then Ok (score - 20)
    else
      let! over70 := py_gt utilization (Int 70) in
      if over70 then Ok (score - 10) else Ok score.

Definition temperature_block (score : Z) (temperature : pyval) : result Z :=
  if truthy temperature then
    let! over70 := py_gt temperature (Int 70) in
    if over70 then Ok (score - 20)
    else
      let! over60 := py_gt temperature (Int 60) in
      if over60 then Ok (score - 10) else Ok score
  else Ok score.

Definition rx_power_block (score : Z) (rx_power : pyval) : result Z :=
  if truthy rx_power then
    let! under30 := py_lt rx_power (Int (-30)) in
    if under30 then Ok (score - 30)
    else
      let! under28 := py_lt rx_power (Int (-28)) in
      if under28 then Ok (score - 15) else Ok score
  else Ok score.

Definition offline_onus_block (score : Z) (total_onus offline_onus : pyval) : result Z :=
  let! some_onus := py_gt total_onus (Int 0) in
  if some_onus then
    let! offline_ratio := py_truediv offline_onus total_onus in
    let! over03 := py_gt (PNum offline_ratio) lit_0_3 in
    if over03 then Ok (score - 20)
    else
      let! over02 := py_gt (PNum offline_ratio) lit_0_2 in
      if over02 then Ok (score - 10) else Ok score
  else Ok score.

Definition calculate_health_score (metrics : gmap string pyval) : result Z :=
  let score := 100 in
  let utilization := dict_get_default metrics "utilization" (Int 0) in
  let! score := utilization_block score utilization in
  let temperature := dict_get metrics "temperature" in
  let! score := temperature_block score temperature in
  let rx_power := dict_get metrics "rx_power" in
  let! score := rx_power_block score rx_power in
  let total_onus := dict_get_default metrics "total_onus" (Int 0) in
  let offline_onus := dict_get_default metrics "offline_onus" (Int 0) in
  let! score := offline_onus_block score total_onus offline_onus in
  Ok (Z.max 0 score).

(** The first half of [PONPortPoller.check_thresholds]: the list [alerts]
    it builds, one definition for each of its three checks; each takes the
    alerts so far. *)
Definition temperature_check (pon_port : pon_port) (metrics : gmap string pyval)
    (alerts : list alert) : result (list alert) :=
  let! hot :=
    py_gt (dict_get_default metrics "temperature" (Int 0))
          (threshold_temperature_high pon_port) in
  if hot then
    let! value := dict_item metrics "temperature" in
    Ok (alerts ++ [{| alert_type := "temperature"; alert_value := value |}])
  else Ok alerts.

Definition utilization_check (pon_port : pon_port) (metrics : gmap string pyval)
    (alerts : list alert) : result (list alert) :=
  let! busy :=
    py_gt (dict_get_default metrics "utilization" (Int 0))
          (threshold_utilization_high pon_port) in
  if busy then
    let! value := dict_item metrics "utilization" in
    Ok (alerts ++ [{| alert_type := "utilization"; alert_value := value |}])
  else Ok alerts.

Definition rx_power_check (pon_port : pon_port) (metrics : gmap string pyval)
    (alerts : list alert) : result (list alert) :=
  let! weak :=
    (if truthy (dict_get metrics "rx_power") return result bool then
       let! value := dict_item metrics "rx_power" in
       py_lt value (threshold_rx_power_low pon_port)
     else Ok false) in
  if weak then
    let! value := dict_item metrics "rx_power" in
    Ok (alerts ++ [{| alert_type := "rx_power"; alert_value := value |}])
  else Ok alerts.

Definition build_alerts (pon_port : pon_port) (metrics : gmap string pyval)
    : result (list alert) :=
  let alerts := [] in
  let! alerts := temperature_check pon_port metrics alerts in
  let! alerts := utilization_check pon_port metrics alerts in
  let! alerts := rx_power_check pon_port metrics alerts in
  Ok alerts.

(** The parameters [$1 .. $12] of the [UPDATE pon_ports] statement. *)
Definition update_args (pon_port : pon_port) (metrics : gmap string pyval)
    (health_score : Z) : list pyval :=
  [ dict_get metrics "temperature";
    dict_get metrics "voltage";
    dict_get metrics "tx_power";
    dict_get metrics "rx_power";
    dict_get metrics "utilization";
    dict_get metrics "bandwidth_in";
    dict_get metrics "bandwidth_out";
    dict_get_default metrics "online_onus" (Int 0);
    dict_get_default metrics "offline_onus" (Int 0);
    dict_get_default metrics "total_onus" (Int 0);
    PNum (Int health_score);
    PNum (Int (port_id pon_port)) ].

(** The InfluxDB point of one poll. *)
Definition influx_point (olt : olt) (pon_port : pon_port)
    (metrics : gmap string pyval) (health_score : Z) : result Point :=
  let! temperature := py_float (py_or (dict_get metrics "temperature") (Int 0)) in
  let! voltage := py_float (py_or (dict_get metrics "voltage") (Int 0)) in
  let! tx_power := py_float (py_or (dict_get metrics "tx_power") (Int 0)) in
  let! rx_power := py_float (py_or (dict_get metrics "rx_power") (Int 0)) in
  let! utilization := py_float (py_or (dict_get metrics "utilization") (Int 0)) in
  let! bandwidth_in := py_int (py_or (dict_get metrics "bandwidth_in") (Int 0)) in
  let! bandwidth_out := py_int (py_or (dict_get metrics "bandwidth_out") (Int 0)) in
  let! online_onus := py_int (py_or (dict_get metrics "online_onus") (Int 0)) in
  let! score := py_int (PNum (Int health_score)) in
  Ok {| measurement := "pon_port_metrics";
        tags := [ ("pon_port_id", pretty (port_id pon_port));
                  ("olt_id", pretty (olt_id olt));
                  ("port_name", port_name pon_port) ];
        fields := [ ("temperature", temperature);
                    ("voltage", voltage);
                    ("tx_power", tx_power);
                    ("rx_power", rx_power);
                    ("utilization", utilization);
                    ("bandwidth_in", bandwidth_in);
                    ("bandwidth_out", bandwidth_out);
                    ("online_onus", online_onus);
                    ("health_score", score) ] |}.

(** The Redis key and hash of one poll (without its ['timestamp']). *)
Definition cache_key (pon_port : pon_port) : string :=
  "pon_port:" +:+ pretty (port_id pon_port) +:+ ":metrics".

Definition cache_mapping (metrics : gmap string pyval) (health_score : Z)
    : list (string * pystr) :=
  [ ("temperature", py_str (py_or (dict_get metrics "temperature") (Int 0)));
    ("voltage", py_str (py_or (dict_get metrics "voltage") (Int 0)));
    ("tx_power", py_str (py_or (dict_get metrics "tx_power") (Int 0)));
    ("rx_power", py_str (py_or (dict_get metrics "rx_power") (Int 0)));
    ("utilization", py_str (py_or (dict_get metrics "utilization") (Int 0)));
    ("online_onus", py_str (py_or (dict_get metrics "online_onus") (Int 0)));
    ("health_score", py_str (PNum (Int health_score))) ].

(** ** [poller.py]: the stages that call collaborators *)

(** A [print] of the poller that the embedding keeps: it is recorded and
    cannot fail. *)
Definition emit (c : call) : M unit := λ t, (Ok tt, t ++ [c]).

Fixpoint print_alerts (alerts : list alert) : M unit :=
  match alerts with
  | [] => ret tt
  | a :: rest => let* _ := emit (PrintAlert a) in print_alerts rest
  end.

(** [PONPortPoller.check_thresholds] *)
Definition check_thresholds (pon_port : pon_port) (metrics : gmap string pyval) : M unit :=
  let* alerts := lift (build_alerts pon_port metrics) in
  print_alerts alerts.

(** The branch on [metric_name] in the loop of [snmp_get_pon_metrics].  A
    raw reading is [None] or a number (an SNMP integer, counter or gauge);
    a reading of octets is outside the embedding. *)
Definition parse_metric (vendor_class : vendor_class) (metric_name : string)
    (value : pyval) : result pyval :=
  if String.eqb metric_name "temperature" then parse_temperature vendor_class value
  else if String.eqb metric_name "voltage" then parse_voltage vendor_class value
  else if String.eqb metric_name "tx_power" || String.eqb metric_name "rx_power"
  then parse_power vendor_class value
  else if truthy value then let! n := py_int value in Ok (PNum n)
  else Ok (PNum (Int 0)).

(** [for varBind in varBinds: ... metrics[metric_name] = ...] *)
Fixpoint store_varBinds (vendor_class : vendor_class) (metric_name : string)
    (varBinds : list pyval) (metrics : gmap string pyval) : result (gmap string pyval) :=
  match varBinds with
  | [] => Ok metrics
  | value :: rest =>
      let! v := parse_metric vendor_class metric_name value in
      store_varBinds vendor_class metric_name rest (<[metric_name := v]> metrics)
  end.

Section Poller.

(** [vendors/huawei.py] is not among the sources: the class is a
    parameter. *)
Variable HuaweiVendor : vendor_class.

Variable env : oracle.

(** [vendors/__init__.py] *)
Definition VENDORS : gmap string vendor_class :=
  {[ "ZTE" := ZTE; "HUAWEI" := HuaweiVendor; "FIBERHOME" := FiberHome; "VSOL" := VSOL ]}.

Definition get_vendor (vendor_name : string) : option vendor_class :=
  VENDORS !! upper vendor_name.

(** [PONPortPoller.__init__]: [self.vendor_map] *)
Definition vendor_map : gmap string vendor_class :=
  {[ "ZTE" := ZTE; "Huawei" := HuaweiVendor ]}.

(** The request of one metric: [getCmd] on [UdpTransportTarget((ip, 161),
    timeout=5, retries=1)]. *)
Definition snmp_request (ip community : string) (oid_index : Z) (base_oid : string) : call :=
  GetCmd community ip 161 5 1 (base_oid +:+ "." +:+ pretty oid_index).

(** The loop [for metric_name, base_oid in vendor_class.PON_PORT_OIDS.items()] *)
Fixpoint read_metrics (ip community : string) (oid_index : Z) (vendor_class : vendor_class)
    (oids : list (string * string)) (metrics : gmap string pyval) : M (gmap string pyval) :=
  match oids with
  | [] => ret metrics
  | (metric_name, base_oid) :: rest =>
      let* r := perform env (snmp_request ip community oid_index base_oid) in
      match r with
      | SnmpResponse errorIndication errorStatus varBinds =>
          if errorIndication || errorStatus
          then read_metrics ip community oid_index vendor_class rest metrics
          else
            let* metrics := lift (store_varBinds vendor_class metric_name varBinds metrics) in
            read_metrics ip community oid_index vendor_class rest metrics
      | _ => raise TypeError
      end
  end.

(** (A response that is not a tuple of four cannot be unpacked: the last
    branch of [read_metrics].) *)

(** [PONPortPoller.snmp_get_pon_metrics]: [None] is Python's [None]. *)
Definition snmp_get_pon_metrics (ip community : string) (port_number : Z)
    (vendor_class : vendor_class) : M (option (gmap string pyval)) :=
  try_catch
    (let metrics := ∅ in
     let oid_index := port_number in
     let* oids := lift (PON_PORT_OIDS vendor_class) in
     let* metrics := read_metrics ip community oid_index vendor_class oids metrics in
     let* metrics :=
       (match metrics !! "bandwidth_in", metrics !! "bandwidth_out" with
        | Some bandwidth_in, Some bandwidth_out =>
            let* u := lift (calculate_utilization vendor_class [bandwidth_in; bandwidth_out]) in
            ret (<["utilization" := u]> metrics)
        | _, _ => ret metrics
        end) in
     let metrics := <["online_onus" := PNum (Int 0)]> metrics in
     let metrics := <["offline_onus" := PNum (Int 0)]> metrics in
     let metrics := <["total_onus" := PNum (Int 0)]> metrics in
     ret (Some metrics))
    (λ e, ret None).

(** [PONPortPoller.poll_pon_port] *)
Definition poll_pon_port (olt : olt) (pon_port : pon_port) (vendor_class : vendor_class)
    : M unit :=
  try_catch
    (let* metrics :=
       snmp_get_pon_metrics (olt_ip_address olt) (olt_snmp_community olt)
                            (port_number pon_port) vendor_class in
     match metrics with
     | None => ret tt
     | Some metrics =>
         if (size metrics =? 0)%nat then ret tt
         else
           let* health_score := lift (calculate_health_score metrics) in
           let* _ := perform env (UpdatePonPort (update_args pon_port metrics health_score)) in
           let* point := lift (influx_point olt pon_port metrics health_score) in
           let* _ := perform env (InfluxWrite point) in
           let* _ := perform env (RedisHset (cache_key pon_port)
                                            (cache_mapping metrics health_score)) in
           let* _ := perform env (RedisExpire (cache_key pon_port) 300) in
           check_thresholds pon_port metrics
     end)
    (λ e, ret tt).

(** [for pon_port in pon_ports: await self.poll_pon_port(...)] *)
Fixpoint poll_pon_ports (olt : olt) (pon_ports : list pon_port) (vendor_class : vendor_class)
    : M unit :=
  match pon_ports with
  | [] => ret tt
  | pon_port :: rest =>
      let* _ := poll_pon_port olt pon_port vendor_class in
      poll_pon_ports olt rest vendor_class
  end.

(** [PONPortPoller.poll_olt] *)
Definition poll_olt (olt : olt) : M bool :=
  try_catch
    (match vendor_map !! olt_vendor olt with
     | None => ret false
     | Some vendor_class =>
         let* r := perform env (FetchPonPorts (olt_id olt)) in
         match r with
         | PonPortRows pon_ports =>
             let* _ := poll_pon_ports olt pon_ports vendor_class in
             let* _ := perform env (UpdateOltLastPoll (olt_id olt)) in
             ret true
         | _ => raise TypeError
         end
     end)
    (λ e, ret false).

(** [r is True] *)
Definition is_True (r : result bool) : bool :=
  match r with
  | Ok true => true
  | _ => false
  end.

(** [sum(1 for r in results if r is True)] *)
Definition count_success (results : list (result bool)) : nat :=
  length (List.filter is_True results).

(** [PONPortPoller.poll_all_olts]: returns the pair [(success, failed)] that
    the source prints. *)
Definition poll_all_olts : M (nat * nat) :=
  let* r := perform env FetchOlts in
  match r with
  | OltRows olts =>
      let tasks := map poll_olt olts in
      let* results := gather tasks in
      let success := count_success results in
      let failed := (length results - success)%nat in
      ret (success, failed)
  | _ => raise TypeError
  end.

End Poller.

(** ** The health score in the words of the specification *)

(** The numeric value of a [pyval], when it has one. *)
Definition numeric (v : pyval) : option Qc :=
  match v with
  | PNone => None
  | PNum x => Some (value_of x)
  end.

(** A numeric entry of a metric set, when present. *)
Definition metric (metrics : gmap string pyval) (k : string) : option Qc :=
  numeric (dict_get metrics k).

Definition utilization_penalty (u : Qc) : Z :=
  if Qcltb (ofZ 90) u then 30
  else if Qcltb (ofZ 80) u then 20
  else if Qcltb (ofZ 70) u then 10
  else 0.

Definition temperature_penalty (t : option Qc) : Z :=
  match t with
  | Some t => if Qcltb (ofZ 70) t then 20 else if Qcltb (ofZ 60) t then 10 else 0
  | None => 0
  end.

Definition rx_power_penalty (p : option Qc) : Z :=
  match p with
  | Some p => if Qcltb p (ofZ (-30)) then 30 else if Qcltb p (ofZ (-28)) then 15 else 0
  | None => 0
  end.

Definition offline_penalty (offline total : Qc) : Z :=
  if Qcltb (ofZ 0) total then
    let ratio := (offline / total)%Qc in
    if Qcltb (Q2Qc (3 # 10)) ratio then 20
    else if Qcltb (Q2Qc (2 # 10)) ratio then 10
    else 0
  else 0.


(** ** Inputs of the examples *)

Definition metrics_overloaded : gmap string pyval :=
  {[ "utilization" := PNum (Int 95); "total_onus" := PNum (Int 0) ]}.

Definition metrics_degraded : gmap string pyval :=
  {[ "utilization" := PNum (Int 50);
     "temperature" := PNum (Int 75);
     "rx_power" := PNum (Int (-31));
     "total_onus" := PNum (Int 10);
     "offline_onus" := PNum (Int 4) ]}.

Definition metrics_warm : gmap string pyval :=
  {[ "temperature" := PNum (Int 65);
     "utilization" := PNum (Int 50);
     "rx_power" := PNum (Int (-20)) ]}.

Definition port_1 : pon_port :=
  {| port_id := 7; port_name := "gpon0/1"; port_number := 1;
     threshold_temperature_high := PNum (Int 60);
     threshold_utilization_high := PNum (Int 80);
     threshold_rx_power_low := PNum (Int (-28)) |}.

Definition olt_zte : olt :=
  {| olt_id := 1; olt_name := "olt-a"; olt_vendor := "ZTE";
     olt_ip_address := "10.0.0.1"; olt_snmp_community := "public" |}.

Definition olt_vsol : olt :=
  {| olt_id := 2; olt_name := "olt-b"; olt_vendor := "VSOL";
     olt_ip_address := "10.0.0.2"; olt_snmp_community := "public" |}.

(** Every device answers every request with the raw reading 2560 and every
    store accepts every write. *)
Definition env_healthy : oracle := λ _ c,
  match c with
  | GetCmd _ _ _ _ _ _ => SnmpResponse false false [PNum (Int 2560)]
  | FetchOlts => OltRows [olt_zte; olt_vsol]
  | FetchPonPorts _ => PonPortRows [port_1]
  | _ => Returns
  end.

(** As [env_healthy], but the [UPDATE pon_ports] statement raises. *)
Definition env_state_store_down : oracle := λ t c,
  match c with
  | UpdatePonPort _ => Raises
  | _ => env_healthy t c
  end.

(** As [env_healthy], but the Redis [hset] raises. *)
Definition env_cache_down : oracle := λ t c,
  match c with
  | RedisHset _ _ => Raises
  | _ => env_healthy t c
  end.

(** As [env_healthy], but the device does not answer: every request
    comes back with an error indication (a timeout). *)
Definition env_device_silent : oracle := λ t c,
  match c with
  | GetCmd _ _ _ _ _ _ => SnmpResponse true false []
  | _ => env_healthy t c
  end.

(** As [env_healthy], but the device cannot be reached: every request
    raises. *)
Definition env_device_unreachable : oracle := λ t c,
  match c with
  | GetCmd _ _ _ _ _ _ => Raises
  | _ => env_healthy t c
  end.

(** ** The threshold checks in the words of the specification *)

(** The alert of one check: raised when the metric is present, as a number,
    and violates its threshold. *)
Definition alert_if (kind : string) (v : option pyval) (violates : Qc → bool) : list alert :=
  match v with
  | Some (PNum x) =>
      if violates (value_of x) then [{| alert_type := kind; alert_value := PNum x |}] else []
  | _ => []
  end.

(** [rx_violation] is the test applied to a present rx_power reading. *)
Definition alerts_reference (temperature_high utilization_high : Qc)
    (rx_violation : Qc → bool) (metrics : gmap string pyval) : list alert :=
  alert_if "temperature" (metrics !! "temperature") (λ v, Qcltb temperature_high v)
  ++ alert_if "utilization" (metrics !! "utilization") (λ v, Qcltb utilization_high v)
  ++ alert_if "rx_power" (metrics !! "rx_power") rx_violation.

(** A port whose rx_power threshold is above zero, and a reading of exactly
    0 dBm. *)
Definition port_2 : pon_port :=
  {| port_id := 8; port_name := "gpon0/2"; port_number := 2;
     threshold_temperature_high := PNum (Int 60);
     threshold_utilization_high := PNum (Int 80);
     threshold_rx_power_low := PNum (Int 1) |}.

Definition metrics_zero_rx : gmap string pyval :=
  {[ "temperature" := PNum (Int 40);
     "utilization" := PNum (Int 50);
     "rx_power" := PNum (Float (ofZ 0)) ]}.

(** ** Reading the sink records *)

(** The entry of name [k] in an association list. *)
Definition assoc {A} (k : string) (l : list (string * A)) : option A :=
  snd <$> List.find (λ p, String.eqb (fst p) k) l.

(** The position of a power field among the parameters of the [UPDATE]
    statement ([$3] and [$4]). *)
Definition update_position (field : string) : nat :=
  if String.eqb field "tx_power" then 2%nat else 3%nat.

(** ** Reading the trace of calls *)

Inductive sink :=
| StateSink
| SeriesSink
| CacheSink.

(** The sink a call writes to: the [UPDATE pon_ports] statement is the
    latest-state write, [write_api.write] the time-series write and [hset]
    the cache write. *)
Definition sink_of (c : call) : option sink :=
  match c with
  | UpdatePonPort _ => Some StateSink
  | InfluxWrite _ => Some SeriesSink
  | RedisHset _ _ => Some CacheSink
  | _ => None
  end.

Definition sink_writes (t : list call) : list sink := omap sink_of t.

Definition is_GetCmd (c : call) : bool :=
  match c with
  | GetCmd _ _ _ _ _ _ => true
  | _ => false
  end.

Definition is_Raises (r : response) : bool :=
  match r with
  | Raises => true
  | _ => false
  end.

Definition is_SnmpResponse (r : response) : bool :=
  match r with
  | SnmpResponse _ _ _ => true
  | _ => false
  end.

(** Collaborators whose response to a call does not depend on the calls
    made before it. *)
Definition history_free (env : oracle) : Prop :=
  ∀ (t t' : list call) (c : call), env t c = env t' c.


(** The requests of a table of identifiers, in its order. *)
Definition requests (ip community : string) (port_number : Z)
    (oids : list (string * string)) : list call :=
  map (λ entry, snmp_request ip community port_number (snd entry)) oids.

(** * The rest of the vendor profiles and of the services *)

(** ** More of Python *)

Import Stdlib.Strings.Ascii.

(** [a - b]: int when both are int, float otherwise. *)
Definition py_sub (a b : pyval) : result number :=
  match a, b with
  | PNum (Int m), PNum (Int n) => Ok (Int (m - n))
  | PNum x, PNum y => Ok (Float (value_of x - value_of y))
  | _, _ => Raise TypeError
  end.

(** [status_map.get(value, default)] on a dict literal with int keys: a
    number finds the key it is equal to ([1.0] finds the key [1]), [None]
    finds none. *)
Fixpoint int_key_get (status_map : list (Z * string)) (value : pyval) (dflt : string)
    : string :=
  match status_map with
  | [] => dflt
  | (k, s) :: rest =>
      if py_eq value (PNum (Int k)) then s else int_key_get rest value dflt
  end.

(** The handler of [except (ValueError, TypeError, ZeroDivisionError):
    return d]. *)
Definition except_ValueError_TypeError_ZeroDivisionError {A} (d : A) (e : exn) : result A :=
  match e with
  | ValueError | TypeError | ZeroDivisionError => Ok d
  | _ => Raise e
  end.

(** [s.replace(c, '')] for a one-character [c]. *)
Fixpoint remove_char (c : Ascii.ascii) (s : string) : string :=
  match s with
  | EmptyString => EmptyString
  | String d s' =>
      if Ascii.eqb d c then remove_char c s' else String d (remove_char c s')
  end.

(** [f'{b:02x}']: two lower-case hexadecimal digits. *)
Definition hex_char (n : nat) : Ascii.ascii :=
  match String.get n "0123456789abcdef" with
  | Some c => c
  | None => "0"%char
  end.

Definition format_02x (b : Byte.byte) : string :=
  let n := Byte.to_nat b in
  String (hex_char (n / 16)) (String (hex_char (n mod 16)) EmptyString).

(** The value of a hexadecimal digit, of either case. *)
Definition hex_value (c : Ascii.ascii) : option nat :=
  let n := Ascii.nat_of_ascii c in
  if (48 <=? n)%nat && (n <=? 57)%nat then Some (n - 48)%nat
  else if (97 <=? n)%nat && (n <=? 102)%nat then Some (n - 87)%nat
  else if (65 <=? n)%nat && (n <=? 70)%nat then Some (n - 55)%nat
  else None.

(** ASCII whitespace: space, [\t], [\n], [\v], [\f], [\r]. *)
Definition is_ascii_space (c : Ascii.ascii) : bool :=
  let n := Ascii.nat_of_ascii c in
  (n =? 32)%nat || ((9 <=? n)%nat && (n <=? 13)%nat).

(** [bytes.fromhex(s)]: pairs of hexadecimal digits, ASCII whitespace
    between the pairs is skipped; anything else is a [ValueError]. *)
Fixpoint fromhex (s : string) : result (list Byte.byte) :=
  match s with
  | EmptyString => Ok []
  | String c s' =>
      if is_ascii_space c then fromhex s'
      else
        match s' with
        | EmptyString => Raise ValueError
        | String d s'' =>
            match hex_value c, hex_value d with
            | Some h, Some l =>
                match Byte.of_nat (16 * h + l) with
                | Some b => let! bs := fromhex s'' in Ok (b :: bs)
                | None => Raise ValueError
                end
            | _, _ => Raise ValueError
            end
        end
  end.

(** ** [vendors/zte.py]: the ONU status *)
Module ZTEVendor_onu.

Definition status_map : list (Z * string) :=
  [ (1, "online"); (2, "offline"); (3, "los"); (4, "dying_gasp") ].

Definition parse_onu_status (value : pyval) : string :=
  int_key_get status_map value "unknown".

End ZTEVendor_onu.

(** ** [vendors/fiberhome.py]: status, traffic and distance *)
Module FiberHomeVendor_onu.

Definition pon_status_map : list (Z * string) :=
  [ (1, "up"); (2, "down"); (3, "testing"); (4, "unknown"); (5, "dormant");
    (6, "notPresent"); (7, "lowerLayerDown") ].

(** No [try] in the two status parsers of this class: [int(raw_value)] may
    raise. *)
Definition parse_pon_status (raw_value : pyval) : result string :=
  let! n := py_int raw_value in
  Ok (int_key_get pon_status_map (PNum n) "unknown").

Definition onu_status_map : list (Z * string) :=
  [ (1, "online"); (2, "offline"); (3, "dyingGasp"); (4, "authFailed");
    (5, "configuring") ].

Definition parse_onu_status (raw_value : pyval) : result string :=
  let! n := py_int raw_value in
  Ok (int_key_get onu_status_map (PNum n) "unknown").

Definition parse_traffic (raw_value : pyval) : result pyval :=
  try_except
    (let! n := py_int raw_value in Ok (PNum n))
    (except_ValueError_TypeError (PNum (Int 0))).

Definition parse_distance (raw_value : pyval) : result pyval :=
  try_except
    (let! n := py_int raw_value in Ok (PNum n))
    (except_ValueError_TypeError (PNum (Int 0))).

End FiberHomeVendor_onu.

(** ** [vendors/vsol.py]: status, counters, MAC address, BER, validation *)
Module VSOLVendor_onu.

Definition pon_status_map : list (Z * string) :=
  [ (1, "up"); (2, "down"); (3, "testing") ].

Definition parse_pon_status (raw_value : pyval) : result string :=
  try_except
    (let! n := py_int raw_value in
     Ok (int_key_get pon_status_map (PNum n) "unknown"))
    (except_ValueError_TypeError "unknown").

Definition onu_status_map : list (Z * string) :=
  [ (1, "online"); (2, "offline"); (3, "logging"); (4, "authFailed"); (5, "los") ].

Definition parse_onu_status (raw_value : pyval) : result string :=
  try_except
    (let! n := py_int raw_value in
     Ok (int_key_get onu_status_map (PNum n) "unknown"))
    (except_ValueError_TypeError "unknown").

Definition parse_traffic (raw_value : pyval) : result pyval :=
  try_except
    (let! n := py_int raw_value in Ok (PNum n))
    (except_ValueError_TypeError (PNum (Int 0))).

Definition parse_distance (raw_value : pyval) : result pyval :=
  try_except
    (let! n := py_int raw_value in Ok (PNum n))
    (except_ValueError_TypeError (PNum (Int 0))).

(** The raw value of a MAC address: a [bytes] object or a [str]. *)
Inductive mac_raw :=
| RawBytes (b : list Byte.byte)
| RawStr (s : string).

(** [not raw_value] *)
Definition mac_raw_empty (raw_value : mac_raw) : bool :=
  match raw_value with
  | RawBytes [] => true
  | RawStr EmptyString => true
  | _ => false
  end.

(** [parse_mac_address]: [None] is Python's [None]; the handler is [except
    Exception: return None]. *)
Definition parse_mac_address (raw_value : mac_raw) : option string :=
  if mac_raw_empty raw_value then None
  else
    let mac_bytes :=
      match raw_value with
      | RawBytes b => Ok b
      | RawStr s => fromhex (remove_char " "%char (remove_char ":"%char s))
      end in
    match mac_bytes with
    | Ok mac_bytes => Some (String.concat ":" (map format_02x mac_bytes))
    | Raise _ => None
    end.

Definition calculate_ber (errors packets : pyval) : result pyval :=
  if py_eq packets (PNum (Int 0)) then Ok (PNum (Float (ofZ 0)))
  else
    try_except
      (let! e := py_float_raw errors in
       let! p := py_float_raw packets in
       let! ber := py_truediv (PNum e) (PNum p) in
       Ok (PNum (py_min ber (Float (ofZ 1)))))
      (except_ValueError_TypeError_ZeroDivisionError (PNum (Float (ofZ 0)))).

(** [for field in required_fields: if field not in data or data[field] is
    None: return False] *)
Fixpoint has_required_fields (required_fields : list string) (data : gmap string pyval)
    : bool :=
  match required_fields with
  | [] => true
  | field :: rest =>
      match data !! field with
      | None => false
      | Some v => if is_None v then false else has_required_fields rest data
      end
  end.

(** [validate_onu_data]; the values of [data] are numbers or [None]. *)
Definition validate_onu_data (data : gmap string pyval) : result bool :=
  let required_fields := ["onu_id"; "onu_status"] in
  if negb (has_required_fields required_fields data) then Ok false
  else
    match data !! "onu_rx_power" with
    | Some v =>
        if negb (is_None v) then
          let! low := py_lt v (PNum (Int (-40))) in
          let! out := (if low return result bool then Ok true
                       else py_gt v (PNum (Int 10))) in
          if out then Ok false else Ok true
        else Ok true
    | None => Ok true
    end.

End VSOLVendor_onu.

(** ** [vendors/__init__.py]: the supported vendors *)

(** [get_supported_vendors]: [list(VENDORS.keys())], the keys in the order
    of the dict literal. *)
Definition get_supported_vendors : list string :=
  ["ZTE"; "HUAWEI"; "FIBERHOME"; "VSOL"].

(** ** [poller.py]: one turn of the main loop *)

Section Run.

Variable HuaweiVendor : vendor_class.

Variable env : oracle.

(** [self.poll_interval], in seconds. *)
Variable poll_interval : Z.

(** [max(1, self.poll_interval - duration)] *)
Definition next_sleep (duration : number) : result number :=
  let! rest := py_sub (PNum (Int poll_interval)) (PNum duration) in
  Ok (py_max (Int 1) rest).

(** One turn of the [while True] loop of [PONPortPoller.run]: it returns
    the argument of the [asyncio.sleep] that ends the turn.  [duration] is
    the difference of the two readings of [time.time()], a float. *)
Definition run_turn (duration : Qc) : M number :=
  try_catch
    (let* _ := poll_all_olts HuaweiVendor env in
     lift (next_sleep (Float duration)))
    (λ e, ret (Int 10)).

End Run.

(** ** [poller/pon_port_poller.py]: the polling service of the gateway *)
Module SimplePoller.

(** The statements sent to PostgreSQL. *)
Inductive statement :=
| SelectMonitoringOlts
| UpdateLastPollAt (id : Z)
| Commit.

Inductive outcome :=
| Fails
| Done
| Rows (rows : list olt).

(** The database: the outcome of a statement, given the statements sent
    before it. *)
Definition database := list statement → statement → outcome.

Definition P (A : Type) := list statement → result A * list statement.

Section Service.

Variable db : database.

Definition execute (s : statement) : P outcome := λ t,
  match db t s with
  | Fails => (Raise CollaboratorError, t ++ [s])
  | r => (Ok r, t ++ [s])
  end.

(** [_get_monitoring_olts] *)
Definition _get_monitoring_olts : P (list olt) := λ t,
  match execute SelectMonitoringOlts t with
  | (Ok (Rows rows), t') => (Ok rows, t')
  | (Ok _, t') => (Raise TypeError, t')
  | (Raise e, t') => (Raise e, t')
  end.

(** [_poll_olt] *)
Definition _poll_olt (olt : olt) : P unit := λ t,
  match execute (UpdateLastPollAt (olt_id olt)) t with
  | (Ok _, t') =>
      match execute Commit t' with
      | (Ok _, t'') => (Ok tt, t'')
      | (Raise e, t'') => (Raise e, t'')
      end
  | (Raise e, t') => (Raise e, t')
  end.

(** [for olt in olts: try: await self._poll_olt(olt) except Exception:
    ...] *)
Fixpoint poll_olts (olts : list olt) : P unit := λ t,
  match olts with
  | [] => (Ok tt, t)
  | olt :: rest =>
      match _poll_olt olt t with
      | (_, t') => poll_olts rest t'
      end
  end.

(** One turn of the loop of [poll_loop]: it returns the argument of the
    [asyncio.sleep] that ends the turn. *)
Definition poll_loop_turn : P Z := λ t,
  match _get_monitoring_olts t with
  | (Ok olts, t') =>
      match poll_olts olts t' with
      | (Ok _, t'') => (Ok 30, t'')
      | (Raise _, t'') => (Ok 5, t'')
      end
  | (Raise _, t') => (Ok 5, t')
  end.

End Service.

(** The statements of a trace that update the last poll of an OLT. *)
Definition updates (t : list statement) : list Z :=
  omap (λ s, match s with UpdateLastPollAt id => Some id | _ => None end) t.

End SimplePoller.

(** ** Ranges of numbers *)

(** A number that [float] converts without overflow: every float, and an
    int within the range of a double. *)
Definition fits_double (x : number) : bool :=
  match x with
  | Int n => negb (float_overflows n)
  | Float _ => true
  end.

(** A raw reading that is [None] or such a number. *)
Definition reading_fits (v : pyval) : bool :=
  match v with
  | PNone => true
  | PNum x => fits_double x
  end.

(** A float, or an int of at most 64 bits, as an SNMP integer, counter or
    gauge is. *)
Definition fits_64_bits (x : number) : bool :=
  match x with
  | Int n => Z.abs n <? 2 ^ 64
  | Float _ => true
  end.

(** ** More readings of the trace *)

(** The calls made on behalf of one port: the requests to the device, the
    writes to the three sinks and the alerts. *)
Definition is_port_call (c : call) : bool :=
  match c with
  | GetCmd _ _ _ _ _ _ | UpdatePonPort _ | InfluxWrite _
  | RedisHset _ _ | RedisExpire _ _ | PrintAlert _ => true
  | _ => false
  end.

(** A device that answers every request with an error indication or an
    error status. *)
Definition answers_only_errors (env : oracle) : Prop :=
  ∀ (t : list call) (c : call),
    is_GetCmd c = true →
    ∃ errorIndication errorStatus varBinds,
      env t c = SnmpResponse errorIndication errorStatus varBinds
      ∧ errorIndication || errorStatus = true.

(** ** Inputs of further examples *)

(** The mocked ONU counts and nothing else: what a read returns when no
    metric could be obtained. *)
Definition metrics_onus_only : gmap string pyval :=
  <["total_onus" := PNum (Int 0)]>
    (<["offline_onus" := PNum (Int 0)]>
       (<["online_onus" := PNum (Int 0)]> ∅)).

(** The metric set read with the ZTE class from port 1 of the device of
    [env_healthy]. *)
Definition metrics_healthy_read : gmap string pyval :=
  match fst (snmp_get_pon_metrics env_healthy "10.0.0.1" "public" 1 ZTE []) with
  | Ok (Some metrics) => metrics
  | _ => ∅
  end.

(** A port whose temperature threshold is below zero. *)
Definition port_3 : pon_port :=
  {| port_id := 9; port_name := "gpon0/3"; port_number := 3;
     threshold_temperature_high := PNum (Int (-5));
     threshold_utilization_high := PNum (Int 80);
     threshold_rx_power_low := PNum (Int (-28)) |}.

Definition onu_record : gmap string pyval :=
  {[ "onu_id" := PNum (Int 12); "onu_status" := PNum (Int 1);
     "onu_rx_power" := PNum (Float (Q2Qc (-2550 # 100))) ]}.

(** A database that refuses the update of OLT 1 and accepts everything
    else. *)
Definition db_olt_1_refused : SimplePoller.database := λ _ s,
  match s with
  | SimplePoller.SelectMonitoringOlts => SimplePoller.Rows [olt_zte; olt_vsol]
  | SimplePoller.UpdateLastPollAt 1 => SimplePoller.Fails
  | _ => SimplePoller.Done
  end.

(** * Properties *)

(** ** Rational arithmetic *)

Lemma Qcltb_lt (x y : Qc) : Qcltb x y = true ↔ (x < y)%Qc.
Proof. rewrite Qclt_alt. unfold Qcltb. destruct (x ?= y)%Qc; split; congruence. Qed.

Lemma Qcltb_ge (x y : Qc) : Qcltb x y = false ↔ (y <= x)%Qc.
Proof.
  split.
  - intros H. apply Qcnot_lt_le. intros H'. apply Qcltb_lt in H'. congruence.
  - intros H. destruct (Qcltb x y) eqn:E; [|done].
    apply Qcltb_lt in E. apply Qcle_not_lt in H. done.
Qed.

Lemma Qceqb_eq (x y : Qc) : Qceqb x y = true ↔ x = y.
Proof. rewrite Qceq_alt. unfold Qceqb. destruct (x ?= y)%Qc; split; congruence. Qed.

Lemma Qceqb_neq (x y : Qc) : Qceqb x y = false ↔ x ≠ y.
Proof. rewrite <- Qceqb_eq. destruct (Qceqb x y); split; congruence. Qed.

Lemma Qcleb_le (x y : Qc) : Qcleb x y = true ↔ (x <= y)%Qc.
Proof. rewrite Qcle_alt. unfold Qcleb. destruct (x ?= y)%Qc; split; congruence. Qed.

Lemma Qcleb_gt (x y : Qc) : Qcleb x y = false ↔ (y < x)%Qc.
Proof.
  split.
  - intros H. apply Qcnot_le_lt. intros H'. apply Qcleb_le in H'. congruence.
  - intros H. destruct (Qcleb x y) eqn:E; [|done].
    apply Qcleb_le in E. apply Qclt_not_le in H. done.
Qed.

Lemma this_ofZ (n : Z) : this (ofZ n) = inject_Z n.
Proof. apply inject_Z_Qred. Qed.

Lemma Qc_eq_Qeq (x y : Qc) : x = y ↔ (this x == this y)%Q.
Proof.
  split; [intros ->; reflexivity|]. intros H. by apply Qc_is_canon.
Qed.

(** Boolean comparisons of the goal and of the context become statements
    on [Q], which [lra] decides. *)
Ltac qc_to_q :=
  repeat match goal with
  | H : Qcltb _ _ = true |- _ => apply Qcltb_lt in H
  | H : Qcltb _ _ = false |- _ => apply Qcltb_ge in H
  | H : Qcleb _ _ = true |- _ => apply Qcleb_le in H
  | H : Qcleb _ _ = false |- _ => apply Qcleb_gt in H
  | H : Qceqb _ _ = true |- _ => apply Qceqb_eq in H
  | H : Qceqb _ _ = false |- _ => apply Qceqb_neq in H
  | |- Qcltb _ _ = true => apply Qcltb_lt
  | |- Qcltb _ _ = false => apply Qcltb_ge
  | |- Qcleb _ _ = true => apply Qcleb_le
  | |- Qcleb _ _ = false => apply Qcleb_gt
  | |- Qceqb _ _ = true => apply Qceqb_eq
  | |- Qceqb _ _ = false => apply Qceqb_neq
  end;
  repeat match goal with
  | H : @eq Qc _ _ |- _ => apply Qc_eq_Qeq in H
  | H : ¬ (@eq Qc _ _) |- _ => rewrite Qc_eq_Qeq in H
  | |- @eq Qc _ _ => apply Qc_eq_Qeq
  | |- ¬ (@eq Qc _ _) => rewrite Qc_eq_Qeq
  end;
  unfold Qclt, Qcle in *;
  rewrite ?this_ofZ in *;
  unfold inject_Z in *.

Ltac qc_lra := qc_to_q; simpl in *; lra.

Lemma float_overflows_small (n : Z) : Z.abs n < 2 ^ 64 → float_overflows n = false.
Proof.
  intros H. unfold float_overflows. apply Z.leb_gt.
  eapply Z.lt_le_trans; [exact H|]. vm_compute. discriminate.
Qed.

Lemma py_float_raw_fits (raw : number) :
  py_float_raw (PNum raw)
  = if fits_double raw then Ok (Float (value_of raw)) else Raise OverflowError.
Proof. destruct raw as [n|q]; cbn; [|reflexivity]. by destruct (float_overflows n). Qed.

Lemma ofZ_add (m n : Z) : ofZ (m + n) = (ofZ m + ofZ n)%Qc.
Proof.
  apply Qc_is_canon. unfold Qcplus. cbn [this Q2Qc].
  rewrite !Qred_correct, !this_ofZ. rewrite inject_Z_plus. reflexivity.
Qed.

Lemma ofZ_mul (m n : Z) : ofZ (m * n) = (ofZ m * ofZ n)%Qc.
Proof.
  apply Qc_is_canon. unfold Qcmult. cbn [this Q2Qc].
  rewrite !Qred_correct, !this_ofZ. rewrite inject_Z_mult. reflexivity.
Qed.

(** ** Power readings of the VSOL profile *)

Lemma round_half_even_Z (x : Q) (n : Z) : (x == inject_Z n)%Q → round_half_even x = n.
Proof.
  intros H. unfold round_half_even.
  rewrite (Qfloor_comp _ _ H), Qfloor_Z.
  assert (((x - inject_Z n) ?= 1 # 2)%Q = Lt) as ->; [|done].
  apply Qlt_alt. rewrite H. unfold Qminus. rewrite Qplus_opp_r. reflexivity.
Qed.

Lemma this_Qcdiv (x y : Qc) : (this (x / y)%Qc == this x / this y)%Q.
Proof.
  unfold Qcdiv, Qcmult, Qcinv. cbn [this Q2Qc]. by rewrite !Qred_correct.
Qed.

(** On a reading in hundredths, the rounding to two decimals changes
    nothing. *)
Lemma py_round_hundredths (n : Z) :
  py_round (ofZ n / ofZ 100) 2 = Float (ofZ n / ofZ 100).
Proof.
  unfold py_round. f_equal. apply Qc_is_canon. cbn [this Q2Qc].
  rewrite Qred_correct. change (10 ^ Z.of_nat 2) with 100.
  rewrite (round_half_even_Z _ n).
  - by rewrite this_Qcdiv, !this_ofZ.
  - rewrite this_Qcdiv, !this_ofZ. field.
Qed.

Lemma vsol_parse_power_unfold (raw : number) :
  VSOLVendor.parse_power raw =
  let value := (value_of raw / ofZ 100)%Qc in
  if fits_double raw then
    Ok (if Qceqb value (ofZ 0) || Qcltb value (ofZ (-40)) || Qcltb (ofZ 10) value
        then PNone else PNum (py_round value 2))
  else Raise OverflowError.
Proof.
  unfold VSOLVendor.parse_power. rewrite py_float_raw_fits.
  destruct (fits_double raw); [|reflexivity]. simpl.
  replace (Qceqb (ofZ 100) (ofZ 0)) with false by reflexivity. simpl.
  destruct (_ || _); reflexivity.
Qed.


Lemma round_half_even_between (q : Q) (a b : Z) :
  (inject_Z a <= q)%Q → (q <= inject_Z b)%Q → a ≤ round_half_even q ≤ b.
Proof.
  intros Ha Hb.
  assert (Hfa : a ≤ Qfloor q).
  { rewrite <- (Qfloor_Z a). apply Qfloor_resp_le. exact Ha. }
  assert (Hfb : Qfloor q ≤ b).
  { rewrite <- (Qfloor_Z b). apply Qfloor_resp_le. exact Hb. }
  assert (Hup : (0 < q - inject_Z (Qfloor q))%Q → Qfloor q + 1 ≤ b).
  { intros Hpos.
    assert (Hlt : (inject_Z (Qfloor q) < inject_Z b)%Q) by lra.
    rewrite <- Zlt_Qlt in Hlt. lia. }
  unfold round_half_even. cbv zeta.
  destruct (Qcompare_spec (q - inject_Z (Qfloor q)) (1 # 2)) as [E|E|E].
  - destruct (Z.even (Qfloor q)); [lia|].
    split; [lia|]. apply Hup. rewrite E. reflexivity.
  - lia.
  - split; [lia|]. apply Hup. lra.
Qed.





(** ** Health score *)

Lemma utilization_block_penalty (s : Z) (u : number) :
  utilization_block s (PNum u) = Ok (s - utilization_penalty (value_of u)).
Proof.
  unfold utilization_block, utilization_penalty. cbn [py_gt py_lt rbind value_of].
  destruct (Qcltb (ofZ 90) (value_of u)); [done|]. cbn [rbind].
  destruct (Qcltb (ofZ 80) (value_of u)); [done|]. cbn [rbind].
  destruct (Qcltb (ofZ 70) (value_of u)); [done|]. f_equal. lia.
Qed.

Lemma temperature_block_penalty (s : Z) (v : pyval) :
  temperature_block s v = Ok (s - temperature_penalty (numeric v)).
Proof.
  unfold temperature_block, temperature_penalty.
  destruct v as [|t]; cbn [truthy numeric]; [f_equal; lia|].
  destruct (Qceqb (value_of t) (ofZ 0)) eqn:E0; cbn [negb].
  - assert (Qcltb (ofZ 70) (value_of t) = false) as -> by qc_lra.
    assert (Qcltb (ofZ 60) (value_of t) = false) as -> by qc_lra.
    f_equal; lia.
  - cbn [py_gt py_lt rbind value_of].
    destruct (Qcltb (ofZ 70) (value_of t)); [done|]. cbn [rbind].
    destruct (Qcltb (ofZ 60) (value_of t)); [done|]. f_equal; lia.
Qed.

Lemma rx_power_block_penalty (s : Z) (v : pyval) :
  rx_power_block s v = Ok (s - rx_power_penalty (numeric v)).
Proof.
  unfold rx_power_block, rx_power_penalty.
  destruct v as [|p]; cbn [truthy numeric]; [f_equal; lia|].
  destruct (Qceqb (value_of p) (ofZ 0)) eqn:E0; cbn [negb].
  - assert (Qcltb (value_of p) (ofZ (-30)) = false) as -> by qc_lra.
    assert (Qcltb (value_of p) (ofZ (-28)) = false) as -> by qc_lra.
    f_equal; lia.
  - cbn [py_gt py_lt rbind value_of].
    destruct (Qcltb (value_of p) (ofZ (-30))); [done|]. cbn [rbind].
    destruct (Qcltb (value_of p) (ofZ (-28))); [done|]. f_equal; lia.
Qed.

Lemma offline_onus_block_penalty (s : Z) (total offline : number) :
  offline_onus_block s (PNum total) (PNum offline)
  = Ok (s - offline_penalty (value_of offline) (value_of total)).
Proof.
  unfold offline_onus_block, offline_penalty. cbn [py_gt py_lt rbind value_of].
  destruct (Qcltb (ofZ 0) (value_of total)) eqn:E; [|f_equal; lia].
  unfold py_truediv.
  assert (Qceqb (value_of total) (ofZ 0) = false) as -> by qc_lra.
  unfold lit_0_3, lit_0_2. cbn [rbind value_of]. clear E.
  repeat match goal with
         | |- context [Qcltb ?a ?b] => destruct (Qcltb a b)
         end; f_equal; lia.
Qed.


Lemma dict_get_default_num (metrics : gmap string pyval) (k : string) :
  metrics !! k ≠ Some PNone →
  ∃ x : number, dict_get_default metrics k (Int 0) = PNum x
                ∧ value_of x = default (ofZ 0) (metric metrics k).
Proof.
  intros H. unfold dict_get_default, metric, dict_get.
  destruct (metrics !! k) as [[|x]|]; [done| |]; eexists; split; reflexivity.
Qed.




(** C5 (as amended): the metric set with utilization 50, temperature 75,
    rx_power -31 and 4 of 10 ONUs offline scores 30: 100 minus 20 for the
    temperature (75 is above 70), minus 30 for the rx_power, minus 20 for
    the offline ratio. *)
Theorem C5_degraded_port_scores_30 :
  calculate_health_score metrics_degraded = Ok 30
  ∧ utilization_penalty (default (ofZ 0) (metric metrics_degraded "utilization")) = 0
  ∧ temperature_penalty (metric metrics_degraded "temperature") = 20
  ∧ rx_power_penalty (metric metrics_degraded "rx_power") = 30
  ∧ offline_penalty (default (ofZ 0) (metric metrics_degraded "offline_onus"))
                    (default (ofZ 0) (metric metrics_degraded "total_onus")) = 20.
Proof. repeat split. Qed.

(** C5 (as stated) fails: the score of that metric set is not 40. *)
Lemma C5_degraded_port_does_not_score_40 :
  calculate_health_score metrics_degraded ≠ Ok 40.
Proof. vm_compute. discriminate. Qed.

(** ** Utilization *)

Lemma py_add_value (a b : number) :
  ∃ r, py_add (PNum a) (PNum b) = Ok r ∧ value_of r = (value_of a + value_of b)%Qc.
Proof.
  destruct a as [m|p], b as [n|q]; eexists; (split; [reflexivity|]); cbn [value_of];
    [apply ofZ_add | reflexivity..].
Qed.

Lemma py_mul_value (a b : number) :
  ∃ r, py_mul (PNum a) (PNum b) = Ok r ∧ value_of r = (value_of a * value_of b)%Qc.
Proof.
  destruct a as [m|p], b as [n|q]; eexists; (split; [reflexivity|]); cbn [value_of];
    [apply ofZ_mul | reflexivity..].
Qed.

Lemma py_truediv_value (a b : number) :
  value_of b ≠ ofZ 0 →
  py_truediv (PNum a) (PNum b) = Ok (Float (value_of a / value_of b)).
Proof.
  intros H. unfold py_truediv. apply Qceqb_neq in H. by rewrite H.
Qed.

Lemma clamp_0_100 (u : Qc) :
  py_min (py_max (Float u) (Float (ofZ 0))) (Float (ofZ 100))
  = Float (Qcmin (ofZ 100) (Qcmax (ofZ 0) u)).
Proof.
  unfold py_min, py_max, Qcmin, Qcmax. cbn [value_of].
  destruct (Qcltb u (ofZ 0)) eqn:E1, (Qcleb (ofZ 0) u) eqn:E2; cbn [value_of];
    try (exfalso; qc_lra).
  - replace (Qcltb (ofZ 100) (ofZ 0)) with false by reflexivity.
    replace (Qcleb (ofZ 100) (ofZ 0)) with false by reflexivity. reflexivity.
  - destruct (Qcltb (ofZ 100) u) eqn:E3, (Qcleb (ofZ 100) u) eqn:E4;
      try reflexivity; try (exfalso; qc_lra).
    f_equal. qc_lra.
Qed.

(** What the interval-based profiles compute: 0 on a non-positive interval
    or bandwidth, the reference formula otherwise. *)
Lemma interval_utilization (bi bo iv mb : number) :
  VSOLVendor.calculate_utilization_body bi bo iv mb
  = Ok (PNum (Float (if Qcleb (value_of iv) (ofZ 0) || Qcleb (value_of mb) (ofZ 0)
                     then ofZ 0 else utilization_reference bi bo iv mb)))
  ∧ FiberHomeVendor.calculate_utilization_body bi bo iv mb
    = VSOLVendor.calculate_utilization_body bi bo iv mb.
Proof.
  split; [|reflexivity].
  unfold VSOLVendor.calculate_utilization_body. cbn [py_le rbind value_of].
  destruct (Qcleb (value_of iv) (ofZ 0)) eqn:Ei; cbn [orb rbind]; [done|].
  destruct (Qcleb (value_of mb) (ofZ 0)) eqn:Em; cbn [orb rbind]; [done|].
  destruct (py_add_value bi bo) as (s & -> & Hs). cbn [rbind].
  destruct (py_mul_value s (Int 8)) as (b8 & -> & Hb8). cbn [rbind].
  rewrite py_truediv_value by qc_lra. cbn [rbind].
  rewrite py_truediv_value by (by vm_compute). cbn [rbind value_of].
  rewrite py_truediv_value by qc_lra. cbn [rbind value_of].
  cbn [py_mul rbind value_of].
  rewrite clamp_0_100. unfold utilization_reference. rewrite Hb8, Hs. reflexivity.
Qed.

Lemma zte_utilization (bi bo cap : number) :
  ZTEVendor.calculate_utilization_body bi bo cap
  = if Qceqb (value_of cap) (ofZ 0) then Raise ZeroDivisionError
    else Ok (PNum (Float (Qcmin (ofZ 100)
                            ((value_of bi + value_of bo) / value_of cap * ofZ 100)%Qc))).
Proof.
  unfold ZTEVendor.calculate_utilization_body. cbn [is_None orb].
  destruct (py_add_value bi bo) as (s & -> & Hs). cbn [rbind].
  unfold py_truediv. destruct (Qceqb (value_of cap) (ofZ 0)) eqn:E; [done|].
  cbn [rbind py_mul value_of]. rewrite Hs. do 3 f_equal.
  unfold py_min, Qcmin. cbn [value_of].
  set (u := ((value_of bi + value_of bo) / value_of cap * ofZ 100)%Qc).
  destruct (Qcltb u (ofZ 100)) eqn:E1, (Qcleb (ofZ 100) u) eqn:E2;
    try reflexivity; exfalso; qc_lra.
Qed.

(** C3 (as amended): the VSOL and FiberHome profiles compute the reference
    formula when interval and bandwidth are positive and 0 otherwise, VSOL
    with the default bandwidth 2500 and FiberHome with none; the ZTE profile
    has another signature, (bandwidth_in, bandwidth_out, port_capacity =
    10^10), and computes min(100, (in + out) / capacity * 100). *)
Theorem C3_utilization_per_vendor (bi bo iv mb : number) :
  calculate_utilization VSOL [PNum bi; PNum bo; PNum iv; PNum mb]
  = Ok (PNum (Float (if Qcleb (value_of iv) (ofZ 0) || Qcleb (value_of mb) (ofZ 0)
                     then ofZ 0 else utilization_reference bi bo iv mb)))
  ∧ calculate_utilization FiberHome [PNum bi; PNum bo; PNum iv; PNum mb]
    = calculate_utilization VSOL [PNum bi; PNum bo; PNum iv; PNum mb]
  ∧ calculate_utilization VSOL [PNum bi; PNum bo; PNum iv]
    = calculate_utilization VSOL [PNum bi; PNum bo; PNum iv; PNum (Int 2500)]
  ∧ calculate_utilization FiberHome [PNum bi; PNum bo; PNum iv] = Raise TypeError
  ∧ calculate_utilization ZTE [PNum bi; PNum bo; PNum iv; PNum mb] = Raise TypeError
  ∧ calculate_utilization ZTE [PNum bi; PNum bo]
    = calculate_utilization ZTE [PNum bi; PNum bo; PNum (Int 10000000000)]
  ∧ calculate_utilization ZTE [PNum bi; PNum bo; PNum mb]
    = if Qceqb (value_of mb) (ofZ 0) then Raise ZeroDivisionError
      else Ok (PNum (Float (Qcmin (ofZ 100)
                              ((value_of bi + value_of bo) / value_of mb * ofZ 100)%Qc))).
Proof.
  repeat apply conj; try reflexivity.
  - apply interval_utilization.
  - apply zte_utilization.
Qed.

(** C3 (as stated) fails: the ZTE profile does not take the four arguments,
    and the VSOL and FiberHome profiles return 0 where the formula gives
    100. *)
Lemma C3_shared_formula_fails :
  ¬ (∀ v : vendor_class, v ∈ [ZTE; FiberHome; VSOL] →
     ∀ bi bo iv mb : number,
       ∃ r : number,
         calculate_utilization v [PNum bi; PNum bo; PNum iv; PNum mb] = Ok (PNum r)
         ∧ value_of r = utilization_reference bi bo iv mb).
Proof.
  intros H.
  destruct (H ZTE ltac:(left) (Int 1000) (Int 2000) (Int 60) (Int 2500)) as (r & Hr & _).
  discriminate Hr.
Qed.

Lemma C3_vsol_negative_interval :
  calculate_utilization VSOL [PNum (Int 1000000000); PNum (Int 0); PNum (Int (-1)); PNum (Int (-1))]
  = Ok (PNum (Float (ofZ 0)))
  ∧ utilization_reference (Int 1000000000) (Int 0) (Int (-1)) (Int (-1)) = ofZ 100.
Proof.
  split.
  - cbn [calculate_utilization VSOL VSOLVendor.calculate_utilization].
    rewrite (proj1 (interval_utilization _ _ _ _)). reflexivity.
  - apply Qc_is_canon. reflexivity.
Qed.

(** ** Threshold alerts *)

Lemma temperature_check_alerts (p : pon_port) (m : gmap string pyval)
    (alerts : list alert) (T : number) :
  threshold_temperature_high p = PNum T →
  m !! "temperature" ≠ Some PNone →
  (m !! "temperature" = None → Qcleb (ofZ 0) (value_of T) = true) →
  temperature_check p m alerts
  = Ok (alerts ++ alert_if "temperature" (m !! "temperature") (λ v, Qcltb (value_of T) v)).
Proof.
  intros HT Hv H0. unfold temperature_check, dict_get_default, dict_item, alert_if.
  rewrite HT. destruct (m !! "temperature") as [[|x]|]; [done| |].
  - cbn [from_option id py_gt py_lt rbind].
    destruct (Qcltb (value_of T) (value_of x)); cbn [rbind]; [done|].
    by rewrite app_nil_r.
  - cbn [from_option id py_gt py_lt rbind value_of].
    assert (Qcltb (value_of T) (ofZ 0) = false) as ->.
    { specialize (H0 eq_refl). qc_lra. }
    by rewrite app_nil_r.
Qed.

Lemma utilization_check_alerts (p : pon_port) (m : gmap string pyval)
    (alerts : list alert) (T : number) :
  threshold_utilization_high p = PNum T →
  m !! "utilization" ≠ Some PNone →
  (m !! "utilization" = None → Qcleb (ofZ 0) (value_of T) = true) →
  utilization_check p m alerts
  = Ok (alerts ++ alert_if "utilization" (m !! "utilization") (λ v, Qcltb (value_of T) v)).
Proof.
  intros HT Hv H0. unfold utilization_check, dict_get_default, dict_item, alert_if.
  rewrite HT. destruct (m !! "utilization") as [[|x]|]; [done| |].
  - cbn [from_option id py_gt py_lt rbind].
    destruct (Qcltb (value_of T) (value_of x)); cbn [rbind]; [done|].
    by rewrite app_nil_r.
  - cbn [from_option id py_gt py_lt rbind value_of].
    assert (Qcltb (value_of T) (ofZ 0) = false) as ->.
    { specialize (H0 eq_refl). qc_lra. }
    by rewrite app_nil_r.
Qed.

Lemma rx_power_check_alerts (p : pon_port) (m : gmap string pyval)
    (alerts : list alert) (T : number) :
  threshold_rx_power_low p = PNum T →
  rx_power_check p m alerts
  = Ok (alerts ++ alert_if "rx_power" (m !! "rx_power")
                    (λ v, negb (Qceqb v (ofZ 0)) && Qcltb v (value_of T))).
Proof.
  intros HT. unfold rx_power_check, dict_get, dict_item, alert_if.
  rewrite HT. destruct (m !! "rx_power") as [[|x]|];
    cbn [from_option id truthy rbind]; try by rewrite app_nil_r.
  destruct (Qceqb (value_of x) (ofZ 0)); cbn [negb andb rbind py_lt];
    [by rewrite app_nil_r|].
  destruct (Qcltb (value_of x) (value_of T)); cbn [rbind]; [done|].
  by rewrite app_nil_r.
Qed.

Lemma alert_if_length kind v f : (length (alert_if kind v f) ≤ 1)%nat.
Proof. unfold alert_if. destruct v as [[|x]|]; simpl; try lia. destruct (f _); simpl; lia. Qed.

(** C7 (as amended): with numeric thresholds, on a metric set whose
    temperature and utilization are numbers when present (and, when one of
    them is absent, a threshold for it that is not negative), the evaluator
    emits a temperature alert exactly when the temperature is present and
    above its threshold, a utilization alert exactly when the utilization is
    present and above its threshold, and an rx_power alert exactly when the
    rx_power is present, is not 0 and is below its threshold; the three
    checks are independent, in this order, so 0 to 3 alerts; with thresholds
    60, 80, -28 and readings 65, 50, -20 the only alert is the temperature
    one. *)
Theorem C7_threshold_alerts (p : pon_port) (m : gmap string pyval) (Tt Tu Tr : number) :
  threshold_temperature_high p = PNum Tt →
  threshold_utilization_high p = PNum Tu →
  threshold_rx_power_low p = PNum Tr →
  m !! "temperature" ≠ Some PNone →
  m !! "utilization" ≠ Some PNone →
  (m !! "temperature" = None → Qcleb (ofZ 0) (value_of Tt) = true) →
  (m !! "utilization" = None → Qcleb (ofZ 0) (value_of Tu) = true) →
  let alerts :=
    alerts_reference (value_of Tt) (value_of Tu)
      (λ v, negb (Qceqb v (ofZ 0)) && Qcltb v (value_of Tr)) m in
  build_alerts p m = Ok alerts
  ∧ (length alerts ≤ 3)%nat
  ∧ build_alerts port_1 metrics_warm
    = Ok [{| alert_type := "temperature"; alert_value := PNum (Int 65) |}].
Proof.
  intros HTt HTu HTr Ht Hu Ht0 Hu0 alerts. split; [|split; [|reflexivity]].
  - unfold build_alerts.
    rewrite (temperature_check_alerts p m [] Tt) by done. cbn [rbind].
    rewrite (utilization_check_alerts p m _ Tu) by done. cbn [rbind].
    rewrite (rx_power_check_alerts p m _ Tr) by done. cbn [rbind].
    by rewrite <- app_assoc.
  - unfold alerts, alerts_reference. rewrite !length_app.
    pose proof (alert_if_length "temperature" (m !! "temperature")
                  (λ v, Qcltb (value_of Tt) v)).
    pose proof (alert_if_length "utilization" (m !! "utilization")
                  (λ v, Qcltb (value_of Tu) v)).
    pose proof (alert_if_length "rx_power" (m !! "rx_power")
                  (λ v, negb (Qceqb v (ofZ 0)) && Qcltb v (value_of Tr))).
    lia.
Qed.

Lemma C7_threshold_alerts_witness :
  build_alerts port_1 metrics_warm
  = Ok (alerts_reference (ofZ 60) (ofZ 80)
          (λ v, negb (Qceqb v (ofZ 0)) && Qcltb v (ofZ (-28))) metrics_warm)
  ∧ (length (alerts_reference (ofZ 60) (ofZ 80)
               (λ v, negb (Qceqb v (ofZ 0)) && Qcltb v (ofZ (-28))) metrics_warm) ≤ 3)%nat
  ∧ build_alerts port_1 metrics_warm
    = Ok [{| alert_type := "temperature"; alert_value := PNum (Int 65) |}].
Proof.
  apply (C7_threshold_alerts port_1 metrics_warm (Int 60) (Int 80) (Int (-28)));
    by vm_compute.
Defined.

(** C7 (as stated) fails: an rx_power reading of exactly 0 dBm counts as
    absent, so with the threshold 1 it is below the threshold and no alert
    is emitted. *)
Lemma C7_zero_rx_power_not_alerted :
  ¬ (∀ (p : pon_port) (m : gmap string pyval) (Tt Tu Tr : number),
       threshold_temperature_high p = PNum Tt →
       threshold_utilization_high p = PNum Tu →
       threshold_rx_power_low p = PNum Tr →
       build_alerts p m
       = Ok (alerts_reference (value_of Tt) (value_of Tu)
               (λ v, Qcltb v (value_of Tr)) m)).
Proof.
  intros H.
  specialize (H port_2 metrics_zero_rx (Int 60) (Int 80) (Int 1) eq_refl eq_refl eq_refl).
  vm_compute in H. discriminate H.
Qed.

(** ** What the sinks record *)

Lemma py_float_or_zero (v : pyval) :
  py_float (py_or v (Int 0)) = Ok (Float (default (ofZ 0) (numeric v))).
Proof.
  unfold py_or. destruct v as [|x]; cbn [truthy numeric from_option id]; [done|].
  destruct (Qceqb (value_of x) (ofZ 0)) eqn:E; cbn [negb py_float value_of]; [|done].
  apply Qceqb_eq in E. by rewrite E.
Qed.

Lemma py_int_or_zero (v : pyval) : ∃ n, py_int (py_or v (Int 0)) = Ok (Int n).
Proof.
  unfold py_or. destruct v as [|[n|q]]; cbn [truthy]; [by eexists|..];
    destruct (negb _); cbn [py_int]; by eexists.
Qed.

Lemma py_str_or_zero_absent (v : pyval) :
  numeric v = None → py_str (py_or v (Int 0)) = Lit "0".
Proof. by destruct v. Qed.

(** The fields of the point: every float field is the reading, or 0.0 when
    there is none. *)
Lemma influx_point_fields (o : olt) (p : pon_port) (m : gmap string pyval) (s : Z) :
  ∃ pt, influx_point o p m s = Ok pt
        ∧ assoc "temperature" (fields pt) = Some (Float (default (ofZ 0) (metric m "temperature")))
        ∧ assoc "voltage" (fields pt) = Some (Float (default (ofZ 0) (metric m "voltage")))
        ∧ assoc "tx_power" (fields pt) = Some (Float (default (ofZ 0) (metric m "tx_power")))
        ∧ assoc "rx_power" (fields pt) = Some (Float (default (ofZ 0) (metric m "rx_power")))
        ∧ assoc "utilization" (fields pt) = Some (Float (default (ofZ 0) (metric m "utilization")))
        ∧ assoc "health_score" (fields pt) = Some (Int s).
Proof.
  unfold influx_point. rewrite !py_float_or_zero. cbn [rbind].
  destruct (py_int_or_zero (dict_get m "bandwidth_in")) as [n1 ->].
  destruct (py_int_or_zero (dict_get m "bandwidth_out")) as [n2 ->].
  destruct (py_int_or_zero (dict_get m "online_onus")) as [n3 ->].
  cbn [rbind py_int]. eexists. split; [reflexivity|]. repeat split.
Qed.

Lemma dict_get_insert_zero (m : gmap string pyval) (f k : string) :
  numeric (dict_get m f) = None →
  py_or (dict_get (<[f := PNum (Float (ofZ 0))]> m) k) (Int 0)
  = py_or (dict_get m k) (Int 0).
Proof.
  intros H. unfold dict_get. destruct (decide (f = k)) as [->|Hne].
  - rewrite lookup_insert_eq. unfold dict_get in H.
    destruct (m !! k) as [[|x]|]; done.
  - by rewrite lookup_insert_ne.
Qed.

(** C2 (as amended): when a power field (tx_power or rx_power) is absent
    from the result of a poll, the latest-state write passes it on as absent
    ([None], SQL NULL), while the time-series point carries the field with
    the value 0.0 and the cache carries the string of 0: in these two sinks
    the record is the same as for a reading of 0 dBm. *)
Theorem C2_absent_power_in_sinks (o : olt) (p : pon_port) (m : gmap string pyval)
    (s : Z) (field : string) :
  field = "tx_power" ∨ field = "rx_power" →
  numeric (dict_get m field) = None →
  update_args p m s !! update_position field = Some (dict_get m field)
  ∧ (∃ pt, influx_point o p m s = Ok pt
           ∧ assoc field (fields pt) = Some (Float (ofZ 0)))
  ∧ assoc field (cache_mapping m s) = Some (Lit "0")
  ∧ influx_point o p (<[field := PNum (Float (ofZ 0))]> m) s = influx_point o p m s
  ∧ cache_mapping (<[field := PNum (Float (ofZ 0))]> m) s = cache_mapping m s.
Proof.
  intros Hf Habs. repeat apply conj.
  - by destruct Hf as [-> | ->].
  - destruct (influx_point_fields o p m s) as (pt & Hpt & _ & _ & Htx & Hrx & _).
    exists pt. split; [done|]. unfold metric in *.
    destruct Hf as [-> | ->]; [rewrite Htx | rewrite Hrx]; by rewrite Habs.
  - destruct Hf as [-> | ->]; cbn; by rewrite py_str_or_zero_absent.
  - unfold influx_point. by rewrite !(dict_get_insert_zero m field).
  - unfold cache_mapping. by rewrite !(dict_get_insert_zero m field).
Qed.

Lemma C2_absent_power_in_sinks_witness :
  update_args port_1 metrics_overloaded 70 !! update_position "tx_power"
  = Some (dict_get metrics_overloaded "tx_power")
  ∧ (∃ pt, influx_point olt_zte port_1 metrics_overloaded 70 = Ok pt
           ∧ assoc "tx_power" (fields pt) = Some (Float (ofZ 0)))
  ∧ assoc "tx_power" (cache_mapping metrics_overloaded 70) = Some (Lit "0")
  ∧ influx_point olt_zte port_1 (<["tx_power" := PNum (Float (ofZ 0))]> metrics_overloaded) 70
    = influx_point olt_zte port_1 metrics_overloaded 70
  ∧ cache_mapping (<["tx_power" := PNum (Float (ofZ 0))]> metrics_overloaded) 70
    = cache_mapping metrics_overloaded 70.
Proof.
  apply (C2_absent_power_in_sinks olt_zte port_1 metrics_overloaded 70 "tx_power");
    [by left | reflexivity].
Defined.

(** C2 (as stated) fails: the time-series point and the cache entry of a
    poll without tx_power hold 0 for it. *)
Lemma C2_absent_power_written_as_zero :
  ¬ (∀ (o : olt) (p : pon_port) (m : gmap string pyval) (s : Z) (pt : Point),
       m !! "tx_power" = None →
       influx_point o p m s = Ok pt →
       assoc "tx_power" (fields pt) = None)
  ∧ ¬ (∀ (m : gmap string pyval) (s : Z),
         m !! "tx_power" = None →
         assoc "tx_power" (cache_mapping m s) ≠ Some (py_str (PNum (Int 0)))).
Proof.
  split.
  - intros H.
    destruct (influx_point_fields olt_zte port_1 metrics_overloaded 70)
      as (pt & Hpt & _ & _ & Htx & _).
    specialize (H olt_zte port_1 metrics_overloaded 70 pt eq_refl Hpt). congruence.
  - intros H. by apply (H metrics_overloaded 70).
Qed.

(** ** Traces of the effectful stages *)

Lemma perform_run (env : oracle) (c : call) (t : list call) :
  perform env c t
  = (if is_Raises (env t c) then Raise CollaboratorError else Ok (env t c), t ++ [c]).
Proof. unfold perform. by destruct (env t c). Qed.

Lemma requests_GetCmd ip community idx oids :
  Forall (λ c, is_GetCmd c = true) (requests ip community idx oids).
Proof. unfold requests. apply Forall_map. by apply Forall_true. Qed.

Lemma requests_parameters ip community idx oids :
  Forall (λ c, ∃ oid, c = GetCmd community ip 161 5 1 oid) (requests ip community idx oids).
Proof.
  unfold requests. apply Forall_map, Forall_true. intros [name base]. by eexists.
Qed.

Lemma sink_writes_GetCmd (l : list call) :
  Forall (λ c, is_GetCmd c = true) l → sink_writes l = [].
Proof.
  unfold sink_writes. induction 1 as [|c l Hc _ IH]; [done|].
  destruct c; try discriminate. cbn. exact IH.
Qed.

Lemma read_metrics_trace env ip community idx vc oids metrics t :
  ∃ r new,
    read_metrics env ip community idx vc oids metrics t = (r, t ++ new)
    ∧ new `prefix_of` requests ip community idx oids
    ∧ ((∃ m, r = Ok m) → new = requests ip community idx oids).
Proof.
  revert metrics t. induction oids as [|[name base] rest IH]; intros metrics t.
  - exists (Ok metrics), []. cbn. rewrite app_nil_r. by repeat split.
  - cbn [read_metrics requests map snd]. unfold bind. rewrite perform_run.
    set (req := snmp_request ip community idx base).
    assert (Hstop : ∀ e : exn, ∃ r new,
               (Raise e : result (gmap string pyval), t ++ [req]) = (r, t ++ new)
               ∧ new `prefix_of` req :: requests ip community idx rest
               ∧ ((∃ m, r = Ok m) → new = req :: requests ip community idx rest)).
    { intros e. exists (Raise e), [req]. repeat split.
      - by apply prefix_cons, prefix_nil.
      - by intros [m Hm]. }
    assert (Hnext : ∀ m, ∃ r new,
               read_metrics env ip community idx vc rest m (t ++ [req]) = (r, t ++ new)
               ∧ new `prefix_of` req :: requests ip community idx rest
               ∧ ((∃ m, r = Ok m) → new = req :: requests ip community idx rest)).
    { intros m. destruct (IH m (t ++ [req])) as (r & new & Hrun & Hpre & Hall).
      exists r, (req :: new). rewrite Hrun, <- app_assoc. repeat split.
      - by apply prefix_cons.
      - intros Hm. by rewrite (Hall Hm). }
    destruct (env t req) as [| |eI eS vb| |]; cbn [is_Raises]; try apply Hstop.
    destruct (eI || eS); [apply Hnext|].
    unfold lift. destruct (store_varBinds vc name vb metrics); [apply Hnext | apply Hstop].
Qed.

Lemma store_varBinds_total vc name vb metrics :
  (∀ n v, ∃ r, parse_metric vc n v = Ok r) →
  ∃ m, store_varBinds vc name vb metrics = Ok m.
Proof.
  intros Hp. revert metrics. induction vb as [|v vb IH]; intros metrics; [by eexists|].
  cbn. destruct (Hp name v) as [r ->]. cbn. apply IH.
Qed.

Lemma read_metrics_total env ip community idx vc oids metrics t :
  (∀ t c, is_GetCmd c = true → is_SnmpResponse (env t c) = true) →
  (∀ n v, ∃ r, parse_metric vc n v = Ok r) →
  ∃ m, fst (read_metrics env ip community idx vc oids metrics t) = Ok m.
Proof.
  intros Henv Hp. revert metrics t.
  induction oids as [|[name base] rest IH]; intros metrics t; [by eexists|].
  cbn [read_metrics]. unfold bind. rewrite perform_run.
  specialize (Henv t (snmp_request ip community idx base) eq_refl).
  destruct (env t _) as [| |eI eS vb| |]; try discriminate. cbn [is_Raises].
  destruct (eI || eS); [apply IH|].
  unfold lift. destruct (store_varBinds_total vc name vb metrics Hp) as [m ->]. apply IH.
Qed.

Lemma zte_parse_metric_total n v : ∃ r, parse_metric ZTE n v = Ok r.
Proof.
  assert (Hdiv : ∀ (x : pyval) (d : Z), ∃ r,
             try_except (let! x := py_float_raw x in
                         let! r := py_truediv (PNum x) (Float (ofZ d)) in
                         Ok (PNum r)) (λ _, Ok PNone) = Ok r).
  { intros x d. destruct (rbind _ _); by eexists. }
  unfold parse_metric. cbn [ZTE parse_temperature parse_voltage parse_power].
  unfold ZTEVendor.parse_temperature, ZTEVendor.parse_voltage, ZTEVendor.parse_power.
  destruct (String.eqb n "temperature").
  { destruct (is_None v); [by eexists | apply Hdiv]. }
  destruct (String.eqb n "voltage").
  { destruct (is_None v); [by eexists | apply Hdiv]. }
  destruct (String.eqb n "tx_power" || String.eqb n "rx_power").
  { destruct (is_None v || py_eq v (Int 0)); [by eexists | apply Hdiv]. }
  destruct v as [|[k|q]]; cbn; try by eexists.
  all: destruct (negb _); by eexists.
Qed.

Lemma snmp_get_pon_metrics_trace env ip community idx vc t :
  ∃ r new,
    snmp_get_pon_metrics env ip community idx vc t = (Ok r, t ++ new)
    ∧ Forall (λ c, is_GetCmd c = true) new
    ∧ (∀ oids, PON_PORT_OIDS vc = Ok oids →
         new `prefix_of` requests ip community idx oids
         ∧ (is_Some r → new = requests ip community idx oids)
         ∧ ((∃ m, fst (read_metrics env ip community idx vc oids ∅ t) = Ok m) →
            new = requests ip community idx oids)).
Proof.
  unfold snmp_get_pon_metrics, try_catch, bind, lift.
  destruct (PON_PORT_OIDS vc) as [oids|e] eqn:Hoids.
  2:{ exists None, []. rewrite app_nil_r. by repeat split. }
  destruct (read_metrics_trace env ip community idx vc oids ∅ t)
    as (r & new & Hrun & Hpre & Hall).
  rewrite Hrun.
  assert (HG : Forall (λ c, is_GetCmd c = true) new).
  { pose proof Hpre as [k Hk].
    pose proof (requests_GetCmd ip community idx oids) as HF.
    rewrite Hk in HF. by apply Forall_app in HF as [? _]. }
  destruct r as [m|e].
  - assert (new = requests ip community idx oids) as Hnew by (apply Hall; by eexists).
    assert (Hfacts : ∀ r' : option (gmap string pyval),
               Forall (λ c, is_GetCmd c = true) new
               ∧ (∀ oids', Ok oids = Ok oids' →
                    new `prefix_of` requests ip community idx oids'
                    ∧ (is_Some r' → new = requests ip community idx oids')
                    ∧ ((∃ m, fst (read_metrics env ip community idx vc oids' ∅ t) = Ok m) →
                       new = requests ip community idx oids'))).
    { intros r'. split; [done|]. by intros oids' [= <-]. }
    destruct (m !! "bandwidth_in"), (m !! "bandwidth_out");
      try (eexists _, new; split; [reflexivity | apply Hfacts]).
    destruct (calculate_utilization vc _);
      eexists _, new; (split; [reflexivity | apply Hfacts]).
  - exists None, new. split; [done|]. split; [done|].
    intros oids' [= <-]. split; [done|]. split.
    + by intros [? ?].
    + intros [m Hm]. rewrite Hrun in Hm. discriminate.
Qed.

Lemma read_metrics_app env ip community idx vc pre post metrics t :
  read_metrics env ip community idx vc (pre ++ post) metrics t
  = match read_metrics env ip community idx vc pre metrics t with
    | (Ok m, t') => read_metrics env ip community idx vc post m t'
    | (Raise e, t') => (Raise e, t')
    end.
Proof.
  revert metrics t. induction pre as [|[name base] pre IH]; intros metrics t; [done|].
  cbn [app read_metrics]. unfold bind. rewrite perform_run.
  destruct (env t _) as [| |eI eS vb| |]; cbn [is_Raises]; try done.
  destruct (eI || eS); [apply IH|].
  unfold lift. destruct (store_varBinds vc name vb metrics); [apply IH|done].
Qed.

(** The read up to and including a request that raises. *)
Lemma read_metrics_stops env ip community idx vc pre name base post m' t :
  fst (read_metrics env ip community idx vc pre ∅ t) = Ok m' →
  is_Raises (env (t ++ requests ip community idx pre)
                 (snmp_request ip community idx base)) = true →
  read_metrics env ip community idx vc (pre ++ (name, base) :: post) ∅ t
  = (Raise CollaboratorError,
     t ++ requests ip community idx pre ++ [snmp_request ip community idx base]).
Proof.
  intros Hpre Hraise. rewrite read_metrics_app.
  destruct (read_metrics_trace env ip community idx vc pre ∅ t)
    as (r & new & Hrun & _ & Hall).
  rewrite Hrun in Hpre |- *. cbn [fst] in Hpre. subst r.
  rewrite (Hall (ex_intro _ m' eq_refl)).
  cbn [read_metrics]. unfold bind. rewrite perform_run, Hraise.
  by rewrite <- app_assoc.
Qed.

(** C9 (as amended): one read of a port issues the requests of the
    identifier table in its order, at most one for each metric name, each on
    a transport target with timeout 5 and retries 1; it stops at the first
    request that raises: when the names before a name were read and the
    request of that name raises, that request is the last one, the later
    names get no request and the reader returns no data.  When the reader
    returns a metric set, and whenever no request raises and the profile
    parses every reading, exactly one request was issued for each metric
    name. *)
Theorem C9_requests_of_one_read (env : oracle) (ip community : string) (port : Z)
    (vc : vendor_class) (oids : list (string * string)) (t : list call) :
  PON_PORT_OIDS vc = Ok oids →
  ∃ r new,
    snmp_get_pon_metrics env ip community port vc t = (Ok r, t ++ new)
    ∧ new `prefix_of` requests ip community port oids
    ∧ (is_Some r → new = requests ip community port oids)
    ∧ ((∀ t c, is_GetCmd c = true → is_SnmpResponse (env t c) = true) →
       (∀ n v, ∃ r, parse_metric vc n v = Ok r) →
       new = requests ip community port oids)
    ∧ (∀ pre name base post m',
         oids = pre ++ (name, base) :: post →
         fst (read_metrics env ip community port vc pre ∅ t) = Ok m' →
         is_Raises (env (t ++ requests ip community port pre)
                        (snmp_request ip community port base)) = true →
         r = None
         ∧ new = requests ip community port pre ++ [snmp_request ip community port base])
    ∧ Forall (λ c, ∃ oid, c = GetCmd community ip 161 5 1 oid)
        (requests ip community port oids)
    ∧ length (requests ip community port oids) = length oids.
Proof.
  intros Hoids.
  destruct (snmp_get_pon_metrics_trace env ip community port vc t)
    as (r & new & Hrun & _ & Hnew).
  destruct (Hnew oids Hoids) as (Hpre & Hsome & Hall).
  exists r, new. repeat apply conj; try done.
  - intros Henv Hparse. apply Hall. by apply read_metrics_total.
  - intros pre name base post m' -> Hread Hraise.
    pose proof (read_metrics_stops env ip community port vc pre name base post m' t
                  Hread Hraise) as Hstop.
    revert Hrun. unfold snmp_get_pon_metrics, try_catch, bind, lift.
    rewrite Hoids, Hstop. unfold ret. intros [= <- Ht].
    apply app_inv_head in Ht. by split.
  - apply requests_parameters.
  - unfold requests. by rewrite length_map.
Qed.

Lemma C9_requests_of_one_read_witness :
  ∃ r new,
    snmp_get_pon_metrics env_device_unreachable "10.0.0.1" "public" 1 ZTE []
    = (Ok r, [] ++ new)
    ∧ new `prefix_of` requests "10.0.0.1" "public" 1 ZTEVendor.PON_PORT_OIDS
    ∧ (is_Some r → new = requests "10.0.0.1" "public" 1 ZTEVendor.PON_PORT_OIDS)
    ∧ ((∀ t c, is_GetCmd c = true → is_SnmpResponse (env_device_unreachable t c) = true) →
       (∀ n v, ∃ r, parse_metric ZTE n v = Ok r) →
       new = requests "10.0.0.1" "public" 1 ZTEVendor.PON_PORT_OIDS)
    ∧ (∀ pre name base post m',
         ZTEVendor.PON_PORT_OIDS = pre ++ (name, base) :: post →
         fst (read_metrics env_device_unreachable "10.0.0.1" "public" 1 ZTE pre ∅ [])
         = Ok m' →
         is_Raises (env_device_unreachable ([] ++ requests "10.0.0.1" "public" 1 pre)
                      (snmp_request "10.0.0.1" "public" 1 base)) = true →
         r = None
         ∧ new = requests "10.0.0.1" "public" 1 pre
                 ++ [snmp_request "10.0.0.1" "public" 1 base])
    ∧ Forall (λ c, ∃ oid, c = GetCmd "public" "10.0.0.1" 161 5 1 oid)
        (requests "10.0.0.1" "public" 1 ZTEVendor.PON_PORT_OIDS)
    ∧ length (requests "10.0.0.1" "public" 1 ZTEVendor.PON_PORT_OIDS)
      = length ZTEVendor.PON_PORT_OIDS.
Proof.
  apply (C9_requests_of_one_read env_device_unreachable "10.0.0.1" "public" 1 ZTE
           ZTEVendor.PON_PORT_OIDS []).
  reflexivity.
Defined.

(** C9 (as stated) fails: when the first request raises, the read stops and
    the other metric names get no request. *)
Lemma C9_raising_request_ends_the_read :
  ¬ (∀ (env : oracle) (ip community : string) (port : Z) (t : list call),
       Forall (λ req, req ∈ snd (snmp_get_pon_metrics env ip community port ZTE t))
         (requests ip community port ZTEVendor.PON_PORT_OIDS)).
Proof.
  intros H. specialize (H env_device_unreachable "10.0.0.1" "public" 1 []).
  apply Forall_cons_1 in H as [_ H]. apply Forall_cons_1 in H as [H _].
  vm_compute in H. apply list_elem_of_singleton in H. discriminate H.
Qed.

(** ** The poll of one port *)

Lemma print_alerts_trace (alerts : list alert) (t : list call) :
  print_alerts alerts t = (Ok tt, t ++ map PrintAlert alerts).
Proof.
  revert t. induction alerts as [|a alerts IH]; intros t; cbn.
  - by rewrite app_nil_r.
  - unfold bind, emit. rewrite IH. by rewrite <- app_assoc.
Qed.

Lemma sink_writes_PrintAlert (alerts : list alert) :
  sink_writes (map PrintAlert alerts) = [].
Proof. unfold sink_writes. by induction alerts. Qed.

Lemma check_thresholds_trace (p : pon_port) (m : gmap string pyval) (t : list call) :
  ∃ r rest, check_thresholds p m t = (r, t ++ rest) ∧ sink_writes rest = [].
Proof.
  unfold check_thresholds, bind, lift. destruct (build_alerts p m) as [alerts|e].
  - rewrite print_alerts_trace. eexists _, _. split; [done|]. apply sink_writes_PrintAlert.
  - exists (Raise e), []. by rewrite app_nil_r.
Qed.

Lemma influx_point_total (o : olt) (p : pon_port) (m : gmap string pyval) (s : Z) :
  ∃ pt, influx_point o p m s = Ok pt.
Proof. destruct (influx_point_fields o p m s) as (pt & Hpt & _). by exists pt. Qed.

(** The calls of one poll of a port: the requests, then the writes to the
    three sinks as long as none raises, then the alerts. *)
Lemma poll_pon_port_shape (env : oracle) (o : olt) (p : pon_port)
    (vc : vendor_class) (t : list call) :
  ∃ new,
    poll_pon_port env o p vc t = (Ok tt, t ++ new)
    ∧ (sink_writes new = []
       ∨ ∃ pre U rest,
           new = pre ++ U :: rest ∧ sink_writes pre = [] ∧ sink_of U = Some StateSink
           ∧ if is_Raises (env (t ++ pre) U) then rest = []
             else ∃ I rest',
                 rest = I :: rest' ∧ sink_of I = Some SeriesSink
                 ∧ if is_Raises (env (t ++ pre ++ [U]) I) then rest' = []
                   else ∃ H rest'',
                       rest' = H :: rest'' ∧ sink_of H = Some CacheSink
                       ∧ sink_writes rest'' = []
                       ∧ (is_Raises (env (t ++ pre ++ [U; I]) H) = true → rest'' = [])).
Proof.
  unfold poll_pon_port, try_catch, bind.
  destruct (snmp_get_pon_metrics_trace env (olt_ip_address o) (olt_snmp_community o)
              (port_number p) vc t) as (r & gets & -> & HG & _).
  pose proof (sink_writes_GetCmd gets HG) as Hgets.
  destruct r as [m|]; [|exists gets; split; [done | by left]].
  destruct (size m =? 0)%nat; [exists gets; split; [done | by left]|].
  unfold lift at 1. destruct (calculate_health_score m) as [s|e];
    [|exists gets; split; [done | by left]].
  rewrite perform_run. set (U := UpdatePonPort (update_args p m s)).
  destruct (is_Raises (env (t ++ gets) U)) eqn:EU.
  { exists (gets ++ [U]). split; [by rewrite app_assoc|]. right.
    exists gets, U, []. by rewrite EU. }
  unfold lift at 1. destruct (influx_point_total o p m s) as [pt ->].
  rewrite perform_run. set (I := InfluxWrite pt).
  assert (Ht1 : (t ++ gets) ++ [U] = t ++ gets ++ [U]) by by rewrite app_assoc.
  rewrite Ht1.
  destruct (is_Raises (env (t ++ gets ++ [U]) I)) eqn:EI.
  { exists (gets ++ [U; I]). split; [by rewrite <- !app_assoc|]. right.
    exists gets, U, [I]. rewrite EU. repeat split; try done.
    exists I, []. by rewrite EI. }
  rewrite perform_run.
  set (H := RedisHset (cache_key p) (cache_mapping m s)).
  assert (Ht2 : (t ++ gets ++ [U]) ++ [I] = t ++ gets ++ [U; I]) by by rewrite <- !app_assoc.
  rewrite Ht2.
  destruct (is_Raises (env (t ++ gets ++ [U; I]) H)) eqn:EH.
  { exists (gets ++ [U; I; H]). split; [by rewrite <- !app_assoc|]. right.
    exists gets, U, [I; H]. rewrite EU. repeat split; try done.
    exists I, [H]. rewrite EI. repeat split; try done.
    exists H, []. by repeat split. }
  rewrite perform_run. set (E := RedisExpire (cache_key p) 300).
  destruct (is_Raises (env ((t ++ gets ++ [U; I]) ++ [H]) E)) eqn:EE.
  { exists (gets ++ [U; I; H; E]). split; [by rewrite <- !app_assoc|]. right.
    exists gets, U, [I; H; E]. rewrite EU. repeat split; try done.
    exists I, [H; E]. rewrite EI. repeat split; try done.
    exists H, [E]. rewrite EH. by repeat split. }
  destruct (check_thresholds_trace p m (((t ++ gets ++ [U; I]) ++ [H]) ++ [E]))
    as (r & rest & -> & Hrest).
  exists (gets ++ [U; I; H; E] ++ rest). split.
  { destruct r as [[]|]; by rewrite <- !app_assoc. }
  right. exists gets, U, ([I; H; E] ++ rest). rewrite EU. repeat split; try done.
  exists I, ([H; E] ++ rest). rewrite EI. repeat split; try done.
  exists H, ([E] ++ rest). rewrite EH. by repeat split.
Qed.

(** The calls of one poll of a port whose read returned a metric set with
    a health score: the requests, then the writes up to the first one that
    raises, then the alerts. *)
Lemma poll_pon_port_writes (env : oracle) (o : olt) (p : pon_port) (vc : vendor_class)
    (t gets : list call) (m : gmap string pyval) (s : Z) (pt : Point) :
  snmp_get_pon_metrics env (olt_ip_address o) (olt_snmp_community o) (port_number p) vc t
  = (Ok (Some m), t ++ gets) →
  (size m =? 0)%nat = false →
  calculate_health_score m = Ok s →
  influx_point o p m s = Ok pt →
  let U := UpdatePonPort (update_args p m s) in
  let I := InfluxWrite pt in
  let H := RedisHset (cache_key p) (cache_mapping m s) in
  let E := RedisExpire (cache_key p) 300 in
  let alerts := match build_alerts p m with
                | Ok alerts => map PrintAlert alerts
                | Raise _ => []
                end in
  poll_pon_port env o p vc t
  = (Ok tt,
     t ++ gets
       ++ (if is_Raises (env (t ++ gets) U) then [U]
           else if is_Raises (env (t ++ gets ++ [U]) I) then [U; I]
           else if is_Raises (env (t ++ gets ++ [U; I]) H) then [U; I; H]
           else if is_Raises (env (t ++ gets ++ [U; I; H]) E) then [U; I; H; E]
           else [U; I; H; E] ++ alerts)).
Proof.
  intros Hread Hsize Hscore Hpt U I H E alerts.
  unfold poll_pon_port, try_catch, bind. rewrite Hread, Hsize.
  unfold lift at 1. rewrite Hscore. rewrite perform_run. fold U.
  destruct (is_Raises (env (t ++ gets) U)).
  { unfold ret. by rewrite <- app_assoc. }
  unfold lift at 1. rewrite Hpt. rewrite perform_run. fold I.
  replace ((t ++ gets) ++ [U]) with (t ++ gets ++ [U]) by by rewrite app_assoc.
  destruct (is_Raises (env (t ++ gets ++ [U]) I)).
  { unfold ret. by rewrite <- !app_assoc. }
  rewrite perform_run. fold H.
  replace ((t ++ gets ++ [U]) ++ [I]) with (t ++ gets ++ [U; I]) by by rewrite <- !app_assoc.
  destruct (is_Raises (env (t ++ gets ++ [U; I]) H)).
  { unfold ret. by rewrite <- !app_assoc. }
  rewrite perform_run. fold E.
  replace ((t ++ gets ++ [U; I]) ++ [H]) with (t ++ gets ++ [U; I; H])
    by by rewrite <- !app_assoc.
  destruct (is_Raises (env (t ++ gets ++ [U; I; H]) E)).
  { unfold ret. by rewrite <- !app_assoc. }
  unfold check_thresholds, bind, lift. subst alerts.
  destruct (build_alerts p m) as [al|e].
  - rewrite print_alerts_trace. by rewrite <- !app_assoc.
  - unfold ret. by rewrite <- !app_assoc.
Qed.

(** C1 (as amended): when the read of a port returns a metric set that has
    a health score, the poll attempts the latest-state write, with the
    readings and the score, right after the requests, whatever the stores
    do; it attempts the time-series write next exactly when the
    latest-state write returned, and the cache write after that exactly
    when the time-series write returned: a failure of the cache write
    leaves the other two attempted (and not undone), a failure of the
    latest-state write skips the other two sinks, a failure of the
    time-series write skips the cache.  No call follows a write that
    raised, and no exception leaves the poll of a port, in any case. *)
Theorem C1_sink_writes_in_order (env : oracle) (o : olt) (p : pon_port)
    (vc : vendor_class) (t gets : list call) (m : gmap string pyval) (s : Z) :
  snmp_get_pon_metrics env (olt_ip_address o) (olt_snmp_community o) (port_number p) vc t
  = (Ok (Some m), t ++ gets) →
  calculate_health_score m = Ok s →
  ∃ pt,
    influx_point o p m s = Ok pt
    ∧ sink_writes gets = []
    ∧ let U := UpdatePonPort (update_args p m s) in
      let I := InfluxWrite pt in
      let H := RedisHset (cache_key p) (cache_mapping m s) in
      let E := RedisExpire (cache_key p) 300 in
      let alerts := match build_alerts p m with
                    | Ok alerts => map PrintAlert alerts
                    | Raise _ => []
                    end in
      poll_pon_port env o p vc t
      = (Ok tt,
         t ++ gets
           ++ (if is_Raises (env (t ++ gets) U) then [U]
               else if is_Raises (env (t ++ gets ++ [U]) I) then [U; I]
               else if is_Raises (env (t ++ gets ++ [U; I]) H) then [U; I; H]
               else if is_Raises (env (t ++ gets ++ [U; I; H]) E) then [U; I; H; E]
               else [U; I; H; E] ++ alerts))
      ∧ sink_writes [U; I; H; E] = [StateSink; SeriesSink; CacheSink]
      ∧ sink_writes alerts = []
      ∧ ∀ env' o' p' vc' t', ∃ new, poll_pon_port env' o' p' vc' t' = (Ok tt, t' ++ new).
Proof.
  intros Hread Hscore.
  destruct (influx_point_total o p m s) as [pt Hpt]. exists pt.
  split; [exact Hpt|].
  destruct (snmp_get_pon_metrics_trace env (olt_ip_address o) (olt_snmp_community o)
              (port_number p) vc t) as (r & gets' & Hrun & HG & _).
  rewrite Hread in Hrun. injection Hrun as _ Hgets. apply app_inv_head in Hgets. subst gets'.
  split; [by apply sink_writes_GetCmd|].
  cbv zeta. split; [|split; [reflexivity|split]].
  - apply poll_pon_port_writes; try done.
    unfold snmp_get_pon_metrics, try_catch, bind, lift in Hread.
    destruct (PON_PORT_OIDS vc) as [oids|]; [|discriminate].
    destruct (read_metrics _ _ _ _ _ _ _ _) as [[m0|] t0]; [|discriminate].
    apply Nat.eqb_neq. intros Hs. apply map_size_empty_iff in Hs.
    assert (Hin : m !! "total_onus" = Some (PNum (Int 0))).
    { destruct (m0 !! "bandwidth_in"); [destruct (m0 !! "bandwidth_out")|];
        try destruct (calculate_utilization vc _); try discriminate;
        unfold ret in Hread; injection Hread as <- _; by rewrite lookup_insert_eq. }
    rewrite Hs, lookup_empty in Hin. discriminate.
  - destruct (build_alerts p m); [apply sink_writes_PrintAlert|reflexivity].
  - intros env' o' p' vc' t'.
    destruct (poll_pon_port_shape env' o' p' vc' t') as (new & Hnew & _). by exists new.
Qed.

Lemma C1_sink_writes_in_order_witness :
  ∃ pt,
    influx_point olt_zte port_1 metrics_healthy_read 100 = Ok pt
    ∧ sink_writes (requests "10.0.0.1" "public" 1 ZTEVendor.PON_PORT_OIDS) = []
    ∧ let env := env_cache_down in
      let t := [] in
      let gets := requests "10.0.0.1" "public" 1 ZTEVendor.PON_PORT_OIDS in
      let U := UpdatePonPort (update_args port_1 metrics_healthy_read 100) in
      let I := InfluxWrite pt in
      let H := RedisHset (cache_key port_1) (cache_mapping metrics_healthy_read 100) in
      let E := RedisExpire (cache_key port_1) 300 in
      let alerts := match build_alerts port_1 metrics_healthy_read with
                    | Ok alerts => map PrintAlert alerts
                    | Raise _ => []
                    end in
      poll_pon_port env olt_zte port_1 ZTE t
      = (Ok tt,
         t ++ gets
           ++ (if is_Raises (env (t ++ gets) U) then [U]
               else if is_Raises (env (t ++ gets ++ [U]) I) then [U; I]
               else if is_Raises (env (t ++ gets ++ [U; I]) H) then [U; I; H]
               else if is_Raises (env (t ++ gets ++ [U; I; H]) E) then [U; I; H; E]
               else [U; I; H; E] ++ alerts))
      ∧ sink_writes [U; I; H; E] = [StateSink; SeriesSink; CacheSink]
      ∧ sink_writes alerts = []
      ∧ ∀ env' o' p' vc' t', ∃ new, poll_pon_port env' o' p' vc' t' = (Ok tt, t' ++ new).
Proof.
  apply (C1_sink_writes_in_order env_cache_down olt_zte port_1 ZTE []
           (requests "10.0.0.1" "public" 1 ZTEVendor.PON_PORT_OIDS)
           metrics_healthy_read 100).
  - reflexivity.
  - reflexivity.
Defined.

(** C1 (as stated) fails: when the latest-state write raises, neither the
    time-series write nor the cache write is attempted. *)
Lemma C1_state_failure_skips_other_sinks :
  ¬ (∀ (env : oracle) (o : olt) (p : pon_port) (vc : vendor_class) (t : list call),
       let new := drop (length t) (snd (poll_pon_port env o p vc t)) in
       StateSink ∈ sink_writes new →
       SeriesSink ∈ sink_writes new ∧ CacheSink ∈ sink_writes new).
Proof.
  intros H. specialize (H env_state_store_down olt_zte port_1 ZTE []).
  vm_compute in H. destruct H as [H _]; [by left|].
  apply list_elem_of_singleton in H. discriminate H.
Qed.

Example cache_failure_leaves_other_sinks_written :
  sink_writes (snd (poll_pon_port env_cache_down olt_zte port_1 ZTE []))
  = [StateSink; SeriesSink; CacheSink].
Proof. reflexivity. Qed.

(** ** The poll of one OLT and the cycle *)

Lemma poll_pon_ports_trace (env : oracle) (o : olt) (ports : list pon_port)
    (vc : vendor_class) (t : list call) :
  ∃ new, poll_pon_ports env o ports vc t = (Ok tt, t ++ new).
Proof.
  revert t. induction ports as [|p ports IH]; intros t.
  - exists []. cbn. by rewrite app_nil_r.
  - cbn [poll_pon_ports]. unfold bind.
    destruct (poll_pon_port_shape env o p vc t) as (new & -> & _).
    destruct (IH (t ++ new)) as (new' & ->).
    exists (new ++ new'). by rewrite app_assoc.
Qed.

(** One poll of an OLT never raises; its value is decided by the vendor
    tag, by the fetch of the ports and by the update of the last poll. *)
Lemma poll_olt_run (Huawei : vendor_class) (env : oracle) (o : olt) (t : list call) :
  ∃ b new,
    poll_olt Huawei env o t = (Ok b, t ++ new)
    ∧ match vendor_map Huawei !! olt_vendor o with
      | None => b = false ∧ new = []
      | Some _ =>
          match env t (FetchPonPorts (olt_id o)) with
          | PonPortRows _ =>
              ∃ mid, new = FetchPonPorts (olt_id o) :: mid ++ [UpdateOltLastPoll (olt_id o)]
                     ∧ b = negb (is_Raises
                                   (env (t ++ FetchPonPorts (olt_id o) :: mid)
                                        (UpdateOltLastPoll (olt_id o))))
          | _ => b = false ∧ new = [FetchPonPorts (olt_id o)]
          end
      end.
Proof.
  unfold poll_olt, try_catch.
  destruct (vendor_map Huawei !! olt_vendor o) as [vc|].
  2:{ exists false, []. cbn. by rewrite app_nil_r. }
  unfold bind. rewrite perform_run.
  destruct (env t (FetchPonPorts (olt_id o))) as [| | | |ports] eqn:EF; cbn [is_Raises];
    try (exists false, [FetchPonPorts (olt_id o)]; by cbn).
  destruct (poll_pon_ports_trace env o ports vc (t ++ [FetchPonPorts (olt_id o)]))
    as (mid & ->).
  rewrite perform_run.
  assert (Ht : (t ++ [FetchPonPorts (olt_id o)]) ++ mid = t ++ FetchPonPorts (olt_id o) :: mid)
    by by rewrite <- app_assoc.
  rewrite Ht.
  exists (negb (is_Raises (env (t ++ FetchPonPorts (olt_id o) :: mid)
                              (UpdateOltLastPoll (olt_id o))))),
         (FetchPonPorts (olt_id o) :: mid ++ [UpdateOltLastPoll (olt_id o)]).
  split; [|by exists mid].
  destruct (is_Raises _); cbn; by rewrite <- app_assoc.
Qed.


Lemma gather_poll_olt (Huawei : vendor_class) (env : oracle) (olts : list olt)
    (t : list call) :
  ∃ results new,
    gather (map (poll_olt Huawei env) olts) t = (Ok results, t ++ new)
    ∧ Forall2 (λ o r, ∃ t', r = fst (poll_olt Huawei env o t')) olts results.
Proof.
  revert t. induction olts as [|o olts IH]; intros t.
  - exists [], []. cbn. rewrite app_nil_r. by split.
  - cbn [map gather].
    destruct (poll_olt_run Huawei env o t) as (b & new & Hrun & _).
    rewrite Hrun. destruct (IH (t ++ new)) as (results & new' & -> & HF).
    exists (Ok b :: results), (new ++ new'). split; [by rewrite app_assoc|].
    constructor; [|done]. exists t. by rewrite Hrun.
Qed.




Lemma env_healthy_history_free : history_free env_healthy.
Proof. by intros t t' c. Qed.



(** A device that answers no request: the read finds no metric, the port
    is written with the ONU counts alone and the OLT is counted as a
    success. *)
Example silent_device_counted_as_success :
  fst (poll_olt ZTE env_device_silent olt_zte []) = Ok true
  ∧ sink_writes (snd (poll_olt ZTE env_device_silent olt_zte []))
    = [StateSink; SeriesSink; CacheSink].
Proof. split; reflexivity. Qed.

(** ** Vendor dispatch *)

Lemma upper_ascii_idempotent (c : Ascii.ascii) : upper_ascii (upper_ascii c) = upper_ascii c.
Proof. by destruct c as [[] [] [] [] [] [] [] []]. Qed.

Lemma upper_idempotent (s : string) : upper (upper s) = upper s.
Proof.
  induction s as [|c s IH]; [done|]. cbn. by rewrite upper_ascii_idempotent, IH.
Qed.

Lemma vendor_map_unsupported (Huawei : vendor_class) (tag : string) :
  tag ≠ "ZTE" → tag ≠ "Huawei" → vendor_map Huawei !! tag = None.
Proof.
  intros Hz Hh. unfold vendor_map.
  rewrite lookup_insert_ne by done. by rewrite lookup_singleton_ne.
Qed.

(** C10: the dispatch table of the orchestrator has exactly the tags
    ['ZTE'] and ['Huawei'], compared as they are written; for every OLT with
    another tag, among them ['FIBERHOME'] and ['VSOL'], which the registry
    knows (and resolves whatever the case of the name), [poll_olt] returns
    [False] and makes no call at all: it fetches no port and polls none. *)
Theorem C10_unsupported_vendor_not_polled (Huawei : vendor_class) (env : oracle)
    (o : olt) (t : list call) :
  olt_vendor o ≠ "ZTE" →
  olt_vendor o ≠ "Huawei" →
  poll_olt Huawei env o t = (Ok false, t)
  ∧ dom (vendor_map Huawei) = {[ "ZTE"; "Huawei" ]}
  ∧ vendor_map Huawei !! "FIBERHOME" = None
  ∧ vendor_map Huawei !! "VSOL" = None
  ∧ vendor_map Huawei !! "zte" = None
  ∧ vendor_map Huawei !! "HUAWEI" = None
  ∧ get_vendor Huawei "FIBERHOME" = Some FiberHome
  ∧ get_vendor Huawei "VSOL" = Some VSOL
  ∧ get_vendor Huawei "fiberhome" = Some FiberHome
  ∧ get_vendor Huawei "vsol" = Some VSOL
  ∧ (∀ name, get_vendor Huawei (upper name) = get_vendor Huawei name).
Proof.
  intros Hz Hh. repeat apply conj; try reflexivity.
  - unfold poll_olt, try_catch. by rewrite vendor_map_unsupported.
  - intros name. unfold get_vendor. by rewrite upper_idempotent.
Qed.

Lemma C10_unsupported_vendor_not_polled_witness :
  poll_olt ZTE env_healthy olt_vsol [] = (Ok false, [])
  ∧ dom (vendor_map ZTE) = {[ "ZTE"; "Huawei" ]}
  ∧ vendor_map ZTE !! "FIBERHOME" = None
  ∧ vendor_map ZTE !! "VSOL" = None
  ∧ vendor_map ZTE !! "zte" = None
  ∧ vendor_map ZTE !! "HUAWEI" = None
  ∧ get_vendor ZTE "FIBERHOME" = Some FiberHome
  ∧ get_vendor ZTE "VSOL" = Some VSOL
  ∧ get_vendor ZTE "fiberhome" = Some FiberHome
  ∧ get_vendor ZTE "vsol" = Some VSOL
  ∧ (∀ name, get_vendor ZTE (upper name) = get_vendor ZTE name).
Proof.
  apply (C10_unsupported_vendor_not_polled ZTE env_healthy olt_vsol []); discriminate.
Defined.

(** * Further properties *)

(** ** Readings of the vendor profiles *)

Lemma Qcdiv_nonzero (x y : Qc) : x ≠ ofZ 0 → y ≠ ofZ 0 → (x / y)%Qc ≠ ofZ 0.
Proof.
  intros Hx Hy H. apply Hx.
  assert (Hy' : y ≠ 0%Qc) by exact Hy.
  pose proof (Qcmult_div_r x y Hy') as E.
  rewrite H in E. rewrite <- E. change (ofZ 0) with 0%Qc. ring.
Qed.

Lemma ofZ_nonzero (n : Z) : n ≠ 0 → ofZ n ≠ ofZ 0.
Proof.
  intros Hn H. apply Hn. apply Qc_eq_Qeq in H. rewrite !this_ofZ in H.
  unfold inject_Z, Qeq in H. simpl in H. lia.
Qed.

Lemma Qceqb_ofZ (m n : Z) : Qceqb (ofZ m) (ofZ n) = Z.eqb m n.
Proof.
  destruct (Z.eqb_spec m n) as [->|Hne].
  - apply Qceqb_eq. reflexivity.
  - apply Qceqb_neq. intros H. apply Hne.
    apply Qc_eq_Qeq in H. rewrite !this_ofZ in H. rewrite inject_Z_injective in H. exact H.
Qed.

(** X1: on an integer raw reading the ZTE power parser never raises: it
    returns [None] exactly for 0 and for an int beyond the range of a
    double (the bare [except] swallows the [OverflowError] of [float]), and
    the reading divided by 100 otherwise, with no range check.  A reading it
    lets through is therefore never 0.  [None] gives [None]. *)
Theorem zte_parse_power_never_zero (n : Z) :
  ∃ r, ZTEVendor.parse_power (PNum (Int n)) = Ok r
       ∧ (r = PNone ↔ n = 0 ∨ 2 ^ 1024 - 2 ^ 970 ≤ Z.abs n)
       ∧ (r ≠ PNone → r = PNum (Float (ofZ n / ofZ 100)))
       ∧ (r = PNone ∨ truthy r = true)
       ∧ ZTEVendor.parse_power PNone = Ok PNone.
Proof.
  unfold ZTEVendor.parse_power. cbn [is_None orb py_eq].
  change (value_of (Int n)) with (ofZ n). change (value_of (Int 0)) with (ofZ 0).
  rewrite Qceqb_ofZ.
  destruct (Z.eqb_spec n 0) as [->|Hn].
  { exists PNone. split; [reflexivity|]. split; [split; auto|].
    split; [done|]. split; [by left|reflexivity]. }
  cbn [py_float_raw]. unfold float_overflows.
  destruct (Z.leb_spec (2 ^ 1024 - 2 ^ 970) (Z.abs n)) as [Hbig|Hsmall].
  { exists PNone. split; [reflexivity|]. split; [split; auto|].
    split; [done|]. split; [by left|reflexivity]. }
  exists (PNum (Float (ofZ n / ofZ 100))). cbn.
  replace (Qceqb (ofZ 100) (ofZ 0)) with false by reflexivity.
  split; [reflexivity|]. split.
  - split; [discriminate|]. intros [?|?]; [done|lia].
  - split; [done|]. split; [|reflexivity]. right.
    apply negb_true_iff, Qceqb_neq, Qcdiv_nonzero; apply ofZ_nonzero; lia.
Qed.

Lemma this_div_ofZ (x : Qc) (n : Z) : (this (x / ofZ n) == this x / inject_Z n)%Q.
Proof. by rewrite this_Qcdiv, this_ofZ. Qed.

Ltac qc_div :=
  qc_to_q; rewrite ?this_div_ofZ in *; rewrite ?this_ofZ in *;
  unfold Qdiv, inject_Z in *; cbn [Qinv Qnum Qden] in *.

Lemma fiberhome_parse_power_unfold (raw : number) :
  FiberHomeVendor.parse_power raw =
  let value := (value_of raw / ofZ 100)%Qc in
  if fits_double raw then
    Ok (if Qcltb (ofZ 50) value || Qcltb value (ofZ (-50))
        then PNone else PNum (Float value))
  else Raise OverflowError.
Proof.
  unfold FiberHomeVendor.parse_power. rewrite py_float_raw_fits.
  destruct (fits_double raw); [|reflexivity]. simpl.
  replace (Qceqb (ofZ 100) (ofZ 0)) with false by reflexivity. simpl.
  destruct (_ || _); reflexivity.
Qed.

Lemma zte_parse_power_unfold (raw : number) :
  ZTEVendor.parse_power raw =
  Ok (if Qceqb (value_of raw) (ofZ 0) || negb (fits_double raw) then PNone
      else PNum (Float (value_of raw / ofZ 100))).
Proof.
  unfold ZTEVendor.parse_power. cbn [is_None orb py_eq].
  change (value_of (Int 0)) with (ofZ 0).
  destruct (Qceqb (value_of raw) (ofZ 0)); [reflexivity|].
  rewrite py_float_raw_fits. destruct (fits_double raw); [|reflexivity].
  simpl. replace (Qceqb (ofZ 100) (ofZ 0)) with false by reflexivity. reflexivity.
Qed.

Lemma fits_double_small (n : Z) : Z.abs n < 2 ^ 64 → fits_double (Int n) = true.
Proof. intros H. cbn. by rewrite float_overflows_small. Qed.

Lemma ofZ_div100_le (n b : Z) : n ≤ 100 * b → (ofZ n / ofZ 100 <= ofZ b)%Qc.
Proof.
  intros H. unfold Qcle. rewrite this_div_ofZ, !this_ofZ.
  rewrite Zle_Qle, inject_Z_mult in H.
  generalize dependent (inject_Z n). intros qn. generalize (inject_Z b). intros qb H.
  unfold Qdiv, inject_Z in *. cbn [Qinv Qnum Qden]. lra.
Qed.

Lemma ofZ_div100_ge (n a : Z) : 100 * a ≤ n → (ofZ a <= ofZ n / ofZ 100)%Qc.
Proof.
  intros H. unfold Qcle. rewrite this_div_ofZ, !this_ofZ.
  rewrite Zle_Qle, inject_Z_mult in H.
  generalize dependent (inject_Z n). intros qn. generalize (inject_Z a). intros qa H.
  unfold Qdiv, inject_Z in *. cbn [Qinv Qnum Qden]. lra.
Qed.

Lemma ofZ_div100_le_inv (n b : Z) : (ofZ n / ofZ 100 <= ofZ b)%Qc → n ≤ 100 * b.
Proof.
  intros H. unfold Qcle in H. rewrite this_div_ofZ, !this_ofZ in H.
  rewrite Zle_Qle, inject_Z_mult.
  generalize dependent (inject_Z n). intros qn. generalize (inject_Z b). intros qb H.
  unfold Qdiv, inject_Z in *. cbn [Qinv Qnum Qden] in H. lra.
Qed.

Lemma ofZ_div100_ge_inv (n a : Z) : (ofZ a <= ofZ n / ofZ 100)%Qc → 100 * a ≤ n.
Proof.
  intros H. unfold Qcle in H. rewrite this_div_ofZ, !this_ofZ in H.
  rewrite Zle_Qle, inject_Z_mult.
  generalize dependent (inject_Z n). intros qn. generalize (inject_Z a). intros qa H.
  unfold Qdiv, inject_Z in *. cbn [Qinv Qnum Qden] in H. lra.
Qed.

(** X2: On an integer raw reading other than 0 between -4000 and 1000
    (-40 dBm to 10 dBm) the power parsers of the three profiles agree: each
    returns the reading divided by 100. *)
Theorem power_parsers_agree_in_range (n : Z) :
  n ≠ 0 → -4000 ≤ n ≤ 1000 →
  ZTEVendor.parse_power (Int n) = Ok (PNum (Float (ofZ n / ofZ 100)))
  ∧ FiberHomeVendor.parse_power (Int n) = ZTEVendor.parse_power (Int n)
  ∧ VSOLVendor.parse_power (Int n) = ZTEVendor.parse_power (Int n).
Proof.
  intros Hn Hr.
  assert (Hz : Qceqb (ofZ n) (ofZ 0) = false) by (apply Qceqb_neq, ofZ_nonzero, Hn).
  assert (Hfit : fits_double (Int n) = true).
  { apply fits_double_small. apply Z.le_lt_trans with 4000; [lia|reflexivity]. }
  assert (E : ZTEVendor.parse_power (Int n) = Ok (PNum (Float (ofZ n / ofZ 100)))).
  { rewrite zte_parse_power_unfold, Hfit. simpl value_of. by rewrite Hz. }
  split; [exact E|]. rewrite E. split.
  - rewrite fiberhome_parse_power_unfold, Hfit. simpl value_of. cbv zeta.
    replace (Qcltb (ofZ 50) (ofZ n / ofZ 100)) with false
      by (symmetry; apply Qcltb_ge, ofZ_div100_le; lia).
    replace (Qcltb (ofZ n / ofZ 100) (ofZ (-50))) with false
      by (symmetry; apply Qcltb_ge, ofZ_div100_ge; lia).
    reflexivity.
  - rewrite vsol_parse_power_unfold, Hfit. simpl value_of. cbv zeta.
    replace (Qceqb (ofZ n / ofZ 100) (ofZ 0)) with false
      by (symmetry; apply Qceqb_neq, Qcdiv_nonzero; apply ofZ_nonzero; lia).
    replace (Qcltb (ofZ n / ofZ 100) (ofZ (-40))) with false
      by (symmetry; apply Qcltb_ge, ofZ_div100_ge; lia).
    replace (Qcltb (ofZ 10) (ofZ n / ofZ 100)) with false
      by (symmetry; apply Qcltb_ge, ofZ_div100_le; lia).
    simpl. by rewrite py_round_hundredths.
Qed.

Lemma power_parsers_agree_in_range_witness :
  ZTEVendor.parse_power (Int (-2550)) = Ok (PNum (Float (ofZ (-2550) / ofZ 100)))
  ∧ FiberHomeVendor.parse_power (Int (-2550)) = ZTEVendor.parse_power (Int (-2550))
  ∧ VSOLVendor.parse_power (Int (-2550)) = ZTEVendor.parse_power (Int (-2550)).
Proof. apply (power_parsers_agree_in_range (-2550)); lia. Defined.

(** X3: on an integer raw reading within the range of a double the
    FiberHome power parser returns [None] exactly for a reading above 5000
    or below -5000 (the bounds themselves are kept), and the reading divided
    by 100, unrounded, otherwise: a raw 0 is the reading 0.0, not an absent
    one.  On an int beyond the range of a double it raises [OverflowError],
    which its handler does not catch.  [None] gives [None]. *)
Theorem fiberhome_parse_power_range (n : Z) :
  (float_overflows n = true →
   FiberHomeVendor.parse_power (PNum (Int n)) = Raise OverflowError)
  ∧ (float_overflows n = false →
     ∃ r, FiberHomeVendor.parse_power (PNum (Int n)) = Ok r
          ∧ (r = PNone ↔ 5000 < n ∨ n < -5000)
          ∧ (r ≠ PNone → r = PNum (Float (ofZ n / ofZ 100))))
  ∧ FiberHomeVendor.parse_power (PNum (Int 0)) = Ok (PNum (Float (ofZ 0)))
  ∧ FiberHomeVendor.parse_power PNone = Ok PNone.
Proof.
  split; [|split; [|split; [|reflexivity]]].
  - intros Hbig. rewrite fiberhome_parse_power_unfold. cbn [fits_double].
    by rewrite Hbig.
  - intros Hfit. rewrite fiberhome_parse_power_unfold. cbn [fits_double].
    rewrite Hfit. cbn [negb]. cbv zeta. change (value_of (Int n)) with (ofZ n).
    destruct (Z.lt_ge_cases 5000 n) as [Hhi|Hhi].
    { replace (Qcltb (ofZ 50) (ofZ n / ofZ 100)) with true; cycle 1.
      { symmetry. apply Qcltb_lt. apply Qcnot_le_lt. intros Hle.
        pose proof (ofZ_div100_le_inv n 50 Hle). lia. }
      exists PNone. split; [reflexivity|]. split; [split; auto|done]. }
    destruct (Z.lt_ge_cases n (-5000)) as [Hlo|Hlo].
    { replace (Qcltb (ofZ 50) (ofZ n / ofZ 100)) with false
        by (symmetry; apply Qcltb_ge, ofZ_div100_le; lia).
      replace (Qcltb (ofZ n / ofZ 100) (ofZ (-50))) with true; cycle 1.
      { symmetry. apply Qcltb_lt. apply Qcnot_le_lt. intros Hle.
        pose proof (ofZ_div100_ge_inv n (-50) Hle). lia. }
      exists PNone. split; [reflexivity|]. split; [split; auto|done]. }
    replace (Qcltb (ofZ 50) (ofZ n / ofZ 100)) with false
      by (symmetry; apply Qcltb_ge, ofZ_div100_le; lia).
    replace (Qcltb (ofZ n / ofZ 100) (ofZ (-50))) with false
      by (symmetry; apply Qcltb_ge, ofZ_div100_ge; lia).
    exists (PNum (Float (ofZ n / ofZ 100))). split; [reflexivity|].
    split; [split; [discriminate|lia]|done].
  - rewrite fiberhome_parse_power_unfold.
    replace (fits_double (Int 0)) with true by reflexivity.
    cbv zeta. vm_compute. do 3 f_equal. by apply Qc_is_canon.
Qed.

Lemma scaled_reading_total (raw_value : pyval) (k : Z) (d : pyval) :
  k ≠ 0 →
  try_except
    (let! x := py_float_raw raw_value in
     let! r := py_truediv (PNum x) (Float (ofZ k)) in
     Ok (PNum r))
    (except_ValueError_TypeError d)
  = match raw_value with
    | PNone => Ok d
    | PNum x =>
        if fits_double x then Ok (PNum (Float (value_of x / ofZ k)))
        else Raise OverflowError
    end.
Proof.
  intros Hk. destruct raw_value as [|x]; [reflexivity|].
  rewrite py_float_raw_fits. destruct (fits_double x); [|reflexivity].
  simpl. replace (Qceqb (ofZ k) (ofZ 0)) with false; [reflexivity|].
  symmetry. apply Qceqb_neq, ofZ_nonzero, Hk.
Qed.

Lemma interval_parse_metric_total (v : vendor_class) (n : string) (value : pyval) :
  v = FiberHome ∨ v = VSOL → reading_fits value = true →
  ∃ r, parse_metric v n value = Ok r.
Proof.
  intros Hv Hfit. unfold parse_metric.
  destruct (String.eqb n "temperature").
  { destruct Hv as [-> | ->]; simpl;
      unfold FiberHomeVendor.parse_temperature, VSOLVendor.parse_temperature;
      rewrite scaled_reading_total by lia; destruct value; cbn in Hfit;
      rewrite ?Hfit; eauto. }
  destruct (String.eqb n "voltage").
  { destruct Hv as [-> | ->]; simpl;
      unfold FiberHomeVendor.parse_voltage, VSOLVendor.parse_voltage;
      rewrite scaled_reading_total by lia; destruct value; cbn in Hfit;
      rewrite ?Hfit; eauto. }
  destruct (_ || _).
  { destruct value as [|x]; [destruct Hv as [-> | ->]; simpl; eauto|].
    cbn in Hfit. destruct Hv as [-> | ->]; simpl parse_power.
    - rewrite fiberhome_parse_power_unfold, Hfit. eauto.
    - rewrite vsol_parse_power_unfold, Hfit. eauto. }
  destruct value as [|[m|q]]; [simpl; eauto| |];
    destruct (truthy _); simpl; eauto.
Qed.

(** X4: with the parsers of any of the three vendor classes of the
    sources, the interpretation of a reading in [snmp_get_pon_metrics] does
    not raise on a raw reading that is [None] or a number within the range
    of a double, whatever the metric name; with the ZTE class it does not
    raise on a number of any size, while the temperature parsers of the
    FiberHome and VSOL classes raise [OverflowError] on an int beyond that
    range.  A [None] reading of temperature or voltage stays [None] with
    the ZTE class and becomes 0.0 with the FiberHome and VSOL classes; a
    [None] power stays [None] with all three. *)
Theorem vendor_parsers_never_raise (v : vendor_class) (n : string) (value : pyval) :
  v ∈ [ZTE; FiberHome; VSOL] →
  reading_fits value = true →
  (∃ r, parse_metric v n value = Ok r)
  ∧ (∀ value', ∃ r, parse_metric ZTE n value' = Ok r)
  ∧ (∀ k, float_overflows k = true →
          parse_temperature FiberHome (PNum (Int k)) = Raise OverflowError
          ∧ parse_temperature VSOL (PNum (Int k)) = Raise OverflowError)
  ∧ parse_power v PNone = Ok PNone
  ∧ (v = ZTE →
     parse_temperature v PNone = Ok PNone ∧ parse_voltage v PNone = Ok PNone)
  ∧ (v = FiberHome ∨ v = VSOL →
     parse_temperature v PNone = Ok (PNum (Float (ofZ 0)))
     ∧ parse_voltage v PNone = Ok (PNum (Float (ofZ 0)))).
Proof.
  intros Hv Hfit.
  assert (Hc : v = ZTE ∨ v = FiberHome ∨ v = VSOL).
  { rewrite !elem_of_cons in Hv. rewrite elem_of_nil in Hv. tauto. }
  split; [|split; [|split; [|split; [|split]]]].
  - destruct Hc as [-> | Hc]; [apply zte_parse_metric_total|].
    by apply interval_parse_metric_total.
  - intros value'. apply zte_parse_metric_total.
  - intros k Hk. cbn [parse_temperature FiberHome VSOL].
    unfold FiberHomeVendor.parse_temperature, VSOLVendor.parse_temperature.
    rewrite !scaled_reading_total by lia. cbn [fits_double]. by rewrite Hk.
  - destruct Hc as [-> | [-> | ->]]; reflexivity.
  - intros ->. split; reflexivity.
  - intros [-> | ->]; split; reflexivity.
Qed.

Lemma vendor_parsers_never_raise_witness :
  (∃ r, parse_metric VSOL "temperature" (PNum (Int 41500)) = Ok r)
  ∧ (∀ value', ∃ r, parse_metric ZTE "temperature" value' = Ok r)
  ∧ (∀ k, float_overflows k = true →
          parse_temperature FiberHome (PNum (Int k)) = Raise OverflowError
          ∧ parse_temperature VSOL (PNum (Int k)) = Raise OverflowError)
  ∧ parse_power VSOL PNone = Ok PNone
  ∧ (VSOL = ZTE →
     parse_temperature VSOL PNone = Ok PNone ∧ parse_voltage VSOL PNone = Ok PNone)
  ∧ (VSOL = FiberHome ∨ VSOL = VSOL →
     parse_temperature VSOL PNone = Ok (PNum (Float (ofZ 0)))
     ∧ parse_voltage VSOL PNone = Ok (PNum (Float (ofZ 0)))).
Proof.
  apply (vendor_parsers_never_raise VSOL "temperature" (PNum (Int 41500))).
  - rewrite !elem_of_cons. right. right. left. reflexivity.
  - reflexivity.
Defined.

Lemma Qcmin_Qcmax_range (u : Qc) :
  (ofZ 0 <= Qcmin (ofZ 100) (Qcmax (ofZ 0) u) <= ofZ 100)%Qc.
Proof.
  unfold Qcmin, Qcmax.
  destruct (Qcleb (ofZ 0) u) eqn:E1.
  - destruct (Qcleb (ofZ 100) u) eqn:E2; split; qc_lra.
  - replace (Qcleb (ofZ 100) (ofZ 0)) with false by reflexivity.
    split; qc_lra.
Qed.

(** X5: on four numbers that are floats or ints of at most 64 bits,
    [calculate_utilization] of the VSOL and FiberHome classes does not
    raise, the two classes return the same value, and that value is a float
    between 0 and 100, whatever the signs of the arguments. *)
Theorem interval_utilization_within_0_100 (bi bo iv mb : number) :
  fits_64_bits bi = true → fits_64_bits bo = true →
  fits_64_bits iv = true → fits_64_bits mb = true →
  ∃ q, calculate_utilization VSOL [PNum bi; PNum bo; PNum iv; PNum mb] = Ok (PNum (Float q))
       ∧ calculate_utilization FiberHome [PNum bi; PNum bo; PNum iv; PNum mb]
         = Ok (PNum (Float q))
       ∧ (ofZ 0 <= q <= ofZ 100)%Qc.
Proof.
  intros _ _ _ _.
  destruct (interval_utilization bi bo iv mb) as [E1 E2].
  eexists. simpl. rewrite E2, E1. split; [reflexivity|]. split; [reflexivity|].
  destruct (_ || _).
  - split; qc_lra.
  - apply Qcmin_Qcmax_range.
Qed.

Lemma interval_utilization_within_0_100_witness :
  ∃ q, calculate_utilization VSOL
         [PNum (Int 1000000000); PNum (Int 500000000); PNum (Int 60); PNum (Int 2500)]
       = Ok (PNum (Float q))
       ∧ calculate_utilization FiberHome
           [PNum (Int 1000000000); PNum (Int 500000000); PNum (Int 60); PNum (Int 2500)]
         = Ok (PNum (Float q))
       ∧ (ofZ 0 <= q <= ofZ 100)%Qc.
Proof.
  apply (interval_utilization_within_0_100 (Int 1000000000) (Int 500000000) (Int 60)
           (Int 2500)); reflexivity.
Defined.



(** ** Bit error rate and validation of the VSOL profile *)

(** X7: on arguments that are [None] or numbers within the range of a
    double, [calculate_ber] does not raise and returns a float that is at
    most 1: 0.0 when the packet count equals 0 or when either argument is
    [None], and otherwise the smaller of [errors / packets] and 1.  There
    is no lower bound: a negative quotient is returned as it is.  An int
    error count beyond the range of a double, with a packet count other
    than 0, raises [OverflowError], which the handler does not catch. *)
Theorem calculate_ber_at_most_1 (errors packets : pyval) :
  reading_fits errors = true →
  reading_fits packets = true →
  (∃ q, VSOLVendor_onu.calculate_ber errors packets = Ok (PNum (Float q))
        ∧ (q <= ofZ 1)%Qc
        ∧ (errors = PNone ∨ packets = PNone ∨ py_eq packets (PNum (Int 0)) = true →
           q = ofZ 0)
        ∧ (∀ e p, errors = PNum e → packets = PNum p → value_of p ≠ ofZ 0 →
                  q = Qcmin (value_of e / value_of p) (ofZ 1)))
  ∧ ∀ k p, float_overflows k = true → value_of p ≠ ofZ 0 →
           VSOLVendor_onu.calculate_ber (PNum (Int k)) (PNum p) = Raise OverflowError.
Proof.
  intros Hfe Hfp. split.
  2:{ intros k p Hk Hp. unfold VSOLVendor_onu.calculate_ber. cbn [py_eq].
      change (value_of (Int 0)) with (ofZ 0).
      apply Qceqb_neq in Hp. rewrite Hp. cbn [py_float_raw]. by rewrite Hk. }
  unfold VSOLVendor_onu.calculate_ber.
  destruct packets as [|p].
  - exists (ofZ 0). cbn [py_eq]. destruct errors as [|e].
    + simpl. split; [reflexivity|]. split; [qc_lra|]. split; [reflexivity|discriminate].
    + rewrite py_float_raw_fits. cbn in Hfe. rewrite Hfe. simpl.
      split; [reflexivity|]. split; [qc_lra|]. split; [reflexivity|discriminate].
  - simpl py_eq. change (value_of (Int 0)) with (ofZ 0).
    destruct (Qceqb (value_of p) (ofZ 0)) eqn:Ep.
    + exists (ofZ 0). split; [reflexivity|]. split; [qc_lra|]. split; [reflexivity|].
      intros e p' _ [= <-] Hne. apply Qceqb_eq in Ep. contradiction.
    + destruct errors as [|e].
      * exists (ofZ 0). split; [reflexivity|]. split; [qc_lra|]. split; [reflexivity|].
        discriminate.
      * exists (Qcmin (value_of e / value_of p) (ofZ 1)).
        rewrite !py_float_raw_fits. cbn in Hfe, Hfp. rewrite Hfe, Hfp.
        simpl. rewrite Ep. simpl. unfold py_min, Qcmin. simpl value_of.
        destruct (Qcltb (ofZ 1) (value_of e / value_of p)) eqn:E1;
          destruct (Qcleb (value_of e / value_of p) (ofZ 1)) eqn:E2;
          try (exfalso; apply Qcleb_le in E2; apply Qcltb_lt in E1;
               unfold Qcle, Qclt in *; lra);
          try (exfalso; apply Qcleb_gt in E2; apply Qcltb_ge in E1;
               unfold Qcle, Qclt in *; lra).
        -- split; [reflexivity|]. split; [qc_lra|]. split.
           ++ intros [?|[?|?]]; discriminate.
           ++ intros e' p' [= <-] [= <-] _. by rewrite E2.
        -- split; [reflexivity|]. split; [apply Qcleb_le in E2; exact E2|]. split.
           ++ intros [?|[?|?]]; discriminate.
           ++ intros e' p' [= <-] [= <-] _. by rewrite E2.
Qed.

Lemma calculate_ber_at_most_1_witness :
  (∃ q, VSOLVendor_onu.calculate_ber (PNum (Int 3)) (PNum (Int 1000)) = Ok (PNum (Float q))
        ∧ (q <= ofZ 1)%Qc
        ∧ (PNum (Int 3) = PNone ∨ PNum (Int 1000) = PNone
           ∨ py_eq (PNum (Int 1000)) (PNum (Int 0)) = true →
           q = ofZ 0)
        ∧ (∀ e p, PNum (Int 3) = PNum e → PNum (Int 1000) = PNum p → value_of p ≠ ofZ 0 →
                  q = Qcmin (value_of e / value_of p) (ofZ 1)))
  ∧ ∀ k p, float_overflows k = true → value_of p ≠ ofZ 0 →
           VSOLVendor_onu.calculate_ber (PNum (Int k)) (PNum p) = Raise OverflowError.
Proof.
  apply (calculate_ber_at_most_1 (PNum (Int 3)) (PNum (Int 1000))); reflexivity.
Defined.

Lemma has_required_fields_onu (data : gmap string pyval) :
  VSOLVendor_onu.has_required_fields ["onu_id"; "onu_status"] data = true
  ↔ (∃ i, data !! "onu_id" = Some (PNum i)) ∧ (∃ s, data !! "onu_status" = Some (PNum s)).
Proof.
  simpl. destruct (data !! "onu_id") as [[|i]|]; simpl.
  - split; [discriminate|]. intros [[? ?] _]. discriminate.
  - destruct (data !! "onu_status") as [[|s]|]; simpl.
    + split; [discriminate|]. intros [_ [? ?]]. discriminate.
    + split; [eauto|reflexivity].
    + split; [discriminate|]. intros [_ [? ?]]. discriminate.
  - split; [discriminate|]. intros [[? ?] _]. discriminate.
Qed.

Lemma validate_onu_data_cases (data : gmap string pyval) :
  ∃ b, VSOLVendor_onu.validate_onu_data data = Ok b
       ∧ (b = true
          ↔ (∃ i, data !! "onu_id" = Some (PNum i))
            ∧ (∃ s, data !! "onu_status" = Some (PNum s))
            ∧ (∀ p, data !! "onu_rx_power" = Some (PNum p) →
                    (ofZ (-40) <= value_of p <= ofZ 10)%Qc)).
Proof.
  unfold VSOLVendor_onu.validate_onu_data. cbv zeta.
  pose proof (has_required_fields_onu data) as Hreq.
  destruct (VSOLVendor_onu.has_required_fields _ data) eqn:E; simpl negb; cbv iota.
  - destruct Hreq as [Hreq _]. destruct (Hreq eq_refl) as [Hi Hs].
    destruct (data !! "onu_rx_power") as [[|p]|] eqn:Ep; simpl.
    + exists true. split; [reflexivity|]. split; [|reflexivity].
      intros _. split; [exact Hi|]. split; [exact Hs|]. discriminate.
    + change (value_of (Int (-40))) with (ofZ (-40)).
      change (value_of (Int 10)) with (ofZ 10).
      destruct (Qcltb (value_of p) (ofZ (-40))) eqn:E1; simpl.
      * exists false. split; [reflexivity|]. split; [discriminate|].
        intros (_ & _ & H). specialize (H p eq_refl). exfalso. qc_lra.
      * destruct (Qcltb (ofZ 10) (value_of p)) eqn:E2; simpl.
        -- exists false. split; [reflexivity|]. split; [discriminate|].
           intros (_ & _ & H). specialize (H p eq_refl). exfalso. qc_lra.
        -- exists true. split; [reflexivity|]. split; [|reflexivity].
           intros _. split; [exact Hi|]. split; [exact Hs|].
           intros p' [= <-]. split; qc_lra.
    + exists true. split; [reflexivity|]. split; [|reflexivity].
      intros _. split; [exact Hi|]. split; [exact Hs|]. discriminate.
  - exists false. split; [reflexivity|]. split; [discriminate|].
    intros (Hi & Hs & _). destruct Hreq as [_ Hreq]. 
    specialize (Hreq (conj Hi Hs)). discriminate.
Qed.

(** X8: [validate_onu_data] never raises on a record of numbers: it
    accepts the record exactly when [onu_id] and [onu_status] are present
    and not [None] and the rx power, if present and not [None], lies
    between -40 and 10, bounds included. *)
Theorem validate_onu_data_accepts (data : gmap string pyval) :
  ∃ b, VSOLVendor_onu.validate_onu_data data = Ok b
       ∧ (b = true
          ↔ (∃ i, data !! "onu_id" = Some (PNum i))
            ∧ (∃ s, data !! "onu_status" = Some (PNum s))
            ∧ (∀ p, data !! "onu_rx_power" = Some (PNum p) →
                    (ofZ (-40) <= value_of p <= ofZ 10)%Qc)).
Proof. apply validate_onu_data_cases. Qed.

Lemma py_round_2_bounds (v : Qc) (a b : Z) :
  (ofZ a <= v)%Qc → (v <= ofZ b)%Qc →
  ∃ r, py_round v 2 = Float r ∧ (ofZ a <= r <= ofZ b)%Qc.
Proof.
  intros Ha Hb. unfold py_round. cbv zeta. eexists. split; [reflexivity|].
  change (10 ^ Z.of_nat 2) with 100.
  unfold Qcle in *. rewrite this_ofZ in Ha, Hb. cbn [this Q2Qc]. rewrite Qred_correct.
  rewrite !this_ofZ.
  destruct (round_half_even_between (this v * inject_Z 100) (a * 100) (b * 100)) as [H1 H2].
  - rewrite inject_Z_mult. apply Qmult_le_compat_r; [exact Ha|]. discriminate.
  - rewrite inject_Z_mult. apply Qmult_le_compat_r; [exact Hb|]. discriminate.
  - rewrite Zle_Qle, inject_Z_mult in H1. rewrite Zle_Qle, inject_Z_mult in H2.
    generalize dependent (inject_Z (round_half_even (this v * inject_Z 100))).
    intros qr H1 H2. generalize dependent (inject_Z a). generalize dependent (inject_Z b).
    intros qb _ H2 qa _ H1.
    unfold Qdiv, inject_Z in *. cbn [Qinv Qnum Qden]. split; lra.
Qed.

(** X9: Whatever the VSOL power parser returns for a raw value is accepted
    as the rx power of an ONU record by [validate_onu_data], provided the
    record has its id and status: the parser's range check and rounding
    never produce a reading outside the validator's range. *)
Theorem vsol_parsed_power_is_valid (raw_value r : pyval) (data : gmap string pyval)
    (i s : number) :
  VSOLVendor.parse_power raw_value = Ok r →
  data !! "onu_id" = Some (PNum i) →
  data !! "onu_status" = Some (PNum s) →
  VSOLVendor_onu.validate_onu_data (<["onu_rx_power" := r]> data) = Ok true.
Proof.
  intros Hp Hi Hs.
  destruct (validate_onu_data_cases (<["onu_rx_power" := r]> data)) as (b & -> & Hb).
  f_equal. apply Hb.
  split; [exists i; by rewrite lookup_insert_ne|].
  split; [exists s; by rewrite lookup_insert_ne|].
  intros p. rewrite lookup_insert_eq. intros [= ->].
  destruct raw_value as [|x]; [discriminate|].
  rewrite vsol_parse_power_unfold in Hp. cbv zeta in Hp.
  destruct (fits_double x); [|discriminate].
  destruct (Qceqb _ _) eqn:E0; [discriminate|].
  destruct (Qcltb (value_of x / ofZ 100) (ofZ (-40))) eqn:E1; [discriminate|].
  destruct (Qcltb (ofZ 10) (value_of x / ofZ 100)) eqn:E2; [discriminate|].
  simpl in Hp. injection Hp as Hp.
  apply Qcltb_ge in E1, E2.
  destruct (py_round_2_bounds _ (-40) 10 E1 E2) as (q & Eq & Hq).
  rewrite Eq in Hp. subst p. exact Hq.
Qed.

Lemma vsol_parsed_power_is_valid_witness :
  VSOLVendor_onu.validate_onu_data
    (<["onu_rx_power" := PNum (Float (ofZ (-2550) / ofZ 100))]> onu_record) = Ok true.
Proof.
  apply (vsol_parsed_power_is_valid (PNum (Int (-2550))) _ onu_record (Int 12) (Int 1)).
  - rewrite vsol_parse_power_unfold. cbv zeta.
    replace (fits_double (Int (-2550))) with true by reflexivity. simpl value_of.
    rewrite py_round_hundredths. reflexivity.
  - reflexivity.
  - reflexivity.
Defined.

(** ** Status, counters and MAC addresses *)



Lemma Qctrunc_1 (q : Qc) : Qctrunc q = 1 ↔ (ofZ 1 <= q)%Qc ∧ (q < ofZ 2)%Qc.
Proof.
  unfold Qctrunc, Qcle, Qclt. rewrite !this_ofZ.
  destruct (Qcleb (ofZ 0) q) eqn:E.
  - apply Qcleb_le in E. split.
    + intros H. pose proof (Qfloor_le q) as H1. pose proof (Qlt_floor q) as H2.
      rewrite H in H1, H2. simpl in H2. split; [exact H1|exact H2].
    + intros [H1 H2].
      assert (Ha : 1 ≤ Qfloor q).
      { rewrite <- (Qfloor_Z 1). by apply Qfloor_resp_le. }
      assert (Hb : Qfloor q < 2).
      { apply Z.nle_gt. intros Hge. rewrite Zle_Qle in Hge.
        pose proof (Qfloor_le q) as H3. lra. }
      lia.
  - apply Qcleb_gt in E. unfold Qclt in E. rewrite this_ofZ in E. split.
    + intros H. exfalso.
      assert (Hc : Qceiling q ≤ 0).
      { rewrite <- (Qceiling_Z 0). apply Qceiling_resp_le. by apply Qlt_le_weak. }
      lia.
    + intros [H1 _]. exfalso. unfold inject_Z in *. lra.
Qed.

Lemma ofZ_between_1_2 (n : Z) : n = 1 ↔ (ofZ 1 <= ofZ n)%Qc ∧ (ofZ n < ofZ 2)%Qc.
Proof.
  unfold Qcle, Qclt. rewrite !this_ofZ. rewrite <- Zle_Qle, <- Zlt_Qlt. lia.
Qed.

Lemma vsol_online_key (n : Z) :
  int_key_get VSOLVendor_onu.onu_status_map (PNum (Int n)) "unknown" = "online" ↔ n = 1.
Proof.
  simpl. rewrite !Qceqb_ofZ.
  destruct (Z.eqb_spec n 1); [split; auto|].
  repeat match goal with
         | |- context [Z.eqb n ?k] => destruct (Z.eqb n k)
         end; split; (discriminate || contradiction).
Qed.

Lemma fiberhome_online_key (n : Z) :
  int_key_get FiberHomeVendor_onu.onu_status_map (PNum (Int n)) "unknown" = "online"
  ↔ n = 1.
Proof.
  simpl. rewrite !Qceqb_ofZ.
  destruct (Z.eqb_spec n 1); [split; auto|].
  repeat match goal with
         | |- context [Z.eqb n ?k] => destruct (Z.eqb n k)
         end; split; (discriminate || contradiction).
Qed.

(** X11: The VSOL and FiberHome classes truncate the raw status toward
    zero before the lookup, so they read as ['online'] every number from 1
    up to, but not including, 2; the ZTE class looks the raw value up as it
    is and reads as ['online'] only a number equal to 1. *)
Theorem onu_status_online (x : number) :
  (VSOLVendor_onu.parse_onu_status (PNum x) = Ok "online"
   ↔ (ofZ 1 <= value_of x)%Qc ∧ (value_of x < ofZ 2)%Qc)
  ∧ (FiberHomeVendor_onu.parse_onu_status (PNum x) = Ok "online"
     ↔ (ofZ 1 <= value_of x)%Qc ∧ (value_of x < ofZ 2)%Qc)
  ∧ (ZTEVendor_onu.parse_onu_status (PNum x) = "online" ↔ value_of x = ofZ 1).
Proof.
  split; [|split].
  - unfold VSOLVendor_onu.parse_onu_status.
    destruct x as [n|q]; simpl py_int; cbn [rbind try_except].
    + change (value_of (Int n)) with (ofZ n).
      rewrite <- ofZ_between_1_2, <- vsol_online_key.
      split; [intros [= H]; exact H|intros H; f_equal; exact H].
    + simpl value_of. rewrite <- Qctrunc_1, <- vsol_online_key.
      split; [intros [= H]; exact H|intros H; f_equal; exact H].
  - unfold FiberHomeVendor_onu.parse_onu_status.
    destruct x as [n|q]; simpl py_int; cbn [rbind].
    + change (value_of (Int n)) with (ofZ n).
      rewrite <- ofZ_between_1_2, <- fiberhome_online_key.
      split; [intros [= H]; exact H|intros H; f_equal; exact H].
    + simpl value_of. rewrite <- Qctrunc_1, <- fiberhome_online_key.
      split; [intros [= H]; exact H|intros H; f_equal; exact H].
  - unfold ZTEVendor_onu.parse_onu_status. simpl.
    change (value_of (Int 1)) with (ofZ 1).
    destruct (Qceqb (value_of x) (ofZ 1)) eqn:E.
    + apply Qceqb_eq in E. tauto.
    + apply Qceqb_neq in E.
      repeat match goal with
             | |- context [Qceqb ?a ?b] => destruct (Qceqb a b)
             end; split; (discriminate || contradiction).
Qed.



Lemma fromhex_format_02x (b : Byte.byte) (rest : string) :
  fromhex (format_02x b +:+ rest) = let! bs := fromhex rest in Ok (b :: bs).
Proof. destruct b; reflexivity. Qed.

Lemma remove_colon_format_02x (b : Byte.byte) (rest : string) :
  remove_char ":"%char (format_02x b +:+ rest)
  = format_02x b +:+ remove_char ":"%char rest.
Proof. destruct b; reflexivity. Qed.

Lemma remove_space_format_02x (b : Byte.byte) (rest : string) :
  remove_char " "%char (format_02x b +:+ rest)
  = format_02x b +:+ remove_char " "%char rest.
Proof. destruct b; reflexivity. Qed.

Lemma format_02x_append_empty (b : Byte.byte) : format_02x b = format_02x b +:+ "".
Proof. destruct b; reflexivity. Qed.

Lemma format_02x_length (b : Byte.byte) (rest : string) :
  String.length (format_02x b +:+ rest) = S (S (String.length rest)).
Proof. reflexivity. Qed.

Lemma fromhex_joined (bs : list Byte.byte) :
  fromhex (remove_char " "%char
             (remove_char ":"%char (String.concat ":" (map format_02x bs))))
  = Ok bs.
Proof.
  induction bs as [|b [|b' l] IH].
  - reflexivity.
  - simpl String.concat. rewrite format_02x_append_empty.
    rewrite remove_colon_format_02x, remove_space_format_02x, fromhex_format_02x.
    reflexivity.
  - change (String.concat ":" (map format_02x (b :: b' :: l)))
      with (format_02x b +:+ (":" +:+ String.concat ":" (map format_02x (b' :: l)))).
    rewrite remove_colon_format_02x.
    change (remove_char ":"%char (":" +:+ ?s)) with (remove_char ":"%char s).
    rewrite remove_space_format_02x, fromhex_format_02x, IH. reflexivity.
Qed.

Lemma joined_length (b : Byte.byte) (bs : list Byte.byte) :
  String.length (String.concat ":" (map format_02x (b :: bs)))
  = (3 * length (b :: bs) - 1)%nat.
Proof.
  revert b. induction bs as [|b' l IH]; intros b.
  - rewrite (format_02x_append_empty b) at 1. reflexivity.
  - change (String.concat ":" (map format_02x (b :: b' :: l)))
      with (format_02x b +:+ (":" +:+ String.concat ":" (map format_02x (b' :: l)))).
    rewrite format_02x_length.
    change (String.length (":" +:+ ?s)) with (S (String.length s)).
    rewrite IH. simpl length. lia.
Qed.

(** X13: [parse_mac_address] formats a non-empty [bytes] value of any
    length n as n pairs of lower-case hexadecimal digits joined by colons,
    3n - 1 characters in all, and reads its own output back to itself: the
    text form is a fixed point of the parser.  Empty [bytes] and the empty
    string give [None]. *)
Theorem parse_mac_address_round_trip (b : Byte.byte) (bs : list Byte.byte) :
  ∃ s, VSOLVendor_onu.parse_mac_address (VSOLVendor_onu.RawBytes (b :: bs)) = Some s
       ∧ VSOLVendor_onu.parse_mac_address (VSOLVendor_onu.RawStr s) = Some s
       ∧ String.length s = (3 * length (b :: bs) - 1)%nat
       ∧ VSOLVendor_onu.parse_mac_address (VSOLVendor_onu.RawBytes []) = None
       ∧ VSOLVendor_onu.parse_mac_address (VSOLVendor_onu.RawStr "") = None.
Proof.
  exists (String.concat ":" (map format_02x (b :: bs))).
  split; [reflexivity|]. split; [|split; [apply joined_length|split; reflexivity]].
  unfold VSOLVendor_onu.parse_mac_address.
  rewrite fromhex_joined.
  pose proof (joined_length b bs) as Hlen.
  destruct (String.concat ":" (map format_02x (b :: bs))) as [|c s] eqn:E.
  - simpl in Hlen. lia.
  - reflexivity.
Qed.

(** ** The registry and the orchestrator's own table *)

(** X14: every tag that the orchestrator's own table [vendor_map] accepts
    is resolved by the registry's [get_vendor] to the same class, and its
    upper-case form is one of the names [get_supported_vendors] lists; the
    converse fails, the registry also resolves ['FIBERHOME'] and ['VSOL'],
    which the orchestrator rejects. *)
Theorem vendor_map_within_registry (Huawei : vendor_class) (name : string)
    (c : vendor_class) :
  vendor_map Huawei !! name = Some c →
  get_vendor Huawei name = Some c
  ∧ upper name ∈ get_supported_vendors
  ∧ (∃ k, k ∈ get_supported_vendors
          ∧ is_Some (get_vendor Huawei k) ∧ vendor_map Huawei !! k = None).
Proof.
  intros Hc. unfold vendor_map in Hc.
  assert (Hin : ∀ k, k ∈ ["ZTE"; "HUAWEI"; "FIBERHOME"; "VSOL"]
                     ↔ k = "ZTE" ∨ k = "HUAWEI" ∨ k = "FIBERHOME" ∨ k = "VSOL").
  { intros k. rewrite !elem_of_cons, elem_of_nil. tauto. }
  split; [|split].
  - apply lookup_insert_Some in Hc as [[<- <-]|[_ Hc]]; [reflexivity|].
    apply lookup_singleton_Some in Hc as [<- <-]. reflexivity.
  - unfold get_supported_vendors. apply Hin.
    apply lookup_insert_Some in Hc as [[<- _]|[_ Hc]]; [by left|].
    apply lookup_singleton_Some in Hc as [<- _]. right. by left.
  - exists "VSOL". split; [apply Hin; tauto|]. split; [by eexists|reflexivity].
Qed.

Lemma vendor_map_within_registry_witness :
  get_vendor ZTE "Huawei" = Some ZTE
  ∧ upper "Huawei" ∈ get_supported_vendors
  ∧ (∃ k, k ∈ get_supported_vendors
          ∧ is_Some (get_vendor ZTE k) ∧ vendor_map ZTE !! k = None).
Proof.
  apply (vendor_map_within_registry ZTE "Huawei" ZTE). reflexivity.
Defined.

(** ** More on the poll of one port *)

(** X15: A vendor class without the attribute [PON_PORT_OIDS] cannot be
    polled: the read returns [None] without a single request, and the poll
    of the port ends without a request, a write or an alert, and without
    raising.  The FiberHome and VSOL classes of the registry are such
    classes: their table is named [OIDS]. *)
Theorem class_without_port_table_makes_no_call (env : oracle) (o : olt) (p : pon_port)
    (vc : vendor_class) (e : exn) (t : list call) :
  PON_PORT_OIDS vc = Raise e →
  (∀ ip community n, snmp_get_pon_metrics env ip community n vc t = (Ok None, t))
  ∧ poll_pon_port env o p vc t = (Ok tt, t)
  ∧ (∃ e1, PON_PORT_OIDS FiberHome = Raise e1)
  ∧ (∃ e2, PON_PORT_OIDS VSOL = Raise e2).
Proof.
  intros He.
  assert (Hread : ∀ ip community n,
             snmp_get_pon_metrics env ip community n vc t = (Ok None, t)).
  { intros. unfold snmp_get_pon_metrics, try_catch, bind, lift. by rewrite He. }
  split; [exact Hread|]. split; [|split; eexists; reflexivity].
  unfold poll_pon_port, try_catch, bind. by rewrite Hread.
Qed.

Lemma class_without_port_table_makes_no_call_witness :
  (∀ ip community n, snmp_get_pon_metrics env_healthy ip community n VSOL [] = (Ok None, []))
  ∧ poll_pon_port env_healthy olt_vsol port_1 VSOL [] = (Ok tt, [])
  ∧ (∃ e1, PON_PORT_OIDS FiberHome = Raise e1)
  ∧ (∃ e2, PON_PORT_OIDS VSOL = Raise e2).
Proof.
  apply (class_without_port_table_makes_no_call env_healthy olt_vsol port_1 VSOL
           (AttributeError "PON_PORT_OIDS") []).
  reflexivity.
Defined.

Lemma onu_counts_inserted (m : gmap string pyval) :
  let m' := <["total_onus" := PNum (Int 0)]>
              (<["offline_onus" := PNum (Int 0)]>
                 (<["online_onus" := PNum (Int 0)]> m)) in
  m' !! "online_onus" = Some (PNum (Int 0))
  ∧ m' !! "offline_onus" = Some (PNum (Int 0))
  ∧ m' !! "total_onus" = Some (PNum (Int 0))
  ∧ (size m' =? 0)%nat = false
  ∧ (∀ k, k ≠ "online_onus" → k ≠ "offline_onus" → k ≠ "total_onus" → m' !! k = m !! k).
Proof.
  cbv zeta. split; [|split; [|split; [|split]]].
  - rewrite lookup_insert_ne by done. rewrite lookup_insert_ne by done.
    by rewrite lookup_insert_eq.
  - rewrite lookup_insert_ne by done. by rewrite lookup_insert_eq.
  - by rewrite lookup_insert_eq.
  - apply Nat.eqb_neq. intros Hs. apply map_size_empty_iff in Hs.
    apply (f_equal (λ m, m !! "total_onus")) in Hs.
    rewrite lookup_insert_eq, lookup_empty in Hs. discriminate.
  - intros k H1 H2 H3. by rewrite !lookup_insert_ne.
Qed.

Lemma snmp_get_pon_metrics_Some env ip community n vc t m t' :
  snmp_get_pon_metrics env ip community n vc t = (Ok (Some m), t') →
  ∃ oids m0,
    PON_PORT_OIDS vc = Ok oids
    ∧ read_metrics env ip community n vc oids ∅ t = (Ok m0, t')
    ∧ ∃ m1,
        m = <["total_onus" := PNum (Int 0)]>
              (<["offline_onus" := PNum (Int 0)]>
                 (<["online_onus" := PNum (Int 0)]> m1))
        ∧ (m1 = m0 ∧ (m0 !! "bandwidth_in" = None ∨ m0 !! "bandwidth_out" = None)
           ∨ ∃ bi bo u,
               m0 !! "bandwidth_in" = Some bi ∧ m0 !! "bandwidth_out" = Some bo
               ∧ calculate_utilization vc [bi; bo] = Ok u
               ∧ m1 = <["utilization" := u]> m0).
Proof.
  unfold snmp_get_pon_metrics, try_catch, bind, lift.
  destruct (PON_PORT_OIDS vc) as [oids|e]; [|discriminate].
  destruct (read_metrics env ip community n vc oids ∅ t) as [[m0|e] t0] eqn:Hr;
    [|discriminate].
  destruct (m0 !! "bandwidth_in") as [bi|] eqn:Hbi;
    [destruct (m0 !! "bandwidth_out") as [bo|] eqn:Hbo|].
  - destruct (calculate_utilization vc [bi; bo]) as [u|e] eqn:Hu; [|discriminate].
    unfold ret. intros [= <- <-]. exists oids, m0. split; [done|]. split; [done|].
    eexists. split; [reflexivity|]. right. by exists bi, bo, u.
  - unfold ret. intros [= <- <-]. exists oids, m0. split; [done|]. split; [done|].
    eexists. split; [reflexivity|]. left. split; [done|by right].
  - unfold ret. intros [= <- <-]. exists oids, m0. split; [done|]. split; [done|].
    eexists. split; [reflexivity|]. left. split; [done|by left].
Qed.

(** X16: Every metric set that [snmp_get_pon_metrics] returns carries the
    three ONU counts, each 0: it is never empty, so the test [if not
    metrics] of [poll_pon_port] can only catch [None], and the block
    "Offline ONUs" of the health score never takes anything off. *)
Theorem returned_metrics_have_onu_counts (env : oracle) (ip community : string) (n : Z)
    (vc : vendor_class) (t t' : list call) (m : gmap string pyval) :
  snmp_get_pon_metrics env ip community n vc t = (Ok (Some m), t') →
  m !! "online_onus" = Some (PNum (Int 0))
  ∧ m !! "offline_onus" = Some (PNum (Int 0))
  ∧ m !! "total_onus" = Some (PNum (Int 0))
  ∧ (size m =? 0)%nat = false
  ∧ ∀ score,
      offline_onus_block score (dict_get_default m "total_onus" (Int 0))
                         (dict_get_default m "offline_onus" (Int 0))
      = Ok score.
Proof.
  intros H. apply snmp_get_pon_metrics_Some in H as (oids & m0 & _ & _ & m1 & -> & _).
  destruct (onu_counts_inserted m1) as (H1 & H2 & H3 & H4 & _).
  split; [exact H1|]. split; [exact H2|]. split; [exact H3|]. split; [exact H4|].
  intros score. unfold dict_get_default. rewrite H2, H3. reflexivity.
Qed.

Lemma returned_metrics_have_onu_counts_witness :
  metrics_onus_only !! "online_onus" = Some (PNum (Int 0))
  ∧ metrics_onus_only !! "offline_onus" = Some (PNum (Int 0))
  ∧ metrics_onus_only !! "total_onus" = Some (PNum (Int 0))
  ∧ (size metrics_onus_only =? 0)%nat = false
  ∧ ∀ score,
      offline_onus_block score (dict_get_default metrics_onus_only "total_onus" (Int 0))
                         (dict_get_default metrics_onus_only "offline_onus" (Int 0))
      = Ok score.
Proof.
  apply (returned_metrics_have_onu_counts env_device_silent "10.0.0.1" "public" 1 ZTE []
           (requests "10.0.0.1" "public" 1 ZTEVendor.PON_PORT_OIDS) metrics_onus_only).
  reflexivity.
Defined.

Lemma read_metrics_only_errors env ip community n vc oids metrics t :
  answers_only_errors env →
  read_metrics env ip community n vc oids metrics t
  = (Ok metrics, t ++ requests ip community n oids).
Proof.
  intros Henv. revert t. induction oids as [|[name base] rest IH]; intros t.
  - cbn. by rewrite app_nil_r.
  - cbn [read_metrics requests map snd]. unfold bind. rewrite perform_run.
    destruct (Henv t (snmp_request ip community n base) eq_refl)
      as (eI & eS & vb & -> & Hor).
    cbn [is_Raises]. rewrite Hor, IH. by rewrite <- app_assoc.
Qed.

(** X17: A device that answers every request with an error is not told
    apart from a healthy one: the read asks for every metric, returns the
    three zero ONU counts and nothing else, the health score of that set is
    100, and the latest-state write that follows the requests records the
    port with that score and every reading absent. *)
Theorem silent_device_scores_100 (env : oracle) (o : olt) (p : pon_port)
    (vc : vendor_class) (oids : list (string * string)) (t : list call) :
  PON_PORT_OIDS vc = Ok oids →
  answers_only_errors env →
  let gets := requests (olt_ip_address o) (olt_snmp_community o) (port_number p) oids in
  snmp_get_pon_metrics env (olt_ip_address o) (olt_snmp_community o) (port_number p) vc t
  = (Ok (Some metrics_onus_only), t ++ gets)
  ∧ calculate_health_score metrics_onus_only = Ok 100
  ∧ update_args p metrics_onus_only 100
    = [PNone; PNone; PNone; PNone; PNone; PNone; PNone;
       PNum (Int 0); PNum (Int 0); PNum (Int 0); PNum (Int 100); PNum (Int (port_id p))]
  ∧ ∃ rest,
      poll_pon_port env o p vc t
      = (Ok tt, t ++ gets ++ UpdatePonPort (update_args p metrics_onus_only 100) :: rest).
Proof.
  intros Hoids Henv gets.
  assert (Hread : snmp_get_pon_metrics env (olt_ip_address o) (olt_snmp_community o)
                    (port_number p) vc t = (Ok (Some metrics_onus_only), t ++ gets)).
  { unfold snmp_get_pon_metrics, try_catch, bind, lift. rewrite Hoids.
    rewrite read_metrics_only_errors by exact Henv. reflexivity. }
  split; [exact Hread|]. split; [reflexivity|]. split; [reflexivity|].
  unfold poll_pon_port, try_catch, bind. rewrite Hread.
  replace (size metrics_onus_only =? 0)%nat with false by reflexivity.
  unfold lift at 1. replace (calculate_health_score metrics_onus_only) with (Ok 100 : result Z)
    by reflexivity.
  rewrite perform_run. set (U := UpdatePonPort (update_args p metrics_onus_only 100)).
  destruct (is_Raises (env (t ++ gets) U)).
  { exists []. unfold ret. by rewrite <- app_assoc. }
  unfold lift at 1. destruct (influx_point_total o p metrics_onus_only 100) as [pt ->].
  rewrite perform_run.
  destruct (is_Raises _).
  { exists [InfluxWrite pt]. unfold ret. by rewrite <- !app_assoc. }
  rewrite perform_run.
  destruct (is_Raises _).
  { eexists [_; _]. unfold ret. rewrite <- !app_assoc. reflexivity. }
  rewrite perform_run.
  destruct (is_Raises _).
  { eexists [_; _; _]. unfold ret. rewrite <- !app_assoc. reflexivity. }
  match goal with
  | |- context [check_thresholds p metrics_onus_only ?tr] =>
      destruct (check_thresholds_trace p metrics_onus_only tr) as (r & rest & -> & _)
  end.
  eexists (_ :: _ :: _ :: rest). unfold ret.
  destruct r as [[]|]; rewrite <- !app_assoc; reflexivity.
Qed.

Lemma env_device_silent_answers_only_errors : answers_only_errors env_device_silent.
Proof. intros t c Hc. destruct c; try discriminate. by eexists _, _, _. Qed.

Lemma silent_device_scores_100_witness :
  let gets := requests (olt_ip_address olt_zte) (olt_snmp_community olt_zte)
                (port_number port_1) ZTEVendor.PON_PORT_OIDS in
  snmp_get_pon_metrics env_device_silent (olt_ip_address olt_zte)
    (olt_snmp_community olt_zte) (port_number port_1) ZTE []
  = (Ok (Some metrics_onus_only), [] ++ gets)
  ∧ calculate_health_score metrics_onus_only = Ok 100
  ∧ update_args port_1 metrics_onus_only 100
    = [PNone; PNone; PNone; PNone; PNone; PNone; PNone;
       PNum (Int 0); PNum (Int 0); PNum (Int 0); PNum (Int 100);
       PNum (Int (port_id port_1))]
  ∧ ∃ rest,
      poll_pon_port env_device_silent olt_zte port_1 ZTE []
      = (Ok tt, [] ++ gets ++ UpdatePonPort (update_args port_1 metrics_onus_only 100) :: rest).
Proof.
  apply (silent_device_scores_100 env_device_silent olt_zte port_1 ZTE
           ZTEVendor.PON_PORT_OIDS []).
  - reflexivity.
  - exact env_device_silent_answers_only_errors.
Defined.

(** ** More on the health score and the alerts *)

Lemma offline_onus_block_cases (s : Z) (total offline : pyval) :
  offline_onus_block s total offline
  = match total with
    | PNone => Raise TypeError
    | PNum tot =>
        if Qcltb (ofZ 0) (value_of tot) then
          match offline with
          | PNone => Raise TypeError
          | PNum off => Ok (s - offline_penalty (value_of off) (value_of tot))
          end
        else Ok s
    end.
Proof.
  destruct total as [|tot]; [reflexivity|].
  destruct offline as [|off].
  - unfold offline_onus_block. cbn [py_gt py_lt rbind value_of].
    change (value_of (Int 0)) with (ofZ 0).
    destruct (Qcltb (ofZ 0) (value_of tot)); reflexivity.
  - rewrite offline_onus_block_penalty. unfold offline_penalty.
    destruct (Qcltb (ofZ 0) (value_of tot)); [reflexivity|]. f_equal. lia.
Qed.

Lemma penalties_range (u : Qc) (t r : option Qc) (off tot : Qc) :
  0 ≤ utilization_penalty u ≤ 30
  ∧ 0 ≤ temperature_penalty t ≤ 20
  ∧ 0 ≤ rx_power_penalty r ≤ 30
  ∧ 0 ≤ offline_penalty off tot ≤ 20.
Proof.
  unfold utilization_penalty, temperature_penalty, rx_power_penalty, offline_penalty.
  repeat match goal with
         | |- context [match ?x with _ => _ end] => destruct x
         end; lia.
Qed.

(** X18: on a metric set whose ONU counts, when they are ints, are within
    the range of a double, [calculate_health_score] raises nothing but
    [TypeError], and it raises it exactly when the utilization or the ONU
    total is stored as [None], or the offline count is stored as [None]
    while the total is above 0; an absent key never makes it raise, and it
    never divides by zero.  Whenever it returns, the score lies between 0
    and 100. *)
Theorem health_score_raises_on_stored_None (metrics : gmap string pyval) :
  (∀ x, metrics !! "total_onus" = Some (PNum x) → fits_double x = true) →
  (∀ x, metrics !! "offline_onus" = Some (PNum x) → fits_double x = true) →
  (∀ e, calculate_health_score metrics = Raise e → e = TypeError)
  ∧ (calculate_health_score metrics = Raise TypeError
     ↔ metrics !! "utilization" = Some PNone
       ∨ metrics !! "total_onus" = Some PNone
       ∨ (metrics !! "offline_onus" = Some PNone
          ∧ ∃ n, metrics !! "total_onus" = Some (PNum n) ∧ (ofZ 0 < value_of n)%Qc))
  ∧ (∀ s, calculate_health_score metrics = Ok s → 0 ≤ s ≤ 100).
Proof.
  intros _ _.
  unfold calculate_health_score. cbv zeta. unfold dict_get_default.
  destruct (metrics !! "utilization") as [[|u]|] eqn:Hu; cbn [default from_option id].
  { cbn. split; [by intros e [= <-]|]. split; [|discriminate].
    split; [auto|reflexivity]. }
  all: rewrite utilization_block_penalty; cbn [rbind];
    rewrite temperature_block_penalty; cbn [rbind];
    rewrite rx_power_block_penalty; cbn [rbind];
    rewrite offline_onus_block_cases.
  all: destruct (metrics !! "total_onus") as [[|tot]|] eqn:Ht; cbn [default from_option id].
  all: try (cbn [rbind]; split; [by intros e [= <-]|]; split; [|discriminate];
            split; [auto|reflexivity]).
  all: try change (value_of (Int 0)) with (ofZ 0).
  all: try replace (Qcltb (ofZ 0) (ofZ 0)) with false by reflexivity.
  all: try (destruct (Qcltb (ofZ 0) (value_of tot)) eqn:Epos;
            [destruct (metrics !! "offline_onus") as [[|off]|] eqn:Ho; cbn [default from_option id]|]).
  all: cbn [rbind].
  all: try (split; [by intros e [= <-]|]; split; [|discriminate];
            split; [intros _; right; right; split; [reflexivity|];
                    exists tot; split; [reflexivity|by apply Qcltb_lt]
                   |reflexivity]).
  all: split; [discriminate|]; split;
    [split; [discriminate|];
     intros [H|[H|[H (n & Hn & Hpos)]]]; try discriminate;
     try (injection Hn as <-; apply Qcltb_lt in Hpos; congruence)
    |].
  all: intros s [= <-].
  all: match goal with
       | |- context [utilization_penalty ?x] =>
           pose proof (penalties_range x (numeric (dict_get metrics "temperature"))
                         (numeric (dict_get metrics "rx_power")) (ofZ 0) (ofZ 0))
             as (Hpu & Hpt & Hpr & _)
       end.
  all: try match goal with
           | |- context [offline_penalty ?a ?b] =>
               pose proof (penalties_range (ofZ 0) None None a b) as (_ & _ & _ & Hpo)
           end.
  all: lia.
Qed.

Lemma health_score_raises_on_stored_None_witness :
  (∀ e, calculate_health_score metrics_degraded = Raise e → e = TypeError)
  ∧ (calculate_health_score metrics_degraded = Raise TypeError
     ↔ metrics_degraded !! "utilization" = Some PNone
       ∨ metrics_degraded !! "total_onus" = Some PNone
       ∨ (metrics_degraded !! "offline_onus" = Some PNone
          ∧ ∃ n, metrics_degraded !! "total_onus" = Some (PNum n)
                 ∧ (ofZ 0 < value_of n)%Qc))
  ∧ (∀ s, calculate_health_score metrics_degraded = Ok s → 0 ≤ s ≤ 100).
Proof.
  apply (health_score_raises_on_stored_None metrics_degraded).
  - intros x Hx. vm_compute in Hx. injection Hx as <-. reflexivity.
  - intros x Hx. vm_compute in Hx. injection Hx as <-. reflexivity.
Defined.

Lemma health_score_defined (metrics : gmap string pyval) :
  metrics !! "utilization" ≠ Some PNone →
  metrics !! "total_onus" = Some (PNum (Int 0)) →
  metrics !! "offline_onus" = Some (PNum (Int 0)) →
  ∃ s, calculate_health_score metrics = Ok s ∧ 20 ≤ s ≤ 100.
Proof.
  intros Hu Ht Ho. unfold calculate_health_score. cbv zeta.
  destruct (dict_get_default_num metrics "utilization" Hu) as (u & -> & _).
  unfold dict_get_default at 1 2. rewrite Ht, Ho. cbn [default from_option id].
  rewrite utilization_block_penalty. cbn [rbind].
  rewrite temperature_block_penalty. cbn [rbind].
  rewrite rx_power_block_penalty. cbn [rbind].
  rewrite offline_onus_block_cases.
  change (value_of (Int 0)) with (ofZ 0).
  replace (Qcltb (ofZ 0) (ofZ 0)) with false by reflexivity. cbn [rbind].
  eexists. split; [reflexivity|].
  pose proof (penalties_range (value_of u) (numeric (dict_get metrics "temperature"))
                (numeric (dict_get metrics "rx_power")) (ofZ 0) (ofZ 0))
    as (Hpu & Hpt & Hpr & _).
  lia.
Qed.

Lemma store_varBinds_keys vc name vb metrics m k :
  store_varBinds vc name vb metrics = Ok m → k ≠ name → m !! k = metrics !! k.
Proof.
  revert metrics. induction vb as [|v vb IH]; intros metrics H Hk.
  - by injection H as <-.
  - cbn in H. destruct (parse_metric vc name v) as [r|e]; [|discriminate].
    cbn in H. rewrite (IH _ H Hk). by rewrite lookup_insert_ne.
Qed.

Lemma read_metrics_keys env ip community n vc oids metrics t m t' k :
  read_metrics env ip community n vc oids metrics t = (Ok m, t') →
  k ∉ oids.*1 → m !! k = metrics !! k.
Proof.
  revert metrics t. induction oids as [|[name base] rest IH]; intros metrics t H Hk.
  - cbn in H. unfold ret in H. by injection H as <- _.
  - cbn [fmap list_fmap fst] in Hk. apply not_elem_of_cons in Hk as [Hne Hk].
    cbn [read_metrics] in H. unfold bind in H. rewrite perform_run in H.
    destruct (env t _) as [| |eI eS vb| |]; cbn [is_Raises] in H; try discriminate.
    destruct (eI || eS); [by apply (IH _ _ H)|].
    unfold lift in H. destruct (store_varBinds vc name vb metrics) as [m1|e] eqn:Hs;
      [|discriminate].
    rewrite (IH _ _ H Hk). by apply (store_varBinds_keys _ _ _ _ _ _ Hs).
Qed.

Lemma zte_utilization_numeric (bi bo u : pyval) :
  calculate_utilization ZTE [bi; bo] = Ok u → ∃ x, u = PNum x.
Proof.
  cbn. unfold ZTEVendor.calculate_utilization_body.
  destruct (is_None bi || is_None bo); [intros [= <-]; by eexists|].
  destruct (py_add bi bo) as [s|]; [|discriminate]. cbn [rbind].
  destruct (py_truediv _ _) as [r|]; [|discriminate]. cbn [rbind].
  destruct (py_mul _ _) as [w|]; [|discriminate]. cbn [rbind].
  intros [= <-]. by eexists.
Qed.

(** X19: With the ZTE class, whatever the device and however it answers,
    a metric set returned by [snmp_get_pon_metrics] always has a health
    score: [calculate_health_score] does not raise on it, and the score
    lies between 20 and 100, for the ONU counts are always 0 and the three
    other blocks take off at most 80. *)
Theorem zte_read_scores_at_least_20 (env : oracle) (ip community : string) (n : Z)
    (t t' : list call) (m : gmap string pyval) :
  snmp_get_pon_metrics env ip community n ZTE t = (Ok (Some m), t') →
  ∃ s, calculate_health_score m = Ok s ∧ 20 ≤ s ≤ 100.
Proof.
  intros H. apply snmp_get_pon_metrics_Some in H
    as (oids & m0 & [= <-] & Hread & m1 & -> & Hm1).
  destruct (onu_counts_inserted m1) as (_ & Ho & Ht & _ & Hother).
  apply health_score_defined; [|exact Ht|exact Ho].
  rewrite Hother by done.
  destruct Hm1 as [[-> _]|(bi & bo & u & _ & _ & Hu & ->)].
  - rewrite (read_metrics_keys _ _ _ _ _ _ _ _ _ _ "utilization" Hread).
    + by rewrite lookup_empty.
    + cbn. rewrite !not_elem_of_cons. repeat (split; [done|]). apply not_elem_of_nil.
  - rewrite lookup_insert_eq. apply zte_utilization_numeric in Hu as [x ->]. done.
Qed.

Lemma zte_read_scores_at_least_20_witness :
  ∃ s, calculate_health_score metrics_healthy_read = Ok s ∧ 20 ≤ s ≤ 100.
Proof.
  apply (zte_read_scores_at_least_20 env_healthy "10.0.0.1" "public" 1 []
           (requests "10.0.0.1" "public" 1 ZTEVendor.PON_PORT_OIDS) metrics_healthy_read).
  reflexivity.
Defined.

(** X20: When the temperature is absent from the metric set and the
    port's temperature threshold is a number below 0, the default 0 passes
    the test and the look-up of the reading raises [KeyError]: the alert
    list is not built, and [check_thresholds] raises before printing any
    alert, also those of the two other checks. *)
Theorem absent_temperature_below_zero_threshold (p : pon_port) (m : gmap string pyval)
    (T : number) :
  threshold_temperature_high p = PNum T →
  (value_of T < ofZ 0)%Qc →
  m !! "temperature" = None →
  build_alerts p m = Raise (KeyError "temperature")
  ∧ ∀ t, check_thresholds p m t = (Raise (KeyError "temperature"), t).
Proof.
  intros HT Hneg Hm.
  assert (Hb : build_alerts p m = Raise (KeyError "temperature")).
  { unfold build_alerts, temperature_check, dict_get_default, dict_item.
    rewrite Hm, HT. cbn [default from_option id py_gt py_lt rbind].
    change (value_of (Int 0)) with (ofZ 0).
    apply Qcltb_lt in Hneg. rewrite Hneg. reflexivity. }
  split; [exact Hb|]. intros t. unfold check_thresholds, bind, lift. by rewrite Hb.
Qed.

Lemma absent_temperature_below_zero_threshold_witness :
  build_alerts port_3 metrics_onus_only = Raise (KeyError "temperature")
  ∧ ∀ t, check_thresholds port_3 metrics_onus_only t = (Raise (KeyError "temperature"), t).
Proof.
  apply (absent_temperature_below_zero_threshold port_3 metrics_onus_only (Int (-5))).
  - reflexivity.
  - apply Qcltb_lt. reflexivity.
  - reflexivity.
Defined.

(** ** More on the poll of one OLT and on the main loops *)

Lemma is_port_call_GetCmd (l : list call) :
  Forall (λ c, is_GetCmd c = true) l → Forall (λ c, is_port_call c = true) l.
Proof.
  intros H. eapply Forall_impl; [exact H|]. intros c Hc. by destruct c.
Qed.

Lemma check_thresholds_calls (p : pon_port) (m : gmap string pyval) (t : list call) :
  ∃ r rest, check_thresholds p m t = (r, t ++ rest)
            ∧ Forall (λ c, is_port_call c = true) rest.
Proof.
  unfold check_thresholds, bind, lift. destruct (build_alerts p m) as [alerts|e].
  - rewrite print_alerts_trace. eexists _, _. split; [done|].
    apply Forall_map. by apply Forall_true.
  - exists (Raise e), []. by rewrite app_nil_r.
Qed.

Lemma poll_pon_port_calls (env : oracle) (o : olt) (p : pon_port)
    (vc : vendor_class) (t : list call) :
  ∃ new, poll_pon_port env o p vc t = (Ok tt, t ++ new)
         ∧ Forall (λ c, is_port_call c = true) new.
Proof.
  unfold poll_pon_port, try_catch, bind.
  destruct (snmp_get_pon_metrics_trace env (olt_ip_address o) (olt_snmp_community o)
              (port_number p) vc t) as (r & gets & -> & HG & _).
  apply is_port_call_GetCmd in HG.
  destruct r as [m|]; [|by exists gets].
  destruct (size m =? 0)%nat; [by exists gets|].
  unfold lift at 1. destruct (calculate_health_score m) as [s|e]; [|by exists gets].
  rewrite perform_run. set (U := UpdatePonPort (update_args p m s)).
  destruct (is_Raises _).
  { exists (gets ++ [U]). split; [by rewrite app_assoc|].
    apply Forall_app. split; [done|]. by repeat constructor. }
  unfold lift at 1. destruct (influx_point_total o p m s) as [pt ->].
  rewrite perform_run. set (I := InfluxWrite pt).
  destruct (is_Raises _).
  { exists (gets ++ [U; I]). split; [by rewrite <- !app_assoc|].
    apply Forall_app. split; [done|]. by repeat constructor. }
  rewrite perform_run. set (H := RedisHset (cache_key p) (cache_mapping m s)).
  destruct (is_Raises _).
  { exists (gets ++ [U; I; H]). split; [by rewrite <- !app_assoc|].
    apply Forall_app. split; [done|]. by repeat constructor. }
  rewrite perform_run. set (E := RedisExpire (cache_key p) 300).
  destruct (is_Raises _).
  { exists (gets ++ [U; I; H; E]). split; [by rewrite <- !app_assoc|].
    apply Forall_app. split; [done|]. by repeat constructor. }
  match goal with
  | |- context [check_thresholds p m ?tr] =>
      destruct (check_thresholds_calls p m tr) as (r & rest & -> & Hrest)
  end.
  exists (gets ++ [U; I; H; E] ++ rest). split.
  { destruct r as [[]|]; by rewrite <- !app_assoc. }
  apply Forall_app. split; [done|]. apply Forall_app. split; [|done].
  by repeat constructor.
Qed.

Lemma poll_pon_ports_calls (env : oracle) (o : olt) (ports : list pon_port)
    (vc : vendor_class) (t : list call) :
  ∃ new, poll_pon_ports env o ports vc t = (Ok tt, t ++ new)
         ∧ Forall (λ c, is_port_call c = true) new.
Proof.
  revert t. induction ports as [|p ports IH]; intros t.
  - exists []. cbn. rewrite app_nil_r. by split.
  - cbn [poll_pon_ports]. unfold bind.
    destruct (poll_pon_port_calls env o p vc t) as (new & -> & Hnew).
    destruct (IH (t ++ new)) as (new' & -> & Hnew').
    exists (new ++ new'). split; [by rewrite app_assoc|]. by apply Forall_app.
Qed.

(** X21: When the vendor of an OLT is supported and the fetch of its ports
    returns rows, the calls of its poll are: the fetch, first and once; then
    only requests, sink writes and alerts of its ports; then the update of
    its last-poll timestamp, last and once.  The timestamp is written
    whatever happened to the ports, and the poll's result is [True] exactly
    when that last update does not raise. *)
Theorem poll_olt_brackets_the_ports (Huawei : vendor_class) (env : oracle) (o : olt)
    (vc : vendor_class) (rows : list pon_port) (t : list call) :
  vendor_map Huawei !! olt_vendor o = Some vc →
  env t (FetchPonPorts (olt_id o)) = PonPortRows rows →
  ∃ mid,
    poll_olt Huawei env o t
    = (Ok (negb (is_Raises (env (t ++ FetchPonPorts (olt_id o) :: mid)
                                (UpdateOltLastPoll (olt_id o))))),
       t ++ FetchPonPorts (olt_id o) :: mid ++ [UpdateOltLastPoll (olt_id o)])
    ∧ Forall (λ c, is_port_call c = true) mid.
Proof.
  intros Hvc Hrows. unfold poll_olt, try_catch. rewrite Hvc.
  unfold bind. rewrite perform_run, Hrows. cbn [is_Raises].
  destruct (poll_pon_ports_calls env o rows vc (t ++ [FetchPonPorts (olt_id o)]))
    as (mid & -> & Hmid).
  exists mid. split; [|exact Hmid].
  rewrite perform_run.
  replace ((t ++ [FetchPonPorts (olt_id o)]) ++ mid)
    with (t ++ FetchPonPorts (olt_id o) :: mid) by by rewrite <- app_assoc.
  destruct (is_Raises _); cbn; by rewrite <- app_assoc.
Qed.

Lemma poll_olt_brackets_the_ports_witness :
  ∃ mid,
    poll_olt ZTE env_healthy olt_zte []
    = (Ok (negb (is_Raises (env_healthy ([] ++ FetchPonPorts (olt_id olt_zte) :: mid)
                                        (UpdateOltLastPoll (olt_id olt_zte))))),
       [] ++ FetchPonPorts (olt_id olt_zte) :: mid ++ [UpdateOltLastPoll (olt_id olt_zte)])
    ∧ Forall (λ c, is_port_call c = true) mid.
Proof.
  apply (poll_olt_brackets_the_ports ZTE env_healthy olt_zte ZTE [port_1] []).
  - reflexivity.
  - reflexivity.
Defined.

Lemma poll_all_olts_returns (Huawei : vendor_class) (env : oracle) (olts : list olt)
    (t : list call) :
  env t FetchOlts = OltRows olts →
  ∃ counts new, poll_all_olts Huawei env t = (Ok counts, t ++ FetchOlts :: new).
Proof.
  intros Hf. unfold poll_all_olts, bind. rewrite perform_run, Hf. cbn [is_Raises].
  destruct (gather_poll_olt Huawei env olts (t ++ [FetchOlts])) as (results & new & -> & _).
  eexists _, new. unfold ret. by rewrite <- app_assoc.
Qed.

Lemma poll_all_olts_fetch_fails (Huawei : vendor_class) (env : oracle) (t : list call) :
  (∀ olts, env t FetchOlts ≠ OltRows olts) →
  ∃ e, poll_all_olts Huawei env t = (Raise e, t ++ [FetchOlts]).
Proof.
  intros Hf. unfold poll_all_olts, bind. rewrite perform_run.
  destruct (env t FetchOlts) as [| | | olts |] eqn:E; cbn [is_Raises];
    try (eexists; reflexivity).
  by destruct (Hf olts).
Qed.

Ltac qc_arith :=
  repeat match goal with
         | H : Qcltb _ _ = true |- _ => apply Qcltb_lt in H
         | H : Qcltb _ _ = false |- _ => apply Qcltb_ge in H
         | H : Qcleb _ _ = true |- _ => apply Qcleb_le in H
         | H : Qcleb _ _ = false |- _ => apply Qcleb_gt in H
         end;
  repeat match goal with
         | |- @eq Qc _ _ => apply Qc_is_canon
         | H : @eq Qc _ _ |- _ => apply Qc_eq_Qeq in H
         end;
  unfold Qcle, Qclt, Qcminus, Qcplus, Qcopp in *;
  cbn [this Q2Qc] in *; rewrite ?Qred_correct in *; rewrite ?this_ofZ in *;
  lra.

(** X22: One turn of the main loop never raises and always ends in a
    sleep of at least one second.  When the cycle returned, the sleep is
    [poll_interval - duration] or 1, whichever is larger, so two cycles
    start at least [poll_interval] seconds apart, and exactly so when the
    cycle took no more than [poll_interval - 1] seconds.  When the fetch of
    the OLTs does not return rows, no OLT is polled and the sleep is 10
    seconds, whatever the interval. *)
Theorem run_turn_sleeps (Huawei : vendor_class) (env : oracle) (poll_interval : Z)
    (duration : Qc) (t : list call) :
  ∃ s t',
    run_turn Huawei env poll_interval duration t = (Ok s, t')
    ∧ (ofZ 1 <= value_of s)%Qc
    ∧ ((∃ olts, env t FetchOlts = OltRows olts) →
       value_of s = Qcmax (ofZ 1) (ofZ poll_interval - duration)
       ∧ (ofZ poll_interval <= duration + value_of s)%Qc
       ∧ ((duration <= ofZ poll_interval - ofZ 1)%Qc →
          (duration + value_of s = ofZ poll_interval)%Qc))
    ∧ ((∀ olts, env t FetchOlts ≠ OltRows olts) →
       s = Int 10 ∧ t' = t ++ [FetchOlts]).
Proof.
  unfold run_turn, try_catch, bind.
  destruct (env t FetchOlts) as [| | | olts |] eqn:E.
  4:{ destruct (poll_all_olts_returns Huawei env olts t E) as (counts & new & ->).
      unfold lift, next_sleep. cbn [py_sub rbind value_of].
      change (value_of (Int poll_interval)) with (ofZ poll_interval).
      unfold py_max. cbn [value_of]. change (value_of (Int 1)) with (ofZ 1).
      eexists _, _. split; [reflexivity|].
      unfold Qcmax.
      destruct (Qcltb (ofZ 1) (ofZ poll_interval - duration)) eqn:E1;
        destruct (Qcleb (ofZ 1) (ofZ poll_interval - duration)) eqn:E2;
        cbn [value_of]; try change (value_of (Int 1)) with (ofZ 1).
      all: split; [qc_arith|].
      all: split; [|intros Hno; by destruct (Hno olts)].
      all: intros _; split; [qc_arith|].
      all: split; [qc_arith|intros Hd; qc_arith]. }
  all: destruct (poll_all_olts_fetch_fails Huawei env t) as (e & ->);
    [intros olts; rewrite E; discriminate|].
  all: exists (Int 10), (t ++ [FetchOlts]); split; [reflexivity|].
  all: split; [apply Qcleb_le; reflexivity|].
  all: split; [intros [olts Ho]; discriminate|by intros _].
Qed.

Lemma string_length_app (s t : string) :
  String.length (s +:+ t) = (String.length s + String.length t)%nat.
Proof. induction s as [|c s IH]; [reflexivity|]. simpl. by rewrite IH. Qed.

Lemma string_app_inj_r (s1 s2 t : string) : s1 +:+ t = s2 +:+ t → s1 = s2.
Proof.
  revert s2. induction s1 as [|a s1 IH]; intros [|b s2] H.
  - reflexivity.
  - apply (f_equal String.length) in H. rewrite !string_length_app in H. simpl in H. lia.
  - apply (f_equal String.length) in H. rewrite !string_length_app in H. simpl in H. lia.
  - simpl in H. injection H as -> H. f_equal. by apply IH.
Qed.

(** X23: The cache key of a port determines the port: two ports have the
    same Redis key exactly when they have the same id, so the cached hash of
    one port is never overwritten by the poll of another; the same holds
    for the [pon_port_id] tag of the InfluxDB point. *)
Theorem cache_key_injective (p p' : pon_port) :
  (cache_key p = cache_key p' ↔ port_id p = port_id p')
  ∧ ∀ o m s pt pt',
      influx_point o p m s = Ok pt → influx_point o p' m s = Ok pt' →
      (assoc "pon_port_id" (tags pt) = assoc "pon_port_id" (tags pt')
       ↔ port_id p = port_id p').
Proof.
  split.
  - split; [|by unfold cache_key; intros ->].
    unfold cache_key. intros H. apply (inj (String.app "pon_port:")) in H.
    apply string_app_inj_r in H. by apply (inj pretty) in H.
  - intros o m s pt pt' H H'.
    unfold influx_point in H, H'.
    repeat match type of H with
           | rbind ?r _ = _ => destruct r; [cbn [rbind] in H, H'|discriminate]
           end.
    injection H as <-. injection H' as <-. cbn.
    split; [intros [= Hp]; by apply (inj pretty) in Hp|by intros ->].
Qed.

(** ** The polling service of the gateway *)

Lemma simple_poll_olts_trace (db : SimplePoller.database) (olts : list olt)
    (t : list SimplePoller.statement) :
  ∃ new, SimplePoller.poll_olts db olts t = (Ok tt, t ++ new)
         ∧ SimplePoller.updates new = map olt_id olts.
Proof.
  revert t. induction olts as [|o olts IH]; intros t.
  - exists []. cbn. by rewrite app_nil_r.
  - cbn [SimplePoller.poll_olts].
    assert (Hone : ∃ r extra,
               SimplePoller._poll_olt db o t
               = (r, t ++ SimplePoller.UpdateLastPollAt (olt_id o) :: extra)
               ∧ SimplePoller.updates extra = []).
    { unfold SimplePoller._poll_olt, SimplePoller.execute.
      destruct (db t _).
      - exists (Raise CollaboratorError), []. by split.
      - destruct (db _ SimplePoller.Commit); eexists _, [SimplePoller.Commit];
          (split; [by rewrite <- app_assoc|reflexivity]).
      - destruct (db _ SimplePoller.Commit); eexists _, [SimplePoller.Commit];
          (split; [by rewrite <- app_assoc|reflexivity]). }
    destruct Hone as (r & extra & -> & Hextra).
    destruct (IH (t ++ SimplePoller.UpdateLastPollAt (olt_id o) :: extra))
      as (new & -> & Hnew).
    exists (SimplePoller.UpdateLastPollAt (olt_id o) :: extra ++ new). split.
    + by rewrite <- app_assoc.
    + unfold SimplePoller.updates in *. cbn [omap list_omap]. cbn [map].
      f_equal. rewrite omap_app. rewrite Hextra, Hnew. reflexivity.
Qed.

(** X24: In one turn of [poll_loop], when the [SELECT] returns the rows of
    the OLTs, the update of the last poll is attempted for every OLT, once
    each and in the order of the rows, whatever the outcome of the
    statements of the OLTs before it, and the turn ends in a sleep of 30
    seconds; the turn itself never raises.  When the [SELECT] does not
    return rows, no update is attempted and the sleep is 5 seconds. *)
Theorem simple_poller_updates_every_olt (db : SimplePoller.database) (olts : list olt)
    (t : list SimplePoller.statement) :
  db t SimplePoller.SelectMonitoringOlts = SimplePoller.Rows olts →
  (∃ new,
     SimplePoller.poll_loop_turn db t
     = (Ok 30, t ++ SimplePoller.SelectMonitoringOlts :: new)
     ∧ SimplePoller.updates new = map olt_id olts)
  ∧ ∀ db' t',
      (∀ rows, db' t' SimplePoller.SelectMonitoringOlts ≠ SimplePoller.Rows rows) →
      SimplePoller.poll_loop_turn db' t'
      = (Ok 5, t' ++ [SimplePoller.SelectMonitoringOlts]).
Proof.
  intros Hsel. split.
  - unfold SimplePoller.poll_loop_turn, SimplePoller._get_monitoring_olts,
      SimplePoller.execute. rewrite Hsel.
    destruct (simple_poll_olts_trace db olts (t ++ [SimplePoller.SelectMonitoringOlts]))
      as (new & -> & Hnew).
    exists new. split; [by rewrite <- app_assoc|exact Hnew].
  - intros db' t' Hno.
    unfold SimplePoller.poll_loop_turn, SimplePoller._get_monitoring_olts,
      SimplePoller.execute.
    destruct (db' t' SimplePoller.SelectMonitoringOlts) as [| |rows] eqn:E;
      [reflexivity|reflexivity|by destruct (Hno rows)].
Qed.

Lemma simple_poller_updates_every_olt_witness :
  (∃ new,
     SimplePoller.poll_loop_turn db_olt_1_refused []
     = (Ok 30, [] ++ SimplePoller.SelectMonitoringOlts :: new)
     ∧ SimplePoller.updates new = map olt_id [olt_zte; olt_vsol])
  ∧ ∀ db' t',
      (∀ rows, db' t' SimplePoller.SelectMonitoringOlts ≠ SimplePoller.Rows rows) →
      SimplePoller.poll_loop_turn db' t'
      = (Ok 5, t' ++ [SimplePoller.SelectMonitoringOlts]).
Proof.
  apply (simple_poller_updates_every_olt db_olt_1_refused [olt_zte; olt_vsol] []).
  reflexivity.
Defined.

(** ** More on the read of one port *)

(** X25: The identifier requested for a metric is its base identifier, a
    dot and the port number: for the same device and a table that is not
    empty, two port numbers give the same requests exactly when they are
    equal, so the requests of two ports of an OLT never coincide. *)
Theorem requests_determine_the_port (ip community : string) (n n' : Z)
    (oids : list (string * string)) :
  oids ≠ [] →
  requests ip community n oids = requests ip community n' oids ↔ n = n'.
Proof.
  intros Hne. split; [|by intros ->].
  intros H. destruct oids as [|[name base] rest]; [done|].
  cbn in H. injection H as H _.
  apply (inj (String.app base)) in H. apply (inj (String.app ".")) in H.
  by apply (inj pretty) in H.
Qed.

Lemma requests_determine_the_port_witness :
  requests "10.0.0.1" "public" 3 ZTEVendor.PON_PORT_OIDS
  = requests "10.0.0.1" "public" 4 ZTEVendor.PON_PORT_OIDS
  ↔ 3 = 4.
Proof.
  apply (requests_determine_the_port "10.0.0.1" "public" 3 4 ZTEVendor.PON_PORT_OIDS).
  discriminate.
Defined.

Lemma zte_counter_is_int (name : string) (value r : pyval) :
  name = "bandwidth_in" ∨ name = "bandwidth_out" →
  parse_metric ZTE name value = Ok r → ∃ k, r = PNum (Int k).
Proof.
  intros [-> | ->]; unfold parse_metric; cbn [String.eqb Ascii.eqb Bool.eqb];
    cbn -[truthy py_int].
  all: destruct value as [|[k|q]]; cbn; try (intros [= <-]; by eexists).
  all: destruct (negb _); intros [= <-]; by eexists.
Qed.

Lemma store_varBinds_value vc name vb metrics m (P : pyval → Prop) :
  store_varBinds vc name vb metrics = Ok m →
  (∀ raw r, parse_metric vc name raw = Ok r → P r) →
  (∀ v, metrics !! name = Some v → P v) →
  ∀ v, m !! name = Some v → P v.
Proof.
  revert metrics. induction vb as [|raw vb IH]; intros metrics H Hp Hm.
  - by injection H as <-.
  - cbn in H. destruct (parse_metric vc name raw) as [r|e] eqn:Er; [|discriminate].
    cbn in H. apply (IH _ H Hp). intros v. rewrite lookup_insert_eq. intros [= <-].
    by apply (Hp raw).
Qed.

Lemma read_metrics_value env ip community n vc oids metrics t m t' k (P : pyval → Prop) :
  read_metrics env ip community n vc oids metrics t = (Ok m, t') →
  (∀ raw r, parse_metric vc k raw = Ok r → P r) →
  (∀ v, metrics !! k = Some v → P v) →
  ∀ v, m !! k = Some v → P v.
Proof.
  revert metrics t. induction oids as [|[name base] rest IH]; intros metrics t H Hp Hm.
  - cbn in H. unfold ret in H. by injection H as <- _.
  - cbn [read_metrics] in H. unfold bind in H. rewrite perform_run in H.
    destruct (env t _) as [| |eI eS vb| |]; cbn [is_Raises] in H; try discriminate.
    destruct (eI || eS); [by apply (IH _ _ H)|].
    unfold lift in H. destruct (store_varBinds vc name vb metrics) as [m1|e] eqn:Hs;
      [|discriminate].
    apply (IH _ _ H Hp). destruct (decide (k = name)) as [->|Hne].
    + by apply (store_varBinds_value _ _ _ _ _ P Hs).
    + intros v. rewrite (store_varBinds_keys _ _ _ _ _ _ Hs Hne). apply Hm.
Qed.

(** X26: In a metric set returned by [snmp_get_pon_metrics] with the ZTE
    class, the utilization is present exactly when both traffic counters
    are; the counters are then ints and the utilization is their sum
    divided by the default capacity of 10 000 000 000, in percent, capped
    at 100. *)
Theorem zte_read_utilization (env : oracle) (ip community : string) (n : Z)
    (t t' : list call) (m : gmap string pyval) :
  snmp_get_pon_metrics env ip community n ZTE t = (Ok (Some m), t') →
  (is_Some (m !! "utilization")
   ↔ is_Some (m !! "bandwidth_in") ∧ is_Some (m !! "bandwidth_out"))
  ∧ ∀ bi bo,
      m !! "bandwidth_in" = Some bi → m !! "bandwidth_out" = Some bo →
      ∃ x y,
        bi = PNum (Int x) ∧ bo = PNum (Int y)
        ∧ m !! "utilization"
          = Some (PNum (Float (Qcmin (ofZ 100)
                                 (ofZ (x + y) / ofZ 10000000000 * ofZ 100)%Qc))).
Proof.
  intros H. apply snmp_get_pon_metrics_Some in H
    as (oids & m0 & [= <-] & Hread & m1 & -> & Hm1).
  destruct (onu_counts_inserted m1) as (_ & _ & _ & _ & Hother).
  rewrite !Hother by done.
  assert (Hu0 : m0 !! "utilization" = None).
  { rewrite (read_metrics_keys _ _ _ _ _ _ _ _ _ _ "utilization" Hread).
    - by rewrite lookup_empty.
    - cbn. rewrite !not_elem_of_cons. repeat (split; [done|]). apply not_elem_of_nil. }
  assert (Hint : ∀ k v, k = "bandwidth_in" ∨ k = "bandwidth_out" →
                        m0 !! k = Some v → ∃ z, v = PNum (Int z)).
  { intros k v Hk.
    apply (read_metrics_value _ _ _ _ _ _ _ _ _ _ k (λ v, ∃ z, v = PNum (Int z)) Hread).
    - intros raw r. by apply zte_counter_is_int.
    - intros w. by rewrite lookup_empty. }
  destruct Hm1 as [[-> Habs]|(bi & bo & u & Hbi & Hbo & Hu & ->)].
  - rewrite Hu0.
    assert (Hnot : ¬ (is_Some (m0 !! "bandwidth_in") ∧ is_Some (m0 !! "bandwidth_out"))).
    { intros [[bi Hbi] [bo Hbo]]. destruct Habs as [Ha|Ha]; congruence. }
    split; [split; [by intros [? ?]|by intros ?]|].
    intros bi bo Hbi Hbo. destruct Hnot. by split; eexists.
  - rewrite lookup_insert_eq. rewrite !lookup_insert_ne by done. rewrite Hbi, Hbo.
    split; [split; [intros _; by split; eexists|by eexists]|].
    intros bi' bo' [= <-] [= <-].
    destruct (Hint _ _ (or_introl eq_refl) Hbi) as [x ->].
    destruct (Hint _ _ (or_intror eq_refl) Hbo) as [y ->].
    exists x, y. split; [reflexivity|]. split; [reflexivity|].
    f_equal.
    change (calculate_utilization ZTE [PNum (Int x); PNum (Int y)])
      with (ZTEVendor.calculate_utilization_body (PNum (Int x)) (PNum (Int y))
              (PNum (Int 10000000000))) in Hu.
    rewrite zte_utilization in Hu.
    change (value_of (Int 10000000000)) with (ofZ 10000000000) in Hu.
    replace (Qceqb (ofZ 10000000000) (ofZ 0)) with false in Hu by reflexivity.
    injection Hu as <-. do 3 f_equal.
    change (value_of (Int x)) with (ofZ x). change (value_of (Int y)) with (ofZ y).
    by rewrite ofZ_add.
Qed.

Lemma zte_read_utilization_witness :
  (is_Some (metrics_healthy_read !! "utilization")
   ↔ is_Some (metrics_healthy_read !! "bandwidth_in")
     ∧ is_Some (metrics_healthy_read !! "bandwidth_out"))
  ∧ ∀ bi bo,
      metrics_healthy_read !! "bandwidth_in" = Some bi →
      metrics_healthy_read !! "bandwidth_out" = Some bo →
      ∃ x y,
        bi = PNum (Int x) ∧ bo = PNum (Int y)
        ∧ metrics_healthy_read !! "utilization"
          = Some (PNum (Float (Qcmin (ofZ 100)
                                 (ofZ (x + y) / ofZ 10000000000 * ofZ 100)%Qc))).
Proof.
  apply (zte_read_utilization env_healthy "10.0.0.1" "public" 1 []
           (requests "10.0.0.1" "public" 1 ZTEVendor.PON_PORT_OIDS) metrics_healthy_read).
  reflexivity.
Defined.
